(** * Market-price estimation and wish-list monitoring: a shallow embedding

    The development has three parts.

    - The embedding of the two edge functions of the application:
      [supabase/functions/market-analysis/index.ts] (module
      [MarketAnalysis]: [generateSearchTerms], [getMockData],
      [searcheBaySoldListings], [calculateMarketAnalysis] and the request
      handler) and the eBay monitor function (module [EbayMonitor]:
      [getMockEbayData], [searchEbayListings] and [processWishlistItem];
      module [EbayMonitorServe]: its request handler), of
      [src/utils/customFields.ts] (module [CustomFields]: the categories
      and conditions kept in the browser's storage), and of the searches
      and the handler of the market analysis on terms that
      [encodeURIComponent] rejects (module [Malformed]).
    - The vocabulary in which the properties are stated, and the sample
      host, environments and worlds of the worked examples.
    - The properties, with the lemmas they rest on.

    Conventions of the embedding.

    - A JavaScript string is a [string]; every character stands for one
      UTF-16 code unit below 256.  Such a string holds no lone surrogate,
      so [encodeURIComponent], a field of the [Host], is total on it.  The
      module [Malformed] is the code that calls [encodeURIComponent] once
      more, with the [URIError] it throws on a string for which an oracle
      says that it holds a lone surrogate, as a term taken from the body
      of a request can.
    - A JavaScript number is a binary64 [float]; the arithmetic is the
      kernel's IEEE-754 arithmetic.
    - An optional or nullable field is an [option]; interpolating a missing
      value into a template literal prints [undefined].
    - Code that awaits, throws or touches the outside world runs in the
      monad [M]: a state transformer over [World] whose result is either
      a value or an exception.  The state survives an exception, as it does
      in JavaScript.  Logging is left out.
    - What the outside world answers (the environment variable, the HTTP
      responses, [Math.random], the clock, the outcome of every store call)
      is read from an [Env]; built-in functions that are not modelled
      ([parseFloat], [encodeURIComponent], [Date.prototype.toISOString],
      number printing) are the fields of a [Host].
    - A response of the marketplace is kept as the fields the code reads of
      it ([ApiItem], [ApiResult], [Json]); the values on which reading a
      property or iterating throws are kept as such.
    - A store call is carried out, or it reports an error in its
      [{ data, error }] result, or it throws ([StoreOutcome]).  The lookup
      ends in [single()], whose [data] is the row when exactly one row
      matches and [null] otherwise.
    - The browser's [localStorage] is a [LocalStorage]: the stored items
      and the items it has room for; [JSON.parse], [JSON.stringify] and
      [toUpperCase] are parameters of the functions that call them. *)

From Stdlib Require Import String Ascii List Bool Arith ZArith Lia Floats.
Import ListNotations.

Set Warnings "-inexact-float".

Local Open Scope string_scope.
Local Open Scope list_scope.

(* ================================================================== *)
(** ** JavaScript strings *)
(* ================================================================== *)

Module JsString.

(** White space and line terminators below code unit 256: TAB, LF, VT, FF,
    CR, SPACE and NBSP.  [String.prototype.trim] and the regular
    expression class [\s] use the same set. *)
Definition isWhiteSpace (c : ascii) : bool :=
  let n := nat_of_ascii c in
  (n =? 9)%nat || (n =? 10)%nat || (n =? 11)%nat || (n =? 12)%nat
  || (n =? 13)%nat || (n =? 32)%nat || (n =? 160)%nat.

Fixpoint trimStart (s : string) : string :=
  match s with
  | EmptyString => EmptyString
  | String c s' => if isWhiteSpace c then trimStart s' else s
  end.

Fixpoint trimEnd (s : string) : string :=
  match s with
  | EmptyString => EmptyString
  | String c s' =>
      match trimEnd s' with
      | EmptyString => if isWhiteSpace c then EmptyString else String c EmptyString
      | t => String c t
      end
  end.

(** [s.trim()] *)
Definition trim (s : string) : string := trimEnd (trimStart s).

(** A string is truthy when it is not empty. *)
Definition truthy (s : string) : bool :=
  match s with EmptyString => false | _ => true end.

(** [s.includes(sub)] *)
Fixpoint includes (s sub : string) : bool :=
  prefix sub s
  || match s with
     | EmptyString => false
     | String _ s' => includes s' sub
     end.

(** [s.toLowerCase()] on code units below 256: A-Z, and the Latin-1
    capitals U+00C0-U+00DE except the multiplication sign U+00D7. *)
Definition lowerChar (c : ascii) : ascii :=
  let n := nat_of_ascii c in
  if ((65 <=? n) && (n <=? 90))%nat
     || ((192 <=? n) && (n <=? 222) && negb (n =? 215))%nat
  then ascii_of_nat (n + 32)
  else c.

Fixpoint toLowerCase (s : string) : string :=
  match s with
  | EmptyString => EmptyString
  | String c s' => String (lowerChar c) (toLowerCase s')
  end.

(** [s.replace(/\s+/g, ' ')]: every maximal run of white space becomes one
    space. *)
Fixpoint collapseFrom (inRun : bool) (s : string) : string :=
  match s with
  | EmptyString => EmptyString
  | String c s' =>
      if isWhiteSpace c
      then if inRun then collapseFrom true s'
           else String " "%char (collapseFrom true s')
      else String c (collapseFrom false s')
  end.

Definition collapseSpaces (s : string) : string := collapseFrom false s.

(** [`${x}`] for a value that may be [undefined]. *)
Definition show (o : option string) : string :=
  match o with Some s => s | None => "undefined" end.

(** Truthiness of an optional string: [undefined] and [''] are falsy. *)
Definition present (o : option string) : bool :=
  match o with Some s => truthy s | None => false end.

(** [x || d] *)
Definition orElse (o : option string) (d : string) : string :=
  match o with
  | Some s => if truthy s then s else d
  | None => d
  end.

(** [x || undefined] *)
Definition orUndefined (o : option string) : option string :=
  match o with
  | Some s => if truthy s then Some s else None
  | None => None
  end.

End JsString.

(* ================================================================== *)
(** ** JavaScript numbers *)
(* ================================================================== *)

Module JsNumber.

Local Open Scope float_scope.

(** Truthiness of a number: [0], [-0] and [NaN] are falsy. *)
Definition truthy (x : float) : bool := negb (is_nan x) && negb (is_zero x).

(** Truthiness of an optional number ([undefined] and [null] are falsy). *)
Definition present (o : option float) : bool :=
  match o with Some x => truthy x | None => false end.

(** [2^52]: from here on every binary64 value is an integer. *)
Definition two52 : float := 4503599627370496.

(** [Math.round(x)]: the integer nearest to [x], a tie going up.  Below
    [2^52] the sum [|x| + 2^52] is rounded by the hardware to an integer,
    which gives the integer part [t] of [|x|]; the fraction [|x| - t] is
    exact. *)
Definition round (x : float) : float :=
  if is_zero x then x
  else if abs x <? two52 then
    let r := (abs x + two52) - two52 in
    let t := if abs x <? r then r - 1 else r in
    let frac := abs x - t in
    if x <? 0
    then (if frac <=? 0.5 then - t else - (t + 1))
    else (if frac <? 0.5 then t else t + 1)
  else x.

(** One step of [Math.max]: [highest] is the running maximum. *)
Definition maxStep (highest number : float) : float :=
  if is_nan highest || is_nan number then nan
  else if is_zero number && negb (get_sign number)
          && is_zero highest && get_sign highest then number
  else if highest <? number then number
  else highest.

(** One step of [Math.min]: [lowest] is the running minimum. *)
Definition minStep (lowest number : float) : float :=
  if is_nan lowest || is_nan number then nan
  else if is_zero number && get_sign number
          && is_zero lowest && negb (get_sign lowest) then number
  else if number <? lowest then number
  else lowest.

(** [Math.max(...l)] and [Math.min(...l)] *)
Definition max (l : list float) : float := fold_left maxStep l neg_infinity.
Definition min (l : list float) : float := fold_left minStep l infinity.


End JsNumber.

(* ================================================================== *)
(** ** The outside world *)
(* ================================================================== *)

(** A thrown value; only its message is ever read. *)
Inductive exn : Type := Error (message : string).

Definition message (e : exn) : string := let 'Error m := e in m.

(** *** The marketplace's answers

    The Finding API wraps every field in a one-element array.  [ApiItem]
    holds what the code reads of one element of
    [searchResult[0].item]; a field is [None] when the optional chain that
    reads it gives [undefined]. *)
Record ApiItem : Type := {
  api_title : option string;             (* item.title?.[0] *)
  api_sellingState : option string;      (* item.sellingStatus?.[0]?.sellingState?.[0] *)
  api_currentPrice : option string;      (* item.sellingStatus?.[0]?.currentPrice?.[0]?.__value__ *)
  api_endTime : option string;           (* item.listingInfo?.[0]?.endTime?.[0] *)
  api_conditionDisplayName : option string; (* item.condition?.[0]?.conditionDisplayName?.[0] *)
  api_viewItemURL : option string;       (* item.viewItemURL?.[0] *)
  api_galleryURL : option string         (* item.galleryURL?.[0] *)
}.

(** The value of [searchResult.searchResult?.[0]?.item]. *)
Inductive ApiItems : Type :=
| ItemsMissing                            (* undefined, null or another falsy value *)
| ItemsArray (l : list (option ApiItem))  (* an array; [None] is a null element,
                                             reading a property of it throws *)
| ItemsNotIterable.                       (* truthy, but [for ... of] throws *)

(** The value of [data.find...Response?.[0]] when it is defined. *)
Record ApiResult : Type := {
  api_ack : option string;                (* searchResult?.ack?.[0] *)
  api_items : ApiItems
}.

(** What [response.json()] resolves to. *)
Inductive Json : Type :=
| JsonNull                                (* reading a property of it throws *)
| JsonObject (findItemsByKeywordsResponse findCompletedItemsResponse : option ApiResult).

Record HttpResponse : Type := {
  http_status : Z;
  http_json : option Json                 (* [None]: response.json() rejects *)
}.

(** [response.ok] *)
Definition http_ok (r : HttpResponse) : bool :=
  ((200 <=? http_status r) && (http_status r <=? 299))%Z.

Inductive FetchOutcome : Type :=
| FetchRejected (e : exn)
| FetchResolved (r : HttpResponse).

(** *** The durable store *)

Record FoundListing : Type := {
  wishlist_item_id : string;
  platform : string;
  listing_title : string;
  listing_price : float;
  listing_url : string;
  listing_image_url : option string;
  found_at : string;
  notified : bool
}.

Record WishlistItem : Type := {
  id : string;
  item_name : string;
  ebay_search_term : option string;
  desired_price_max : option float;
  status : string;
  last_checked_at : option string;
  updated_at : option string
}.

(** How the store answers one request: it carries it out, it reports an
    error in the [{ data, error }] result (then [data] is [null] and nothing
    is written), or the call throws. *)
Inductive StoreOutcome : Type := Done | Failed | Raised (e : exn).

(** *** Environment, host and state *)

Record Env : Type := {
  EBAY_APP_ID : option string;             (* Deno.env.get('EBAY_APP_ID') *)
  respond : nat -> string -> FetchOutcome; (* the answer to the n-th fetch, of that URL *)
  Math_random : nat -> float;              (* the n-th draw *)
  Date_now : nat -> float;                 (* the n-th reading of the clock *)
  lookupOutcome : nat -> StoreOutcome;     (* indexed by the number of earlier store calls *)
  insertOutcome : nat -> StoreOutcome;
  updateOutcome : nat -> StoreOutcome
}.

Record Host : Type := {
  parseFloat : string -> float;
  encodeURIComponent : string -> string;
  toISOString : float -> string;           (* new Date(t).toISOString() *)
  numberToString : float -> string         (* `${n}` *)
}.

Inductive Event : Type :=
| Fetched (url : string)
| Slept (ms : Z).

Record World : Type := {
  trace : list Event;                      (* fetches and pauses, oldest first *)
  draws : nat;                             (* draws of Math.random so far *)
  ticks : nat;                             (* readings of the clock so far *)
  storeCalls : nat;                        (* store requests so far *)
  found_listings : list FoundListing;
  wishlist_items : list WishlistItem
}.

(** The URLs fetched so far, oldest first. *)
Definition fetchedUrls (t : list Event) : list string :=
  flat_map (fun e => match e with Fetched u => [u] | Slept _ => [] end) t.

(* ================================================================== *)
(** ** The monad of effects *)
(* ================================================================== *)

Inductive outcome (A : Type) : Type :=
| Returned (a : A)
| Thrown (e : exn).

Arguments Returned {A} a.
Arguments Thrown {A} e.

Definition M (A : Type) : Type := World -> outcome A * World.

Definition ret {A} (a : A) : M A := fun w => (Returned a, w).

Definition bind {A B} (m : M A) (k : A -> M B) : M B :=
  fun w =>
    match m w with
    | (Returned a, w') => k a w'
    | (Thrown e, w') => (Thrown e, w')
    end.

Definition throw {A} (e : exn) : M A := fun w => (Thrown e, w).

(** [try { body } catch (e) { handler e }] *)
Definition tryCatch {A} (body : M A) (handler : exn -> M A) : M A :=
  fun w =>
    match body w with
    | (Returned a, w') => (Returned a, w')
    | (Thrown e, w') => handler e w'
    end.

Declare Scope js_scope.
Delimit Scope js_scope with js.
Notation "x <- m ;; k" := (bind m (fun x => k))
  (at level 61, m at next level, right associativity) : js_scope.
Notation "m ;;; k" := (bind m (fun _ => k))
  (at level 61, right associativity) : js_scope.

Section Primitives.

Variable env : Env.

Local Open Scope js_scope.

Definition emit (e : Event) : M unit :=
  fun w => (Returned tt,
            {| trace := trace w ++ [e]; draws := draws w; ticks := ticks w;
               storeCalls := storeCalls w;
               found_listings := found_listings w;
               wishlist_items := wishlist_items w |}).

(** [await fetch(url, ...)] *)
Definition fetch (url : string) : M HttpResponse :=
  fun w =>
    let n := length (fetchedUrls (trace w)) in
    let (_, w') := emit (Fetched url) w in
    match respond env n url with
    | FetchRejected e => (Thrown e, w')
    | FetchResolved r => (Returned r, w')
    end.

(** [await response.json()] *)
Definition json (r : HttpResponse) : M Json :=
  match http_json r with
  | Some j => ret j
  | None => throw (Error "Unexpected token in JSON")
  end.

(** [await new Promise(resolve => setTimeout(resolve, ms))] *)
Definition sleep (ms : Z) : M unit := emit (Slept ms).

(** [Math.random()] *)
Definition random : M float :=
  fun w => (Returned (Math_random env (draws w)),
            {| trace := trace w; draws := S (draws w); ticks := ticks w;
               storeCalls := storeCalls w;
               found_listings := found_listings w;
               wishlist_items := wishlist_items w |}).

(** [Date.now()], and the time value of [new Date()] *)
Definition now : M float :=
  fun w => (Returned (Date_now env (ticks w)),
            {| trace := trace w; draws := draws w; ticks := S (ticks w);
               storeCalls := storeCalls w;
               found_listings := found_listings w;
               wishlist_items := wishlist_items w |}).

End Primitives.

(* ================================================================== *)
(** ** supabase/functions/market-analysis/index.ts *)
(* ================================================================== *)

Module MarketAnalysis.

Import JsString.
Local Open Scope float_scope.
Local Open Scope js_scope.

Definition corsHeaders : list (string * string) :=
  [ ("Access-Control-Allow-Origin", "*");
    ("Access-Control-Allow-Methods", "GET, POST, PUT, DELETE, OPTIONS");
    ("Access-Control-Allow-Headers", "Content-Type, Authorization") ]%string.

(** The parsed request body; a field is [None] when the body lacks it. *)
Record MarketAnalysisRequest : Type := {
  itemName : option string;
  manufacturer : option string;
  pattern : option string;
  category : option string;
  description : option string;
  photoUrl : option string
}.

Record eBayItem : Type := {
  title : string;
  price : float;
  soldDate : string;
  condition : string;
  url : string;
  imageUrl : option string
}.

Inductive Confidence : Type := high | medium | low.

Record PriceRange : Type := { min : float; max : float }.

(** [Omit<MarketAnalysisResponse, 'searchTermsUsed'>] *)
Record MarketAnalysis : Type := {
  averagePrice : float;
  recentSales : list eBayItem;
  priceRange : PriceRange;
  confidence : Confidence
}.

Record MarketAnalysisResponse : Type := {
  analysis : MarketAnalysis;               (* ...analysis *)
  searchTermsUsed : list string
}.

(* ---------------------------------------------------------------- *)
(** *** generateSearchTerms *)

(** [request.category === 'milk_glass' ? 'milk glass' : 'jadite'] *)
Definition categoryName (request : MarketAnalysisRequest) : string :=
  match category request with
  | Some c => if (c =? "milk_glass")%string then "milk glass" else "jadite"
  | None => "jadite"
  end.

(** [new Set(l)], spread back into an array: the elements of [l] in the
    order of their first occurrence. *)
Definition setAdd (seen : list string) (x : string) : list string :=
  if existsb (String.eqb x) seen then seen else seen ++ [x].

Definition newSet (l : list string) : list string := fold_left setAdd l [].

Definition combinedTerms (request : MarketAnalysisRequest) : list string :=
  let categoryName := categoryName request in
  let name := show (itemName request) in
  let maker := show (manufacturer request) in
  let motif := show (pattern request) in
  [ trim (name ++ " " ++ categoryName);
    trim (categoryName ++ " " ++ name);
    trim ("vintage " ++ categoryName ++ " " ++ name) ]
  ++ (if present (manufacturer request)
      then [ trim (maker ++ " " ++ categoryName);
             trim (maker ++ " " ++ name ++ " " ++ categoryName);
             trim (categoryName ++ " " ++ maker);
             trim (maker ++ " " ++ name);
             trim (name ++ " " ++ maker) ]
      else [])
  ++ (if present (pattern request)
      then [ trim (motif ++ " " ++ categoryName);
             trim (categoryName ++ " " ++ motif) ]
      else []).

Definition generateSearchTerms (request : MarketAnalysisRequest) : list string :=
  newSet (filter truthy (combinedTerms request)).

(* ---------------------------------------------------------------- *)
(** *** calculateMarketAnalysis *)

Definition calculateMarketAnalysis (soldItems : list eBayItem) : MarketAnalysis :=
  match soldItems with
  | [] =>
      {| averagePrice := 0;
         recentSales := [];
         priceRange := {| min := 0; max := 0 |};
         confidence := low |}
  | first :: _ =>
      let mostRecentPrice := price first in
      let prices := map price soldItems in
      let minPrice := JsNumber.min prices in
      let maxPrice := JsNumber.max prices in
      let confidence :=
        if (5 <=? length soldItems)%nat then
          let priceVariation := (maxPrice - minPrice) / mostRecentPrice in
          if priceVariation <? 0.3 then high else medium
        else if (3 <=? length soldItems)%nat then medium
        else low in
      {| averagePrice := JsNumber.round (mostRecentPrice * 100) / 100;
         recentSales := firstn 10 soldItems;
         priceRange := {| min := JsNumber.round (minPrice * 100) / 100;
                          max := JsNumber.round (maxPrice * 100) / 100 |};
         confidence := confidence |}
  end.

Section WithWorld.

Variable host : Host.
Variable env : Env.

(* -------------------------------------------------------------- *)
(** *** getMockData *)

Definition generateEbaySearchUrl (title : string) : string :=
  let searchQuery := encodeURIComponent host (trim (collapseSpaces title)) in
  "https://www.ebay.com/sch/i.html?_nkw=" ++ searchQuery
  ++ "&_sacat=0&LH_Sold=1&LH_Complete=1&_sop=13&rt=nc".

Definition brands : list string :=
  ["fenton"; "fire-king"; "anchor hocking"; "pyrex"; "corning"]%string.

(** [Math.round((Math.random() * spread + base) * 100) / 100] *)
Definition mockPrice (spread base : float) : M float :=
  r <- random env;;
  ret (JsNumber.round ((r * spread + base) * 100) / 100).

(** [new Date(Date.now() - Math.random() * days * 24 * 60 * 60 * 1000).toISOString()] *)
Definition mockSoldDate (days : float) : M string :=
  t <- now env;;
  r <- random env;;
  ret (toISOString host (t - r * days * 24 * 60 * 60 * 1000)).

Definition getMockData (searchTerms : list string) : M (list eBayItem) :=
  let primaryTerm := orElse (hd_error searchTerms) "collectible" in
  let manufacturer :=
    orElse (find (fun term =>
                    existsb (fun brand => includes (toLowerCase term) brand) brands)
                 searchTerms) "" in
  p1 <- mockPrice 50 50;;
  d1 <- mockSoldDate 30;;
  p2 <- mockPrice 40 40;;
  d2 <- mockSoldDate 20;;
  p3 <- mockPrice 60 60;;
  d3 <- mockSoldDate 15;;
  let mockSoldItems :=
    [ {| title := manufacturer ++ " " ++ primaryTerm ++ " - Vintage Collectible";
         price := p1;
         soldDate := d1;
         condition := "Excellent";
         url := generateEbaySearchUrl (manufacturer ++ " " ++ primaryTerm ++ " vintage");
         imageUrl := None |};
      {| title := trim ("Vintage " ++ primaryTerm ++ " "
                        ++ (if truthy manufacturer then "by " ++ manufacturer else ""));
         price := p2;
         soldDate := d2;
         condition := "Very Good";
         url := generateEbaySearchUrl ("vintage " ++ primaryTerm ++ " " ++ manufacturer);
         imageUrl := None |};
      {| title := trim (primaryTerm ++ " Collectible Glass "
                        ++ (if truthy manufacturer then "- " ++ manufacturer else ""));
         price := p3;
         soldDate := d3;
         condition := "Good";
         url := generateEbaySearchUrl (primaryTerm ++ " collectible glass " ++ manufacturer);
         imageUrl := None |} ] in
  let relevantItems :=
    filter (fun item =>
              existsb (fun term => includes (toLowerCase (title item)) (toLowerCase term))
                      searchTerms)
           mockSoldItems in
  ret (match relevantItems with
       | [] => firstn 3 mockSoldItems
       | _ => relevantItems
       end).

(* -------------------------------------------------------------- *)
(** *** searcheBaySoldListings *)

Definition completedItemsUrl (appId encodedTerm : string) : string :=
  "https://svcs.ebay.com/services/search/FindingService/v1"
  ++ "?OPERATION-NAME=findCompletedItems"
  ++ "&SERVICE-VERSION=1.0.0"
  ++ "&SECURITY-APPNAME=" ++ appId
  ++ "&RESPONSE-DATA-FORMAT=JSON"
  ++ "&REST-PAYLOAD"
  ++ "&keywords=" ++ encodedTerm
  ++ "&itemFilter(0).name=SoldItemsOnly"
  ++ "&itemFilter(0).value=true"
  ++ "&itemFilter(1).name=ListingType"
  ++ "&itemFilter(1).value(0)=Auction"
  ++ "&itemFilter(1).value(1)=FixedPrice"
  ++ "&sortOrder=EndTimeSoonest"
  ++ "&paginationInput.entriesPerPage=20".

(** [data.findCompletedItemsResponse?.[0]] *)
Definition completedResponse (data : Json) : M (option ApiResult) :=
  match data with
  | JsonNull => throw (Error "Cannot read properties of null")
  | JsonObject _ completed => ret completed
  end.

(** [x || new Date().toISOString()] *)
Definition orNow (o : option string) : M string :=
  match orUndefined o with
  | Some s => ret s
  | None => t <- now env;; ret (toISOString host t)
  end.

(** The loop [for (const item of items)] of the sold search.  [results]
    is the array the function pushes to; a push made before an element
    throws stays in the array, so the loop gives back the array together
    with the exception, if any, that ended it. *)
Fixpoint pushSoldItems (items : list (option ApiItem)) (results : list eBayItem)
  : M (list eBayItem * option exn) :=
  match items with
  | [] => ret (results, None)
  | None :: _ => ret (results, Some (Error "Cannot read properties of null"))
  | Some item :: rest =>
      match api_sellingState item with
      | Some state =>
          if (state =? "EndedWithSales")%string then
            soldDate <- orNow (api_endTime item);;
            let soldItem :=
              {| title := orElse (api_title item) "Unknown Item";
                 price := parseFloat host (orElse (api_currentPrice item) "0");
                 soldDate := soldDate;
                 condition := orElse (api_conditionDisplayName item) "Unknown";
                 url := orElse (api_viewItemURL item) "#";
                 imageUrl := orUndefined (api_galleryURL item) |} in
            pushSoldItems rest
              (if 0 <? price soldItem then results ++ [soldItem] else results)
          else pushSoldItems rest results
      | None => pushSoldItems rest results
      end
  end.

(** One turn of the loop over [primarySearchTerms]: the [try] block and
    its [catch], which only logs.  The turn gives back the array
    [results]. *)
Definition searchOneTerm (appId searchTerm : string) (results : list eBayItem)
  : M (list eBayItem) :=
  tryCatch
    (let encodedTerm := encodeURIComponent host searchTerm in
     let apiUrl := completedItemsUrl appId encodedTerm in
     response <- fetch env apiUrl;;
     if negb (http_ok response) then ret results          (* continue *)
     else
       data <- json response;;
       searchResult <- completedResponse data;;
       match searchResult with
       | Some sr =>
           match api_ack sr, api_items sr with
           | Some ack, ItemsArray items =>
               if (ack =? "Success")%string then
                 pushed <- pushSoldItems items results;;
                 match pushed with
                 | (results', Some _) => ret results'     (* caught below *)
                 | (results', None) => sleep 100;;; ret results'
                 end
               else sleep 100;;; ret results
           | Some ack, ItemsNotIterable =>
               if (ack =? "Success")%string
               then throw (Error "items is not iterable")
               else sleep 100;;; ret results
           | _, _ => sleep 100;;; ret results
           end
       | None => sleep 100;;; ret results
       end)
    (fun _ => ret results).

Fixpoint searchTermsLoop (appId : string) (terms : list string)
         (results : list eBayItem) : M (list eBayItem) :=
  match terms with
  | [] => ret results
  | searchTerm :: rest =>
      results' <- searchOneTerm appId searchTerm results;;
      searchTermsLoop appId rest results'
  end.

Definition searcheBaySoldListings (searchTerms : list string) : M (list eBayItem) :=
  tryCatch
    (if negb (present (EBAY_APP_ID env)) then getMockData searchTerms
     else
       let appId := show (EBAY_APP_ID env) in
       let primarySearchTerms := firstn 3 searchTerms in
       results <- searchTermsLoop appId primarySearchTerms [];;
       match results with
       | [] => getMockData searchTerms
       | _ => ret (firstn 10 results)
       end)
    (fun _ => getMockData searchTerms).

(* -------------------------------------------------------------- *)
(** *** The request handler *)

(** What [req.json()] gives. *)
Inductive RequestBody : Type :=
| BodyInvalid                              (* req.json() rejects *)
| BodyNull                                 (* reading a field of it throws *)
| BodyObject (requestData : MarketAnalysisRequest).

Record Request : Type := {
  method : string;
  requestBody : RequestBody
}.

(** What is passed to [JSON.stringify]. *)
Inductive Payload : Type :=
| NoPayload
| ErrorPayload (error : string) (details : option string)
| AnalysisPayload (response : MarketAnalysisResponse).

Record Response : Type := {
  status : Z;
  headers : list (string * string);
  body : Payload
}.

Definition jsonHeaders : list (string * string) :=
  corsHeaders ++ [("Content-Type", "application/json")]%string.

(** [await req.json()], then the first read of a field of the result *)
Definition readRequest (req : Request) : M MarketAnalysisRequest :=
  match requestBody req with
  | BodyInvalid => throw (Error "Unexpected end of JSON input")
  | BodyNull => throw (Error "Cannot read properties of null")
  | BodyObject requestData => ret requestData
  end.

Definition serve (req : Request) : M Response :=
  tryCatch
    (if (method req =? "OPTIONS")%string then
       ret {| status := 200; headers := corsHeaders; body := NoPayload |}
     else if negb (method req =? "POST")%string then
       ret {| status := 405; headers := jsonHeaders;
              body := ErrorPayload "Method not allowed" None |}
     else
       requestData <- readRequest req;;
       if negb (present (itemName requestData))
          || negb (present (category requestData)) then
         ret {| status := 400; headers := jsonHeaders;
                body := ErrorPayload "Item name and category are required" None |}
       else
         let searchTerms := generateSearchTerms requestData in
         soldItems <- searcheBaySoldListings searchTerms;;
         let analysis := calculateMarketAnalysis soldItems in
         let response :=
           {| analysis := analysis; searchTermsUsed := searchTerms |} in
         ret {| status := 200; headers := jsonHeaders;
                body := AnalysisPayload response |})
    (fun error =>
       ret {| status := 500; headers := jsonHeaders;
              body := ErrorPayload "Failed to analyze market data"
                                   (Some (message error)) |}).

End WithWorld.

End MarketAnalysis.

(* ================================================================== *)
(** ** The eBay monitor function *)
(* ================================================================== *)

Module EbayMonitor.

Import JsString.
Local Open Scope float_scope.
Local Open Scope js_scope.

Record EbayListing : Type := {
  title : string;
  price : float;
  url : string;
  imageUrl : option string;
  endTime : string;
  condition : option string
}.

Section WithWorld.

Variable host : Host.
Variable env : Env.

(* -------------------------------------------------------------- *)
(** *** getMockEbayData *)

(** [new Date(Date.now() + Math.random() * days * 24 * 60 * 60 * 1000).toISOString()] *)
Definition mockEndTime (days : float) : M string :=
  t <- now env;;
  r <- random env;;
  ret (toISOString host (t + r * days * 24 * 60 * 60 * 1000)).

(** [!maxPrice || item.price <= maxPrice] *)
Definition withinBudget (maxPrice : option float) (item : EbayListing) : bool :=
  match maxPrice with
  | Some m => negb (JsNumber.truthy m) || (price item <=? m)
  | None => true
  end.

Definition getMockEbayData (searchTerm : string) (maxPrice : option float)
  : M (list EbayListing) :=
  let basePrice :=
    match maxPrice with
    | Some m => if JsNumber.truthy m then JsNumber.min [m * 0.8; 50] else 50
    | None => 50
    end in
  r1 <- random env;;
  e1 <- mockEndTime 7;;
  r2 <- random env;;
  e2 <- mockEndTime 5;;
  ret (filter (withinBudget maxPrice)
         [ {| title := searchTerm ++ " - Vintage Collectible";
              price := JsNumber.round ((r1 * basePrice + basePrice * 0.5) * 100) / 100;
              url := "https://www.ebay.com/sch/i.html?_nkw="
                     ++ encodeURIComponent host searchTerm;
              imageUrl := None;
              endTime := e1;
              condition := Some "Very Good" |};
           {| title := "Rare " ++ searchTerm ++ " Collection Item";
              price := JsNumber.round ((r2 * basePrice + basePrice * 0.3) * 100) / 100;
              url := "https://www.ebay.com/sch/i.html?_nkw="
                     ++ encodeURIComponent host searchTerm;
              imageUrl := None;
              endTime := e2;
              condition := Some "Good" |} ]).

(* -------------------------------------------------------------- *)
(** *** searchEbayListings *)

Definition keywordsUrl (appId encodedTerm : string) (maxPrice : option float)
  : string :=
  "https://svcs.ebay.com/services/search/FindingService/v1"
  ++ "?OPERATION-NAME=findItemsByKeywords"
  ++ "&SERVICE-VERSION=1.0.0"
  ++ "&SECURITY-APPNAME=" ++ appId
  ++ "&RESPONSE-DATA-FORMAT=JSON"
  ++ "&REST-PAYLOAD"
  ++ "&keywords=" ++ encodedTerm
  ++ "&itemFilter(0).name=ListingType"
  ++ "&itemFilter(0).value(0)=Auction"
  ++ "&itemFilter(0).value(1)=FixedPrice"
  ++ "&sortOrder=StartTimeNewest"
  ++ "&paginationInput.entriesPerPage=20"
  ++ match maxPrice with
     | Some m =>
         if JsNumber.truthy m then
           "&itemFilter(1).name=MaxPrice"
           ++ "&itemFilter(1).value=" ++ numberToString host m
           ++ "&itemFilter(1).paramName=Currency"
           ++ "&itemFilter(1).paramValue=USD"
         else ""
     | None => ""
     end.

(** [data.findItemsByKeywordsResponse?.[0]] *)
Definition keywordsResponse (data : Json) : M (option ApiResult) :=
  match data with
  | JsonNull => throw (Error "Cannot read properties of null")
  | JsonObject byKeywords _ => ret byKeywords
  end.

(** [x || new Date().toISOString()] *)
Definition orNow (o : option string) : M string :=
  match orUndefined o with
  | Some s => ret s
  | None => t <- now env;; ret (toISOString host t)
  end.

(** The loop [for (const item of items)]; [listings] is the array built
    so far. *)
Fixpoint pushListings (items : list (option ApiItem)) (listings : list EbayListing)
  : M (list EbayListing) :=
  match items with
  | [] => ret listings
  | None :: _ => throw (Error "Cannot read properties of null")
  | Some item :: rest =>
      endTime <- orNow (api_endTime item);;
      let listing :=
        {| title := orElse (api_title item) "Unknown Item";
           price := parseFloat host (orElse (api_currentPrice item) "0");
           url := orElse (api_viewItemURL item) "#";
           imageUrl := orUndefined (api_galleryURL item);
           endTime := endTime;
           condition := orUndefined (api_conditionDisplayName item) |} in
      pushListings rest (if 0 <? price listing then listings ++ [listing] else listings)
  end.

Definition searchEbayListings (searchTerm : string) (maxPrice : option float)
  : M (list EbayListing) :=
  tryCatch
    (if negb (present (EBAY_APP_ID env)) then getMockEbayData searchTerm maxPrice
     else
       let appId := show (EBAY_APP_ID env) in
       let encodedTerm := encodeURIComponent host searchTerm in
       let apiUrl := keywordsUrl appId encodedTerm maxPrice in
       response <- fetch env apiUrl;;
       if negb (http_ok response) then getMockEbayData searchTerm maxPrice
       else
         data <- json response;;
         searchResult <- keywordsResponse data;;
         match searchResult with
         | Some sr =>
             match api_ack sr, api_items sr with
             | Some ack, ItemsArray items =>
                 if (ack =? "Success")%string then pushListings items []
                 else getMockEbayData searchTerm maxPrice
             | Some ack, ItemsNotIterable =>
                 if (ack =? "Success")%string
                 then throw (Error "items is not iterable")
                 else getMockEbayData searchTerm maxPrice
             | _, _ => getMockEbayData searchTerm maxPrice
             end
         | None => getMockEbayData searchTerm maxPrice
         end)
    (fun _ => getMockEbayData searchTerm maxPrice).

(* -------------------------------------------------------------- *)
(** *** The store requests of processWishlistItem *)

Definition afterStoreCall (w : World) (found : list FoundListing)
           (items : list WishlistItem) : World :=
  {| trace := trace w; draws := draws w; ticks := ticks w;
     storeCalls := S (storeCalls w);
     found_listings := found;
     wishlist_items := items |}.

(** [.eq('wishlist_item_id', itemId).eq('listing_url', url)] *)
Definition sameKey (itemId url : string) (row : FoundListing) : bool :=
  (wishlist_item_id row =? itemId)%string && (listing_url row =? url)%string.

(** [from('found_listings').select('id').eq(...).eq(...).single()]:
    [data] is the row when exactly one row matches, and [null]
    otherwise. *)
Definition selectFoundListing (itemId url : string) : M (option FoundListing) :=
  fun w =>
    let w' := afterStoreCall w (found_listings w) (wishlist_items w) in
    match lookupOutcome env (storeCalls w) with
    | Done =>
        (Returned match filter (sameKey itemId url) (found_listings w) with
                  | [row] => Some row
                  | _ => None
                  end, w')
    | Failed => (Returned None, w')
    | Raised e => (Thrown e, w')
    end.

(** [from('found_listings').insert(row)]; the result is [insertError]. *)
Definition insertFoundListing (row : FoundListing) : M (option exn) :=
  fun w =>
    match insertOutcome env (storeCalls w) with
    | Done =>
        (Returned None,
         afterStoreCall w (found_listings w ++ [row]) (wishlist_items w))
    | Failed =>
        (Returned (Some (Error "insert failed")),
         afterStoreCall w (found_listings w) (wishlist_items w))
    | Raised e =>
        (Thrown e, afterStoreCall w (found_listings w) (wishlist_items w))
    end.

Definition touch (itemId lastChecked updated : string) (row : WishlistItem)
  : WishlistItem :=
  if (id row =? itemId)%string then
    {| id := id row; item_name := item_name row;
       ebay_search_term := ebay_search_term row;
       desired_price_max := desired_price_max row;
       status := status row;
       last_checked_at := Some lastChecked;
       updated_at := Some updated |}
  else row.

(** [from('wishlist_items').update({ last_checked_at, updated_at }).eq('id', itemId)] *)
Definition updateWishlistItem (itemId lastChecked updated : string) : M unit :=
  fun w =>
    match updateOutcome env (storeCalls w) with
    | Done =>
        (Returned tt,
         afterStoreCall w (found_listings w)
                        (map (touch itemId lastChecked updated) (wishlist_items w)))
    | Failed =>
        (Returned tt, afterStoreCall w (found_listings w) (wishlist_items w))
    | Raised e =>
        (Thrown e, afterStoreCall w (found_listings w) (wishlist_items w))
    end.

(* -------------------------------------------------------------- *)
(** *** processWishlistItem *)

(** The loop [for (const listing of listings)]; the count is
    [newListingsCount]. *)
Fixpoint recordListings (item : WishlistItem) (listings : list EbayListing)
         (newListingsCount : nat) : M nat :=
  match listings with
  | [] => ret newListingsCount
  | listing :: rest =>
      existingListing <- selectFoundListing (id item) (url listing);;
      match existingListing with
      | Some _ => recordListings item rest newListingsCount
      | None =>
          t <- now env;;
          insertError <- insertFoundListing
                           {| wishlist_item_id := id item;
                              platform := "ebay";
                              listing_title := title listing;
                              listing_price := price listing;
                              listing_url := url listing;
                              listing_image_url := imageUrl listing;
                              found_at := toISOString host t;
                              notified := false |};;
          match insertError with
          | Some _ => recordListings item rest newListingsCount
          | None => recordListings item rest (S newListingsCount)
          end
      end
  end.

(** [!item.ebay_search_term?.trim()] *)
Definition noSearchTerm (item : WishlistItem) : bool :=
  match ebay_search_term item with
  | Some term => negb (truthy (trim term))
  | None => true
  end.

Definition processWishlistItem (item : WishlistItem) : M nat :=
  if noSearchTerm item then ret 0%nat
  else
    tryCatch
      (listings <- searchEbayListings (show (ebay_search_term item))
                                      (desired_price_max item);;
       newListingsCount <- recordListings item listings 0;;
       t1 <- now env;;
       t2 <- now env;;
       updateWishlistItem (id item) (toISOString host t1) (toISOString host t2);;;
       ret newListingsCount)
      (fun _ => ret 0%nat).

End WithWorld.

End EbayMonitor.

(* ================================================================== *)
(** ** The request handler of the eBay monitor function *)
(* ================================================================== *)

Module EbayMonitorServe.

Import JsString.
Local Open Scope js_scope.

Definition corsHeaders : list (string * string) :=
  [ ("Access-Control-Allow-Origin", "*");
    ("Access-Control-Allow-Methods", "GET, POST, PUT, DELETE, OPTIONS");
    ("Access-Control-Allow-Headers", "Content-Type, Authorization") ]%string.

Definition jsonHeaders : list (string * string) :=
  corsHeaders ++ [("Content-Type", "application/json")]%string.

(** The column [status] of a wish-list row (the name is taken below by the
    status of a response). *)
Definition rowStatus (row : WishlistItem) : string := status row.

(** The parsed request body. *)
Record EbaySearchRequest : Type := {
  wishlistItemId : option string
}.

(** What [req.json()] gives. *)
Inductive RequestBody : Type :=
| BodyInvalid                              (* req.json() rejects *)
| BodyNull                                 (* reading a field of it throws *)
| BodyObject (requestData : EbaySearchRequest).

Record Request : Type := {
  method : string;
  requestBody : RequestBody
}.

(** One element of [results]. *)
Record ItemResult : Type := {
  itemId : string;
  itemName : string;
  newListingsFound : nat
}.

(** The object [response] of a completed run. *)
Record Summary : Type := {
  success : bool;
  itemsProcessed : nat;
  totalNewListings : nat;
  results : list ItemResult;
  processedAt : string
}.

(** What is passed to [JSON.stringify]. *)
Inductive Payload : Type :=
| NoPayload
| ErrorPayload (error : string) (details : option string)
| SummaryPayload (response : Summary).

Record Response : Type := {
  status : Z;
  headers : list (string * string);
  body : Payload
}.

(** The two environment variables the handler reads for the store, and
    what [createClient] of the client library does with two such values:
    the exception it throws, if any (it throws when a value is missing or
    is not one it accepts). *)
Record Config : Type := {
  SUPABASE_URL : option string;
  SUPABASE_SERVICE_ROLE_KEY : option string;
  clientError : option string -> option string -> option exn
}.

Section WithWorld.

Variable host : Host.
Variable env : Env.
Variable config : Config.

(** [createClient(supabaseUrl, supabaseServiceKey)] *)
Definition createClient : M unit :=
  match clientError config (SUPABASE_URL config) (SUPABASE_SERVICE_ROLE_KEY config) with
  | Some error => throw error
  | None => ret tt
  end.

(** [await req.json().catch(() => ({}))], then the first read of a field of
    the result *)
Definition readRequest (req : Request) : M EbaySearchRequest :=
  match requestBody req with
  | BodyInvalid => ret {| wishlistItemId := None |}
  | BodyNull => throw (Error "Cannot read properties of null")
  | BodyObject requestData => ret requestData
  end.

(** [from('wishlist_items').select('*').eq('id', itemId).single()]; the
    result is [None] when [error] is set: the store reports an error, or
    the rows that match are not exactly one. *)
Definition selectWishlistItem (itemId : string) : M (option WishlistItem) :=
  fun w =>
    let w' := EbayMonitor.afterStoreCall w (found_listings w) (wishlist_items w) in
    match lookupOutcome env (storeCalls w) with
    | Done =>
        (Returned match filter (fun row => (id row =? itemId)%string) (wishlist_items w) with
                  | [row] => Some row
                  | _ => None
                  end, w')
    | Failed => (Returned None, w')
    | Raised e => (Thrown e, w')
    end.

(** [.eq('status', 'active').not('ebay_search_term', 'is', null)
     .not('ebay_search_term', 'eq', '')] *)
Definition activeWithTerm (row : WishlistItem) : bool :=
  (rowStatus row =? "active")%string && present (ebay_search_term row).

(** The select of the scheduled run; [None] when [error] is set. *)
Definition selectActiveItems : M (option (list WishlistItem)) :=
  fun w =>
    let w' := EbayMonitor.afterStoreCall w (found_listings w) (wishlist_items w) in
    match lookupOutcome env (storeCalls w) with
    | Done => (Returned (Some (filter activeWithTerm (wishlist_items w))), w')
    | Failed => (Returned None, w')
    | Raised e => (Thrown e, w')
    end.

(** The items to process, or the response that ends the request. *)
Definition selectItems (requestData : EbaySearchRequest)
  : M (Response + list WishlistItem) :=
  if present (wishlistItemId requestData) then
    found <- selectWishlistItem (show (wishlistItemId requestData));;
    match found with
    | None =>
        ret (inl {| status := 404; headers := jsonHeaders;
                    body := ErrorPayload "Wishlist item not found" None |})
    | Some item => ret (inr [item])
    end
  else
    found <- selectActiveItems;;
    match found with
    | None =>
        ret (inl {| status := 500; headers := jsonHeaders;
                    body := ErrorPayload "Failed to fetch wishlist items" None |})
    | Some items => ret (inr items)
    end.

(** The loop [for (const item of itemsToProcess)]. *)
Fixpoint processItems (itemsToProcess : list WishlistItem) (totalNewListings : nat)
         (results : list ItemResult) : M (nat * list ItemResult) :=
  match itemsToProcess with
  | [] => ret (totalNewListings, results)
  | item :: rest =>
      newListingsCount <- EbayMonitor.processWishlistItem host env item;;
      processItems rest (totalNewListings + newListingsCount)
        (results ++ [ {| itemId := id item;
                         itemName := item_name item;
                         newListingsFound := newListingsCount |} ])
  end.

Definition serve (req : Request) : M Response :=
  tryCatch
    (if (method req =? "OPTIONS")%string then
       ret {| status := 200; headers := corsHeaders; body := NoPayload |}
     else if negb (method req =? "POST")%string then
       ret {| status := 405; headers := jsonHeaders;
              body := ErrorPayload "Method not allowed" None |}
     else
       createClient;;;
       requestData <- readRequest req;;
       selected <- selectItems requestData;;
       match selected with
       | inl response => ret response
       | inr itemsToProcess =>
           processed <- processItems itemsToProcess 0 [];;
           t <- now env;;
           ret {| status := 200; headers := jsonHeaders;
                  body := SummaryPayload
                            {| success := true;
                               itemsProcessed := List.length itemsToProcess;
                               totalNewListings := fst processed;
                               results := snd processed;
                               processedAt := toISOString host t |} |}
       end)
    (fun error =>
       ret {| status := 500; headers := jsonHeaders;
              body := ErrorPayload "Failed to process eBay monitoring"
                                   (Some (message error)) |}).

End WithWorld.

End EbayMonitorServe.

(* ================================================================== *)
(** ** src/utils/customFields.ts *)
(* ================================================================== *)

Module CustomFields.

Import JsString.

Record CustomField : Type := {
  id : string;
  name : string;
  isDefault : bool
}.

Definition DEFAULT_CATEGORIES : list CustomField :=
  [ {| id := "milk_glass"; name := "Milk Glass"; isDefault := true |};
    {| id := "jadite"; name := "Jadite"; isDefault := true |};
    {| id := "blue_glass"; name := "Blue Glass"; isDefault := true |} ].

Definition DEFAULT_CONDITIONS : list CustomField :=
  [ {| id := "excellent"; name := "Excellent"; isDefault := true |};
    {| id := "very_good"; name := "Very Good"; isDefault := true |};
    {| id := "good"; name := "Good"; isDefault := true |};
    {| id := "fair"; name := "Fair"; isDefault := true |};
    {| id := "poor"; name := "Poor"; isDefault := true |} ].

(** [localStorage]: the stored items, and whether an item fits ([setItem]
    throws when it does not). *)
Record LocalStorage : Type := {
  items : string -> option string;
  fits : string -> string -> bool
}.

(** [localStorage.getItem(key)] *)
Definition getItem (storage : LocalStorage) (key : string) : option string :=
  items storage key.

(** [localStorage.setItem(key, value)]; [None] when it throws. *)
Definition setItem (storage : LocalStorage) (key value : string) : option LocalStorage :=
  if fits storage key value then
    Some {| items := fun k => if (k =? key)%string then Some value else items storage k;
            fits := fits storage |}
  else None.

(** [s.replace(/\s+/g, replacement)]: every maximal run of white space
    becomes [replacement]. *)
Fixpoint replaceRunsFrom (replacement : string) (inRun : bool) (s : string) : string :=
  match s with
  | EmptyString => EmptyString
  | String c s' =>
      if isWhiteSpace c
      then if inRun then replaceRunsFrom replacement true s'
           else replacement ++ replaceRunsFrom replacement true s'
      else String c (replaceRunsFrom replacement false s')
  end.

Definition replaceRuns (replacement : string) (s : string) : string :=
  replaceRunsFrom replacement false s.

(** [s.split('_')] *)
Fixpoint splitUnderscore (s : string) : list string :=
  match s with
  | EmptyString => [EmptyString]
  | String c s' =>
      if (c =? "_")%char then EmptyString :: splitUnderscore s'
      else match splitUnderscore s' with
           | word :: words => String c word :: words
           | [] => [String c EmptyString]
           end
  end.

(** [word.charAt(0)] and [word.slice(1)] *)
Definition charAt0 (word : string) : string :=
  match word with
  | EmptyString => EmptyString
  | String c _ => String c EmptyString
  end.

Definition slice1 (word : string) : string :=
  match word with
  | EmptyString => EmptyString
  | String _ rest => rest
  end.

(** [words.join(' ')] *)
Fixpoint joinSpace (words : list string) : string :=
  match words with
  | [] => EmptyString
  | [word] => word
  | word :: rest => word ++ " " ++ joinSpace rest
  end.

(** [name.toLowerCase().replace(/\s+/g, '_')] *)
Definition categoryNameToId (name : string) : string :=
  replaceRuns "_" (toLowerCase name).

Definition conditionNameToId (name : string) : string :=
  replaceRuns "_" (toLowerCase name).

Section WithBrowser.

(** [JSON.parse] of a stored list ([None]: it throws), [JSON.stringify] of
    a list, and [String.prototype.toUpperCase], whose result may leave the
    code units below 256. *)
Variable JSON_parse : string -> option (list string).
Variable JSON_stringify : list string -> string.
Variable toUpperCase : string -> string.

(** The body shared by the four getters: [if (!userId) return []], then the
    [try] around [getItem] and [JSON.parse], whose [catch] returns [[]]. *)
Definition getList (prefix : string) (userId : option string) (storage : LocalStorage)
  : list string :=
  if negb (present userId) then []
  else
    match getItem storage (prefix ++ show userId) with
    | Some stored =>
        if truthy stored then
          match JSON_parse stored with
          | Some list => list
          | None => []
          end
        else []
    | None => []
    end.

(** The body shared by the four savers: [if (!userId) return], then the
    [try] around [setItem], whose [catch] only logs. *)
Definition saveList (prefix : string) (list : list string) (userId : option string)
           (storage : LocalStorage) : LocalStorage :=
  if negb (present userId) then storage
  else
    match setItem storage (prefix ++ show userId) (JSON_stringify list) with
    | Some storage' => storage'
    | None => storage
    end.

Definition getCustomCategories := getList "custom_categories_".
Definition getDeletedDefaultCategories := getList "deleted_default_categories_".
Definition getCustomConditions := getList "custom_conditions_".
Definition getDeletedDefaultConditions := getList "deleted_default_conditions_".

Definition saveCustomCategories := saveList "custom_categories_".
Definition saveDeletedDefaultCategories := saveList "deleted_default_categories_".
Definition saveCustomConditions := saveList "custom_conditions_".
Definition saveDeletedDefaultConditions := saveList "deleted_default_conditions_".

(** [deletedDefaults.includes(x)] *)
Definition listIncludes (l : list string) (x : string) : bool :=
  existsb (String.eqb x) l.

(** [name => ({ id: name.toLowerCase().replace(/\s+/g, '_'), name, isDefault: false })] *)
Definition customField (name : string) : CustomField :=
  {| id := replaceRuns "_" (toLowerCase name); name := name; isDefault := false |}.

Definition getAllCategories (userId : option string) (storage : LocalStorage)
  : list CustomField :=
  let deletedDefaults := getDeletedDefaultCategories userId storage in
  let availableDefaults :=
    filter (fun cat => negb (listIncludes deletedDefaults (name cat))) DEFAULT_CATEGORIES in
  let customCategories := getCustomCategories userId storage in
  let customFields := map customField customCategories in
  availableDefaults ++ customFields.

Definition getAllConditions (userId : option string) (storage : LocalStorage)
  : list CustomField :=
  let deletedDefaults := getDeletedDefaultConditions userId storage in
  let availableDefaults :=
    filter (fun cond => negb (listIncludes deletedDefaults (name cond))) DEFAULT_CONDITIONS in
  let customConditions := getCustomConditions userId storage in
  let customFields := map customField customConditions in
  availableDefaults ++ customFields.

(** [word.charAt(0).toUpperCase() + word.slice(1).toLowerCase()] *)
Definition titleCase (word : string) : string :=
  toUpperCase (charAt0 word) ++ toLowerCase (slice1 word).

Definition categoryIdToName (id0 : string) (userId : option string)
           (storage : LocalStorage) : string :=
  let allCategories := getAllCategories userId storage in
  match find (fun cat => (id cat =? id0)%string) allCategories with
  | Some category => name category
  | None => joinSpace (map titleCase (splitUnderscore id0))
  end.

Definition conditionIdToName (id0 : string) (userId : option string)
           (storage : LocalStorage) : string :=
  let allConditions := getAllConditions userId storage in
  match find (fun cond => (id cond =? id0)%string) allConditions with
  | Some condition => name condition
  | None => id0
  end.

End WithBrowser.

End CustomFields.

(* ================================================================== *)
(** ** The searches on a string that encodeURIComponent rejects *)
(* ================================================================== *)

(** The result of [encodeURIComponent] on a well-formed string. *)
Definition encodeWellFormed (host : Host) (s : string) : string :=
  encodeURIComponent host s.

(** [encodeURIComponent] throws a [URIError] on a string that holds a lone
    surrogate.  A term of the market analysis comes from the JSON body of
    the request, which can hold one.  This module is the code that calls
    [encodeURIComponent] once more, with that exception: the two synthetic
    generators, the two searches and the handler of the market analysis.
    [loneSurrogate s] says that the JavaScript string [s] stands for holds
    a lone surrogate.  The modules above are this code on well-formed
    strings. *)
Module Malformed.

Import JsString.
Local Open Scope float_scope.
Local Open Scope js_scope.

Section WithWorld.

Variable host : Host.
Variable env : Env.
Variable loneSurrogate : string -> bool.

(** [encodeURIComponent(s)] *)
Definition encodeURIComponent (s : string) : M string :=
  if loneSurrogate s then throw (Error "URI malformed")
  else ret (encodeWellFormed host s).

(* -------------------------------------------------------------- *)
(** *** market-analysis: getMockData *)

Definition generateEbaySearchUrl (title : string) : M string :=
  searchQuery <- encodeURIComponent (trim (collapseSpaces title));;
  ret ("https://www.ebay.com/sch/i.html?_nkw=" ++ searchQuery
       ++ "&_sacat=0&LH_Sold=1&LH_Complete=1&_sop=13&rt=nc")%string.

(** The elements of [mockSoldItems] are built one after the other, and the
    fields of each in the order they are written: the price, the date, then
    the URL. *)
Definition getMockData (searchTerms : list string) : M (list MarketAnalysis.eBayItem) :=
  let primaryTerm := orElse (hd_error searchTerms) "collectible" in
  let manufacturer :=
    orElse (find (fun term =>
                    existsb (fun brand => includes (toLowerCase term) brand)
                            MarketAnalysis.brands)
                 searchTerms) "" in
  p1 <- MarketAnalysis.mockPrice env 50 50;;
  d1 <- MarketAnalysis.mockSoldDate host env 30;;
  u1 <- generateEbaySearchUrl (manufacturer ++ " " ++ primaryTerm ++ " vintage")%string;;
  p2 <- MarketAnalysis.mockPrice env 40 40;;
  d2 <- MarketAnalysis.mockSoldDate host env 20;;
  u2 <- generateEbaySearchUrl ("vintage " ++ primaryTerm ++ " " ++ manufacturer)%string;;
  p3 <- MarketAnalysis.mockPrice env 60 60;;
  d3 <- MarketAnalysis.mockSoldDate host env 15;;
  u3 <- generateEbaySearchUrl (primaryTerm ++ " collectible glass " ++ manufacturer)%string;;
  let mockSoldItems :=
    [ {| MarketAnalysis.title :=
           manufacturer ++ " " ++ primaryTerm ++ " - Vintage Collectible";
         MarketAnalysis.price := p1;
         MarketAnalysis.soldDate := d1;
         MarketAnalysis.condition := "Excellent";
         MarketAnalysis.url := u1;
         MarketAnalysis.imageUrl := None |};
      {| MarketAnalysis.title :=
           trim ("Vintage " ++ primaryTerm ++ " "
                 ++ (if truthy manufacturer then "by " ++ manufacturer else ""));
         MarketAnalysis.price := p2;
         MarketAnalysis.soldDate := d2;
         MarketAnalysis.condition := "Very Good";
         MarketAnalysis.url := u2;
         MarketAnalysis.imageUrl := None |};
      {| MarketAnalysis.title :=
           trim (primaryTerm ++ " Collectible Glass "
                 ++ (if truthy manufacturer then "- " ++ manufacturer else ""));
         MarketAnalysis.price := p3;
         MarketAnalysis.soldDate := d3;
         MarketAnalysis.condition := "Good";
         MarketAnalysis.url := u3;
         MarketAnalysis.imageUrl := None |} ] in
  let relevantItems :=
    filter (fun item =>
              existsb (fun term =>
                         includes (toLowerCase (MarketAnalysis.title item))
                                  (toLowerCase term))
                      searchTerms)
           mockSoldItems in
  ret (match relevantItems with
       | [] => firstn 3 mockSoldItems
       | _ => relevantItems
       end).

(* -------------------------------------------------------------- *)
(** *** market-analysis: searcheBaySoldListings *)

(** One turn of the loop over [primarySearchTerms]; the call of
    [encodeURIComponent] is the first statement of its [try]. *)
Definition searchOneTerm (appId searchTerm : string)
           (results : list MarketAnalysis.eBayItem)
  : M (list MarketAnalysis.eBayItem) :=
  tryCatch
    (encodedTerm <- encodeURIComponent searchTerm;;
     let apiUrl := MarketAnalysis.completedItemsUrl appId encodedTerm in
     response <- fetch env apiUrl;;
     if negb (http_ok response) then ret results          (* continue *)
     else
       data <- json response;;
       searchResult <- MarketAnalysis.completedResponse data;;
       match searchResult with
       | Some sr =>
           match api_ack sr, api_items sr with
           | Some ack, ItemsArray items =>
               if (ack =? "Success")%string then
                 pushed <- MarketAnalysis.pushSoldItems host env items results;;
                 match pushed with
                 | (results', Some _) => ret results'     (* caught below *)
                 | (results', None) => sleep 100;;; ret results'
                 end
               else sleep 100;;; ret results
           | Some ack, ItemsNotIterable =>
               if (ack =? "Success")%string
               then throw (Error "items is not iterable")
               else sleep 100;;; ret results
           | _, _ => sleep 100;;; ret results
           end
       | None => sleep 100;;; ret results
       end)
    (fun _ => ret results).

Fixpoint searchTermsLoop (appId : string) (terms : list string)
         (results : list MarketAnalysis.eBayItem) : M (list MarketAnalysis.eBayItem) :=
  match terms with
  | [] => ret results
  | searchTerm :: rest =>
      results' <- searchOneTerm appId searchTerm results;;
      searchTermsLoop appId rest results'
  end.

Definition searcheBaySoldListings (searchTerms : list string)
  : M (list MarketAnalysis.eBayItem) :=
  tryCatch
    (if negb (present (EBAY_APP_ID env)) then getMockData searchTerms
     else
       let appId := show (EBAY_APP_ID env) in
       let primarySearchTerms := firstn 3 searchTerms in
       results <- searchTermsLoop appId primarySearchTerms [];;
       match results with
       | [] => getMockData searchTerms
       | _ => ret (firstn 10 results)
       end)
    (fun _ => getMockData searchTerms).

(* -------------------------------------------------------------- *)
(** *** market-analysis: the request handler *)

Definition serve (req : MarketAnalysis.Request) : M MarketAnalysis.Response :=
  tryCatch
    (if (MarketAnalysis.method req =? "OPTIONS")%string then
       ret {| MarketAnalysis.status := 200;
              MarketAnalysis.headers := MarketAnalysis.corsHeaders;
              MarketAnalysis.body := MarketAnalysis.NoPayload |}
     else if negb (MarketAnalysis.method req =? "POST")%string then
       ret {| MarketAnalysis.status := 405;
              MarketAnalysis.headers := MarketAnalysis.jsonHeaders;
              MarketAnalysis.body :=
                MarketAnalysis.ErrorPayload "Method not allowed" None |}
     else
       requestData <- MarketAnalysis.readRequest req;;
       if negb (present (MarketAnalysis.itemName requestData))
          || negb (present (MarketAnalysis.category requestData)) then
         ret {| MarketAnalysis.status := 400;
                MarketAnalysis.headers := MarketAnalysis.jsonHeaders;
                MarketAnalysis.body :=
                  MarketAnalysis.ErrorPayload "Item name and category are required"
                                              None |}
       else
         let searchTerms := MarketAnalysis.generateSearchTerms requestData in
         soldItems <- searcheBaySoldListings searchTerms;;
         let analysis := MarketAnalysis.calculateMarketAnalysis soldItems in
         let response :=
           {| MarketAnalysis.analysis := analysis;
              MarketAnalysis.searchTermsUsed := searchTerms |} in
         ret {| MarketAnalysis.status := 200;
                MarketAnalysis.headers := MarketAnalysis.jsonHeaders;
                MarketAnalysis.body := MarketAnalysis.AnalysisPayload response |})
    (fun error =>
       ret {| MarketAnalysis.status := 500;
              MarketAnalysis.headers := MarketAnalysis.jsonHeaders;
              MarketAnalysis.body :=
                MarketAnalysis.ErrorPayload "Failed to analyze market data"
                                            (Some (message error)) |}).

(* -------------------------------------------------------------- *)
(** *** ebay-monitor: getMockEbayData and searchEbayListings *)

(** The two listings are built one after the other: the price, the URL,
    then the end time of each. *)
Definition getMockEbayData (searchTerm : string) (maxPrice : option float)
  : M (list EbayMonitor.EbayListing) :=
  let basePrice :=
    match maxPrice with
    | Some m => if JsNumber.truthy m then JsNumber.min [m * 0.8; 50] else 50
    | None => 50
    end in
  r1 <- random env;;
  q1 <- encodeURIComponent searchTerm;;
  e1 <- EbayMonitor.mockEndTime host env 7;;
  r2 <- random env;;
  q2 <- encodeURIComponent searchTerm;;
  e2 <- EbayMonitor.mockEndTime host env 5;;
  ret (filter (EbayMonitor.withinBudget maxPrice)
         [ {| EbayMonitor.title := searchTerm ++ " - Vintage Collectible";
              EbayMonitor.price :=
                JsNumber.round ((r1 * basePrice + basePrice * 0.5) * 100) / 100;
              EbayMonitor.url := "https://www.ebay.com/sch/i.html?_nkw=" ++ q1;
              EbayMonitor.imageUrl := None;
              EbayMonitor.endTime := e1;
              EbayMonitor.condition := Some "Very Good" |};
           {| EbayMonitor.title := "Rare " ++ searchTerm ++ " Collection Item";
              EbayMonitor.price :=
                JsNumber.round ((r2 * basePrice + basePrice * 0.3) * 100) / 100;
              EbayMonitor.url := "https://www.ebay.com/sch/i.html?_nkw=" ++ q2;
              EbayMonitor.imageUrl := None;
              EbayMonitor.endTime := e2;
              EbayMonitor.condition := Some "Good" |} ]).

Definition searchEbayListings (searchTerm : string) (maxPrice : option float)
  : M (list EbayMonitor.EbayListing) :=
  tryCatch
    (if negb (present (EBAY_APP_ID env)) then getMockEbayData searchTerm maxPrice
     else
       let appId := show (EBAY_APP_ID env) in
       encodedTerm <- encodeURIComponent searchTerm;;
       let apiUrl := EbayMonitor.keywordsUrl host appId encodedTerm maxPrice in
       response <- fetch env apiUrl;;
       if negb (http_ok response) then getMockEbayData searchTerm maxPrice
       else
         data <- json response;;
         searchResult <- EbayMonitor.keywordsResponse data;;
         match searchResult with
         | Some sr =>
             match api_ack sr, api_items sr with
             | Some ack, ItemsArray items =>
                 if (ack =? "Success")%string
                 then EbayMonitor.pushListings host env items []
                 else getMockEbayData searchTerm maxPrice
             | Some ack, ItemsNotIterable =>
                 if (ack =? "Success")%string
                 then throw (Error "items is not iterable")
                 else getMockEbayData searchTerm maxPrice
             | _, _ => getMockEbayData searchTerm maxPrice
             end
         | None => getMockEbayData searchTerm maxPrice
         end)
    (fun _ => getMockEbayData searchTerm maxPrice).

End WithWorld.

End Malformed.

(* ================================================================== *)
(** * Vocabulary of the statements *)
(* ================================================================== *)

Section Vocabulary.

Local Open Scope string_scope.

(** ** Strings *)

(** A string that starts with a character that is not white space. *)
Definition headSolid (s : string) : bool :=
  match s with
  | EmptyString => false
  | String c _ => negb (JsString.isWhiteSpace c)
  end.

(** A non-empty string that [trimEnd] leaves alone. *)
Definition tailSolid (s : string) : bool :=
  JsString.truthy s && (JsString.trimEnd s =? s)%string.

(** ** Prices *)


(** Every sale in the list has a price above zero. *)
Definition allPositive (l : list MarketAnalysis.eBayItem) : Prop :=
  Forall (fun s => (0 <? MarketAnalysis.price s)%float = true) l.

(** ** Computations *)

(** A computation that always returns. *)
Definition returns {A : Type} (m : M A) : Prop :=
  forall w, exists a w', m w = (Returned a, w').

(** A computation that maintains the relation [R] between the world
    before and the world after, whether it returns or throws. *)
Definition keeps (R : World -> World -> Prop) {A : Type} (m : M A) : Prop :=
  forall w, R w (snd (m w)).

(** The store is as it was: no store call was made. *)
Definition sameStore (w w' : World) : Prop :=
  storeCalls w' = storeCalls w
  /\ found_listings w' = found_listings w
  /\ wishlist_items w' = wishlist_items w.

(** Nothing was fetched and no pause was made. *)
Definition sameTrace (w w' : World) : Prop := trace w' = trace w.

(** The wish-list rows are as they were. *)
Definition sameWishlist (w w' : World) : Prop := wishlist_items w' = wishlist_items w.

(** The clock was read zero or more times. *)
Definition laterClock (w w' : World) : Prop := (ticks w <= ticks w')%nat.

(** The listings a search returned. *)
Definition listingsOf {A : Type} (r : outcome (list A)) : list A :=
  match r with Returned l => l | Thrown _ => [] end.

(** The URL the sold search fetches for a term. *)
Definition soldUrl (host : Host) (appId term : string) : string :=
  MarketAnalysis.completedItemsUrl appId (encodeURIComponent host term).

(** ** The store *)

(** At most one found listing for every pair of a wish-list item and a
    listing URL. *)
Definition uniqueListings (rows : list FoundListing) : Prop :=
  forall itemId url,
    (List.length (filter (EbayMonitor.sameKey itemId url) rows) <= 1)%nat.

(** Exactly one found listing for the pair. *)
Definition recorded (rows : list FoundListing) (itemId url : string) : Prop :=
  List.length (filter (EbayMonitor.sameKey itemId url) rows) = 1%nat.

(** The store call threw. *)
Definition isRaised (o : StoreOutcome) : bool :=
  match o with Raised _ => true | _ => false end.

(** The world after the lookup and the clock reading that precede an
    insert. *)
Definition beforeInsert (w : World) : World :=
  {| trace := trace w; draws := draws w; ticks := S (ticks w);
     storeCalls := S (storeCalls w);
     found_listings := found_listings w;
     wishlist_items := wishlist_items w |}.

(** The world after the two clock readings that precede the update. *)
Definition beforeUpdate (w : World) : World :=
  {| trace := trace w; draws := draws w; ticks := S (S (ticks w));
     storeCalls := storeCalls w;
     found_listings := found_listings w;
     wishlist_items := wishlist_items w |}.

Section ForItem.

Variable host : Host.
Variable env : Env.
Variable item : WishlistItem.

(** The search [processWishlistItem] makes for the item. *)
Definition searchFor : M (list EbayMonitor.EbayListing) :=
  EbayMonitor.searchEbayListings host env
    (JsString.show (ebay_search_term item)) (desired_price_max item).

(** The URLs of the listings a run started in [w] observes. *)
Definition seenUrls (w : World) : list string :=
  map EbayMonitor.url (listingsOf (fst (searchFor w))).

(** The row the loop inserts for a listing, found at clock reading [t]. *)
Definition foundRow (listing : EbayMonitor.EbayListing) (t : nat) : FoundListing :=
  {| wishlist_item_id := id item;
     platform := "ebay";
     listing_title := EbayMonitor.title listing;
     listing_price := EbayMonitor.price listing;
     listing_url := EbayMonitor.url listing;
     listing_image_url := EbayMonitor.imageUrl listing;
     found_at := toISOString host (Date_now env t);
     notified := false |}.

(** The time stamps the update writes when the loop ended in [w]. *)
Definition stamped (w : World) (row : WishlistItem) : WishlistItem :=
  EbayMonitor.touch (id item)
    (toISOString host (Date_now env (ticks w)))
    (toISOString host (Date_now env (S (ticks w)))) row.

End ForItem.

(** ** Sample host, environments and worlds for the worked examples *)

(** A host whose [parseFloat] knows two price strings (and gives 0 on
    anything else), whose [encodeURIComponent] leaves its argument alone
    (right for the unreserved characters) and whose number printing knows
    10 and 30. *)
Definition sampleHost : Host :=
  {| parseFloat := fun s => if (s =? "24.99")%string then 24.99%float
                            else if (s =? "12.50")%string then 12.5%float
                            else 0%float;
     encodeURIComponent := fun s => s;
     toISOString := fun _ => "2024-01-01T00:00:00.000Z";
     numberToString := fun n => if (n =? 30)%float then "30" else "10" |}.

(** No credential; every draw of [Math.random] is [r]; every store call
    is answered as [lookups], [inserts] and [updates] say. *)
Definition offlineEnv (r : float) (lookups inserts updates : nat -> StoreOutcome) : Env :=
  {| EBAY_APP_ID := None;
     respond := fun _ _ => FetchRejected (Error "network");
     Math_random := fun _ => r;
     Date_now := fun _ => 1704067200000%float;
     lookupOutcome := lookups;
     insertOutcome := inserts;
     updateOutcome := updates |}.

(** The store carries out every request. *)
Definition allDone : nat -> StoreOutcome := fun _ => Done.

(** The store rejects the first five requests to insert. *)
Definition rejectFirstInserts : nat -> StoreOutcome :=
  fun k => if (k <? 5)%nat then Failed else Done.

(** Every lookup throws. *)
Definition lookupsThrow : nat -> StoreOutcome :=
  fun _ => Raised (Error "store unreachable").

(** An element of a response of the marketplace. *)
Definition sampleApiItem (price state : string) : option ApiItem :=
  Some {| api_title := Some "Fenton Hen on Nest";
          api_sellingState := Some state;
          api_currentPrice := Some price;
          api_endTime := Some "2024-02-01T10:00:00.000Z";
          api_conditionDisplayName := None;
          api_viewItemURL := Some ("https://www.ebay.com/itm/" ++ price);
          api_galleryURL := None |}.

(** A page of completed items: a sale at 24.99, a sale whose price does not
    parse, an item that ended without a sale, a null element, and a sale
    behind it. *)
Definition sampleSoldPage : HttpResponse :=
  {| http_status := 200;
     http_json :=
       Some (JsonObject None
               (Some {| api_ack := Some "Success";
                        api_items :=
                          ItemsArray [ sampleApiItem "24.99" "EndedWithSales";
                                       sampleApiItem "oops" "EndedWithSales";
                                       sampleApiItem "12.50" "EndedWithoutSales";
                                       None;
                                       sampleApiItem "12.50" "EndedWithSales" ] |})) |}.

(** A credential; the first fetch is answered with [sampleSoldPage], the
    second with status 500, and every later one is rejected. *)
Definition liveEnv : Env :=
  {| EBAY_APP_ID := Some "APP";
     respond := fun n _ =>
                  match n with
                  | 0 => FetchResolved sampleSoldPage
                  | 1 => FetchResolved {| http_status := 500; http_json := None |}
                  | _ => FetchRejected (Error "timeout")
                  end;
     Math_random := fun _ => 0.5%float;
     Date_now := fun _ => 1704067200000%float;
     lookupOutcome := allDone;
     insertOutcome := allDone;
     updateOutcome := allDone |}.

Definition emptyWorld : World :=
  {| trace := []; draws := 0; ticks := 0; storeCalls := 0;
     found_listings := []; wishlist_items := [] |}.

Definition sampleWish : WishlistItem :=
  {| id := "w1"; item_name := "Hen on Nest"; ebay_search_term := Some "hen on nest";
     desired_price_max := None; status := "active";
     last_checked_at := None; updated_at := None |}.

Definition wishWorld : World :=
  {| trace := []; draws := 0; ticks := 0; storeCalls := 0;
     found_listings := []; wishlist_items := [sampleWish] |}.


Definition sampleRequest : MarketAnalysis.Request :=
  {| MarketAnalysis.method := "POST";
     MarketAnalysis.requestBody :=
       MarketAnalysis.BodyObject
         {| MarketAnalysis.itemName := Some "";
            MarketAnalysis.manufacturer := None;
            MarketAnalysis.pattern := None;
            MarketAnalysis.category := Some "jadite";
            MarketAnalysis.description := None;
            MarketAnalysis.photoUrl := None |} |}.

End Vocabulary.

(** ** Prices in cents *)

Section Cents.

Import PrimInt63.

(** A price of [k] cents and a price of [j] thousandths: the binary64
    number nearest to the decimal, which is what [parseFloat] gives for its
    numeral. *)
Definition cents (k : Z) : float := (of_uint63 (Uint63.of_Z k) / 100)%float.
Definition mills (j : Z) : float := (of_uint63 (Uint63.of_Z j) / 1000)%float.




End Cents.

(* ================================================================== *)
(** * Vocabulary of the further properties *)
(* ================================================================== *)

Section FurtherVocabulary.

Local Open Scope string_scope.

(** ** The store *)

(** A found listing recorded for the wish-list item [itemId] from one of
    [listings]. *)
Definition rowOf (itemId : string) (listings : list EbayMonitor.EbayListing)
           (row : FoundListing) : Prop :=
  wishlist_item_id row = itemId
  /\ platform row = "ebay"
  /\ notified row = false
  /\ exists listing,
       In listing listings
       /\ listing_url row = EbayMonitor.url listing
       /\ listing_title row = EbayMonitor.title listing
       /\ listing_price row = EbayMonitor.price listing
       /\ listing_image_url row = EbayMonitor.imageUrl listing.

(** The same wish-list row, but perhaps for its two time stamps. *)
Definition sameButStamps (row row' : WishlistItem) : Prop :=
  id row' = id row
  /\ item_name row' = item_name row
  /\ ebay_search_term row' = ebay_search_term row
  /\ desired_price_max row' = desired_price_max row
  /\ status row' = status row.

(** What a monitor run on the items [ids] may do to the store: append
    found listings of these items, and write the time stamps of wish-list
    rows with one of these ids. *)
Definition monitored (ids : list string) (w w' : World) : Prop :=
  (exists news,
     found_listings w' = (found_listings w ++ news)%list
     /\ Forall (fun row => In (wishlist_item_id row) ids
                           /\ platform row = "ebay" /\ notified row = false) news)
  /\ Forall2 (fun row row' => sameButStamps row row'
                              /\ (~ In (id row) ids -> row' = row))
             (wishlist_items w) (wishlist_items w').

(** The ids of the wish-list items a request to the monitor asks to
    process in the world [w]. *)
Definition targetIds (req : EbayMonitorServe.Request) (w : World) : list string :=
  match EbayMonitorServe.requestBody req with
  | EbayMonitorServe.BodyObject requestData =>
      if JsString.present (EbayMonitorServe.wishlistItemId requestData)
      then [JsString.show (EbayMonitorServe.wishlistItemId requestData)]
      else map id (filter EbayMonitorServe.activeWithTerm (wishlist_items w))
  | _ => map id (filter EbayMonitorServe.activeWithTerm (wishlist_items w))
  end.

(** The summary in a response of the monitor, if it carries one. *)
Definition summaryOf (r : outcome EbayMonitorServe.Response)
  : option EbayMonitorServe.Summary :=
  match r with
  | Returned response =>
      match EbayMonitorServe.body response with
      | EbayMonitorServe.SummaryPayload summary => Some summary
      | _ => None
      end
  | Thrown _ => None
  end.

(** The status of a response of the market analysis, 0 when the handler
    throws. *)
Definition analysisStatus (r : outcome MarketAnalysis.Response) : Z :=
  match r with
  | Returned response => MarketAnalysis.status response
  | Thrown _ => 0%Z
  end.

(** The analysis in a response, if it carries one. *)
Definition analysisOf (r : outcome MarketAnalysis.Response)
  : option MarketAnalysis.MarketAnalysisResponse :=
  match r with
  | Returned response =>
      match MarketAnalysis.body response with
      | MarketAnalysis.AnalysisPayload a => Some a
      | _ => None
      end
  | Thrown _ => None
  end.

(** The URL the active search fetches. *)
Definition activeUrl (host : Host) (env : Env) (term : string) (maxPrice : option float)
  : string :=
  EbayMonitor.keywordsUrl host (JsString.show (EBAY_APP_ID env))
                          (encodeURIComponent host term) maxPrice.

(** ** Strings that encodeURIComponent rejects *)

(** The three queries the synthetic generator of the sold search passes to
    [encodeURIComponent], in the order it does. *)
Definition mockQueries (searchTerms : list string) : list string :=
  let primaryTerm := JsString.orElse (hd_error searchTerms) "collectible" in
  let manufacturer :=
    JsString.orElse
      (find (fun term =>
               existsb (fun brand => JsString.includes (JsString.toLowerCase term) brand)
                       MarketAnalysis.brands)
            searchTerms) "" in
  map (fun title => JsString.trim (JsString.collapseSpaces title))
      [ manufacturer ++ " " ++ primaryTerm ++ " vintage";
        "vintage " ++ primaryTerm ++ " " ++ manufacturer;
        primaryTerm ++ " collectible glass " ++ manufacturer ].

(** [encodeURIComponent] accepts every string of the list: none holds a
    lone surrogate. *)
Definition accepted (loneSurrogate : string -> bool) (l : list string) : Prop :=
  Forall (fun s => loneSurrogate s = false) l.

(** In the worked examples the text [<D800>] stands for a lone
    surrogate. *)
Definition sampleLoneSurrogate (s : string) : bool := JsString.includes s "<D800>".

(** A request whose item name holds a lone surrogate. *)
Definition surrogateRequest : MarketAnalysis.Request :=
  {| MarketAnalysis.method := "POST";
     MarketAnalysis.requestBody :=
       MarketAnalysis.BodyObject
         {| MarketAnalysis.itemName := Some "Hen <D800>";
            MarketAnalysis.manufacturer := None;
            MarketAnalysis.pattern := None;
            MarketAnalysis.category := Some "jadite";
            MarketAnalysis.description := None;
            MarketAnalysis.photoUrl := None |} |}.

(** ** Strings *)

(** No character of the string is white space. *)
Fixpoint noWhiteSpace (s : string) : bool :=
  match s with
  | EmptyString => true
  | String c s' => negb (JsString.isWhiteSpace c) && noWhiteSpace s'
  end.

(** ** Samples *)

(** A wish list with an active item, a paused item and an active item
    without a search term. *)
Definition pausedWish : WishlistItem :=
  {| id := "w2"; item_name := "Jadite Bowl"; ebay_search_term := Some "jadite bowl";
     desired_price_max := Some 40%float; status := "paused";
     last_checked_at := None; updated_at := None |}.

Definition blankWish : WishlistItem :=
  {| id := "w3"; item_name := "Untitled"; ebay_search_term := Some "";
     desired_price_max := None; status := "active";
     last_checked_at := None; updated_at := None |}.

Definition listWorld : World :=
  {| trace := []; draws := 0; ticks := 0; storeCalls := 0;
     found_listings := []; wishlist_items := [sampleWish; pausedWish; blankWish] |}.

Definition sampleConfig : EbayMonitorServe.Config :=
  {| EbayMonitorServe.SUPABASE_URL := Some "https://project.supabase.co";
     EbayMonitorServe.SUPABASE_SERVICE_ROLE_KEY := Some "service-role-key";
     EbayMonitorServe.clientError :=
       fun supabaseUrl supabaseKey =>
         if negb (JsString.present supabaseUrl)
         then Some (Error "supabaseUrl is required.")
         else if negb (JsString.present supabaseKey)
         then Some (Error "supabaseKey is required.")
         else None |}.

(** The scheduled request: a POST whose body is not JSON. *)
Definition scheduledRequest : EbayMonitorServe.Request :=
  {| EbayMonitorServe.method := "POST";
     EbayMonitorServe.requestBody := EbayMonitorServe.BodyInvalid |}.

(** The manual request for one item. *)
Definition manualRequest (itemId : string) : EbayMonitorServe.Request :=
  {| EbayMonitorServe.method := "POST";
     EbayMonitorServe.requestBody :=
       EbayMonitorServe.BodyObject {| EbayMonitorServe.wishlistItemId := Some itemId |} |}.

(** A page of active items: one priced 24.99 and one whose price does not
    parse. *)
Definition sampleActivePage : HttpResponse :=
  {| http_status := 200;
     http_json :=
       Some (JsonObject
               (Some {| api_ack := Some "Success";
                        api_items :=
                          ItemsArray [ sampleApiItem "24.99" "Active";
                                       sampleApiItem "oops" "Active" ] |})
               None) |}.

(** A credential; every fetch is answered with [sampleActivePage]. *)
Definition activeEnv : Env :=
  {| EBAY_APP_ID := Some "APP";
     respond := fun _ _ => FetchResolved sampleActivePage;
     Math_random := fun _ => 0.5%float;
     Date_now := fun _ => 1704067200000%float;
     lookupOutcome := allDone;
     insertOutcome := allDone;
     updateOutcome := allDone |}.

(** A request to the market analysis with a name and a category. *)
Definition henRequest : MarketAnalysis.Request :=
  {| MarketAnalysis.method := "POST";
     MarketAnalysis.requestBody :=
       MarketAnalysis.BodyObject
         {| MarketAnalysis.itemName := Some "Hen on Nest";
            MarketAnalysis.manufacturer := Some "Fenton";
            MarketAnalysis.pattern := None;
            MarketAnalysis.category := Some "milk_glass";
            MarketAnalysis.description := None;
            MarketAnalysis.photoUrl := None |} |}.

(** A browser for the worked examples.  [JSON.stringify] writes the names
    between brackets, separated by commas, and [JSON.parse] reads the two
    texts the examples store; [toUpperCase] raises the letters a-z.  The
    storage holds, for the user u1, the custom category [milk glass], whose
    id is the id of a default category, and accepts every item. *)
Definition sampleStringify (l : list string) : string :=
  "[" ++ String.concat "," l ++ "]".

Definition sampleParse (s : string) : option (list string) :=
  if (s =? "[milk glass]")%string then Some ["milk glass"]
  else if (s =? "[Carnival Glass,Depression Glass]")%string
  then Some ["Carnival Glass"; "Depression Glass"]
  else None.

Definition upperChar (c : ascii) : ascii :=
  let n := nat_of_ascii c in
  if ((97 <=? n) && (n <=? 122))%nat then ascii_of_nat (n - 32) else c.

Fixpoint sampleUpper (s : string) : string :=
  match s with
  | EmptyString => EmptyString
  | String c s' => String (upperChar c) (sampleUpper s')
  end.

Definition sampleStorage : CustomFields.LocalStorage :=
  {| CustomFields.items :=
       fun key => if (key =? "custom_categories_u1")%string
                  then Some "[milk glass]" else None;
     CustomFields.fits := fun _ _ => true |}.

End FurtherVocabulary.

(* ================================================================== *)
(** * Properties *)
(* ================================================================== *)

(** ** Strings: trimming and substrings *)

Section StringFacts.

Import JsString.
Local Open Scope string_scope.

Lemma string_app_assoc (a b c : string) : (a ++ b) ++ c = a ++ (b ++ c).
Proof. induction a as [|x a IH]; simpl; [reflexivity | now rewrite IH]. Qed.

Lemma string_app_length (a b : string) :
  String.length (a ++ b) = (String.length a + String.length b)%nat.
Proof. induction a as [|x a IH]; simpl; [reflexivity | now rewrite IH]. Qed.

Lemma truthy_nonempty (s : string) : truthy s = true <-> s <> "".
Proof. destruct s; simpl; split; congruence. Qed.

Lemma tailSolid_spec (s : string) :
  tailSolid s = true -> trimEnd s = s /\ s <> "".
Proof.
  unfold tailSolid. intros H. apply andb_true_iff in H as [Ht He].
  split; [now apply String.eqb_eq | now apply truthy_nonempty].
Qed.

Lemma trimStart_headSolid (s : string) : headSolid s = true -> trimStart s = s.
Proof.
  destruct s as [|c s]; simpl; [discriminate|].
  intros H. apply negb_true_iff in H. now rewrite H.
Qed.

Lemma headSolid_app (s t : string) : headSolid s = true -> headSolid (s ++ t) = true.
Proof. destruct s; simpl; [discriminate | trivial]. Qed.

(** Trimming the start of [s ++ t] cannot eat into a [t] that starts with a
    character that is not white space. *)
Lemma trimStart_app_keep (s t : string) :
  headSolid t = true -> exists u, trimStart (s ++ t) = u ++ t.
Proof.
  intros Ht. induction s as [|c s IH]; simpl.
  - exists "". simpl. now apply trimStart_headSolid.
  - destruct (isWhiteSpace c).
    + exact IH.
    + now exists (String c s).
Qed.

(** [trimEnd] only looks at the end of the string. *)
Lemma trimEnd_app_nonempty (s t : string) :
  trimEnd t <> "" -> trimEnd (s ++ t) = s ++ trimEnd t.
Proof.
  intros Ht. induction s as [|c s IH]; simpl; [reflexivity|].
  rewrite IH. destruct (s ++ trimEnd t) eqn:E; [|reflexivity].
  destruct s; simpl in E; [contradiction | discriminate].
Qed.

(** What [trimEnd] keeps of [s] it keeps of [s ++ w]. *)
Lemma trimEnd_app_extend (s w : string) :
  exists v, trimEnd (s ++ w) = trimEnd s ++ v.
Proof.
  induction s as [|c s [v IH]]; simpl.
  - now exists (trimEnd w).
  - rewrite IH. destruct (trimEnd s) as [|d r] eqn:E; simpl.
    + destruct v as [|x v]; destruct (isWhiteSpace c).
      * now exists "".
      * now exists "".
      * now exists (String c (String x v)).
      * now exists (String x v).
    + now exists v.
Qed.

Lemma prefix_app (sub rest : string) : prefix sub (sub ++ rest) = true.
Proof.
  induction sub as [|c sub IH]; simpl; [now destruct rest|].
  destruct (ascii_dec c c); [exact IH | congruence].
Qed.

Lemma includes_prefix (s sub : string) :
  prefix sub s = true -> includes s sub = true.
Proof. intros H. destruct s; cbn [includes]; now rewrite H. Qed.

Lemma includes_app (before sub rest : string) :
  includes (before ++ sub ++ rest) sub = true.
Proof.
  induction before as [|c before IH].
  - cbn [append]. apply includes_prefix. apply prefix_app.
  - cbn [append includes]. rewrite IH. apply orb_true_r.
Qed.

(** [trim (x ++ c)] still ends with [c]. *)
Lemma trim_suffix_solid (x c : string) :
  headSolid c = true -> tailSolid c = true ->
  exists u, trim (x ++ c) = u ++ c.
Proof.
  intros Hh Ht. apply tailSolid_spec in Ht as [Ht Hne].
  destruct (trimStart_app_keep x c Hh) as [u Hu].
  exists u. unfold trim. rewrite Hu, trimEnd_app_nonempty; rewrite Ht; auto.
Qed.

(** [trim (c ++ x)] still starts with [c]. *)
Lemma trim_prefix_solid (c x : string) :
  headSolid c = true -> tailSolid c = true ->
  exists v, trim (c ++ x) = c ++ v.
Proof.
  intros Hh Ht. apply tailSolid_spec in Ht as [Ht Hne].
  unfold trim. rewrite trimStart_headSolid by now apply headSolid_app.
  destruct (trimEnd_app_extend c x) as [v Hv]. exists v. now rewrite Hv, Ht.
Qed.

Lemma includes_trim_suffix (x c : string) :
  headSolid c = true -> tailSolid c = true -> includes (trim (x ++ c)) c = true.
Proof.
  intros Hh Ht. destruct (trim_suffix_solid x c Hh Ht) as [u ->].
  replace (u ++ c) with (u ++ c ++ "").
  - apply includes_app.
  - f_equal. clear. induction c; simpl; congruence.
Qed.

Lemma includes_trim_prefix (c x : string) :
  headSolid c = true -> tailSolid c = true -> includes (trim (c ++ x)) c = true.
Proof.
  intros Hh Ht. destruct (trim_prefix_solid c x Hh Ht) as [v ->].
  apply (includes_app "" c v).
Qed.

(** A term that starts with a solid word keeps everything before that
    word's end: [trim (p ++ c ++ x) = p ++ trim (c ++ x)] when [p] starts
    with a character that is not white space. *)
Lemma trim_prepend (p c x : string) :
  headSolid p = true -> headSolid c = true -> tailSolid c = true ->
  trim (p ++ c ++ x) = p ++ trim (c ++ x).
Proof.
  intros Hp Hh Ht. unfold trim.
  rewrite (trimStart_headSolid (p ++ c ++ x)) by now apply headSolid_app.
  rewrite (trimStart_headSolid (c ++ x)) by now apply headSolid_app.
  apply trimEnd_app_nonempty.
  destruct (trimEnd_app_extend c x) as [v Hv]. rewrite Hv.
  apply tailSolid_spec in Ht as [-> Hne].
  destruct c; simpl; [contradiction | discriminate].
Qed.

End StringFacts.

(** ** Sets of strings in insertion order *)

Section SetFacts.

Import MarketAnalysis.

Lemma existsb_eqb_In (x : string) (l : list string) :
  existsb (String.eqb x) l = true <-> In x l.
Proof.
  rewrite existsb_exists. split.
  - intros [y [Hy He]]. apply String.eqb_eq in He. now subst.
  - intros H. exists x. split; [assumption | apply String.eqb_refl].
Qed.

Lemma setAdd_In (seen : list string) (x y : string) :
  In y (setAdd seen x) <-> In y seen \/ y = x.
Proof.
  unfold setAdd. destruct (existsb (String.eqb x) seen) eqn:E.
  - apply existsb_eqb_In in E. split; [auto | intros [? | ->]; assumption].
  - rewrite in_app_iff. simpl. intuition congruence.
Qed.

Lemma setAdd_NoDup (seen : list string) (x : string) :
  NoDup seen -> NoDup (setAdd seen x).
Proof.
  intros H. unfold setAdd. destruct (existsb (String.eqb x) seen) eqn:E; [assumption|].
  assert (Hx : ~ In x seen).
  { intros Hin. apply existsb_eqb_In in Hin. congruence. }
  clear E. induction H as [|a l Ha Hl IH]; simpl.
  - constructor; [intros [] | constructor].
  - constructor.
    + rewrite in_app_iff. simpl. intros [? | [-> | []]]; [contradiction|].
      apply Hx. now left.
    + apply IH. intros Hin. apply Hx. now right.
Qed.

Lemma fold_setAdd_In (l seen : list string) (y : string) :
  In y (fold_left setAdd l seen) <-> In y seen \/ In y l.
Proof.
  revert seen. induction l as [|x l IH]; intros seen; simpl.
  - intuition.
  - rewrite IH, setAdd_In. intuition congruence.
Qed.

Lemma fold_setAdd_NoDup (l seen : list string) :
  NoDup seen -> NoDup (fold_left setAdd l seen).
Proof.
  revert seen. induction l as [|x l IH]; intros seen H; simpl; [assumption|].
  now apply IH, setAdd_NoDup.
Qed.

Lemma newSet_In (l : list string) (y : string) : In y (newSet l) <-> In y l.
Proof. unfold newSet. rewrite fold_setAdd_In. simpl. intuition. Qed.

Lemma newSet_NoDup (l : list string) : NoDup (newSet l).
Proof. apply fold_setAdd_NoDup. constructor. Qed.

Lemma NoDup_two_le {A : Type} (l : list A) (x y : A) :
  NoDup l -> In x l -> In y l -> x <> y -> (2 <= length l)%nat.
Proof.
  intros Hnd Hx Hy Hne.
  destruct l as [|a [|b l]]; simpl in *; [contradiction | | lia].
  destruct Hx as [-> | []], Hy as [-> | []]. congruence.
Qed.

End SetFacts.

(** ** generateSearchTerms *)

Section SearchTerms.

Import JsString MarketAnalysis.
Local Open Scope string_scope.

Lemma categoryName_cases (request : MarketAnalysisRequest) :
  categoryName request = "milk glass" \/ categoryName request = "jadite".
Proof.
  unfold categoryName. destruct (category request) as [c|]; [|now right].
  destruct (c =? "milk_glass"); [now left | now right].
Qed.

Lemma categoryName_solid (request : MarketAnalysisRequest) :
  headSolid (categoryName request) = true /\ tailSolid (categoryName request) = true.
Proof. destruct (categoryName_cases request) as [-> | ->]; split; reflexivity. Qed.


(** The third base term is the second one behind the word [vintage]. *)
Lemma vintage_term (c name : string) :
  headSolid c = true -> tailSolid c = true ->
  trim ("vintage " ++ c ++ " " ++ name) = "vintage " ++ trim (c ++ " " ++ name).
Proof. intros Hh Ht. now apply (trim_prepend "vintage " c (" " ++ name)). Qed.

Lemma solid_prefix_nonempty (c x : string) :
  headSolid c = true -> tailSolid c = true -> trim (c ++ x) <> "".
Proof.
  intros Hh Ht. destruct (trim_prefix_solid c x Hh Ht) as [v ->].
  destruct c; simpl; [discriminate | discriminate].
Qed.

Lemma includes_nonempty (t c : string) :
  c <> "" -> includes t c = true -> t <> "".
Proof. intros Hc H ->. destruct c; [congruence | discriminate]. Qed.

Lemma In_generateSearchTerms (request : MarketAnalysisRequest) (t : string) :
  In t (generateSearchTerms request) <-> In t (combinedTerms request) /\ t <> "".
Proof.
  unfold generateSearchTerms. rewrite newSet_In, filter_In, truthy_nonempty. tauto.
Qed.

(** C1, as amended.  For every request, [generateSearchTerms] returns at
    least two terms and no term twice; the three base terms are among them;
    no term is empty; and every term contains the category phrase, unless
    it is one of the two terms built from the manufacturer and the name
    alone, about which nothing is said. *)
Theorem generateSearchTerms_terms (request : MarketAnalysisRequest) :
  let terms := generateSearchTerms request in
  let c := categoryName request in
  let name := show (itemName request) in
  let maker := show (manufacturer request) in
  (2 <= List.length terms)%nat
  /\ NoDup terms
  /\ In (trim (name ++ " " ++ c)) terms
  /\ In (trim (c ++ " " ++ name)) terms
  /\ In (trim ("vintage " ++ c ++ " " ++ name)) terms
  /\ forall t, In t terms ->
       t <> ""
       /\ (includes t c = true
           \/ (present (manufacturer request) = true
               /\ (t = trim (maker ++ " " ++ name) \/ t = trim (name ++ " " ++ maker)))).
Proof.
  intros terms c name maker.
  destruct (categoryName_solid request) as [Hh Ht]. fold c in Hh, Ht.
  assert (Hc : c <> "") by (destruct c; [discriminate | discriminate]).
  assert (Hsuf : forall x, includes (trim (x ++ " " ++ c)) c = true).
  { intros x. rewrite <- string_app_assoc. now apply includes_trim_suffix. }
  assert (Hpre : forall x, includes (trim (c ++ x)) c = true).
  { intros x. now apply includes_trim_prefix. }
  assert (H1 : In (trim (name ++ " " ++ c)) terms).
  { apply In_generateSearchTerms. split.
    - unfold combinedTerms. fold c name. cbn [In app]. auto.
    - apply (includes_nonempty _ c Hc), Hsuf. }
  assert (H2 : In (trim (c ++ " " ++ name)) terms).
  { apply In_generateSearchTerms. split.
    - unfold combinedTerms. fold c name. cbn [In app]. auto.
    - now apply solid_prefix_nonempty. }
  assert (H3 : In (trim ("vintage " ++ c ++ " " ++ name)) terms).
  { apply In_generateSearchTerms. split.
    - unfold combinedTerms. fold c name. cbn [In app]. auto.
    - rewrite vintage_term by assumption. discriminate. }
  assert (Hnd : NoDup terms) by apply newSet_NoDup.
  repeat split; try assumption.
  - apply (NoDup_two_le terms _ _ Hnd H2 H3).
    rewrite vintage_term by assumption. intros E.
    apply (f_equal String.length) in E. rewrite string_app_length in E. simpl in E. lia.
  - now apply In_generateSearchTerms in H.
  - apply In_generateSearchTerms in H as [H _].
    unfold combinedTerms in H. fold c name maker in H.
    rewrite !in_app_iff in H. destruct H as [H | [H | H]].
    + cbn [In] in H. destruct H as [<- | [<- | [<- | []]]]; left.
      * apply Hsuf.
      * apply Hpre.
      * rewrite vintage_term by assumption.
        destruct (trim_prefix_solid c (" " ++ name) Hh Ht) as [v ->].
        apply (includes_app "vintage " c v).
    + destruct (present (manufacturer request)); [|contradiction].
      cbn [In] in H. destruct H as [<- | [<- | [<- | [<- | [<- | []]]]]]; auto.
      left. replace (maker ++ " " ++ name ++ " " ++ c) with ((maker ++ " " ++ name) ++ " " ++ c).
      * apply Hsuf.
      * now rewrite !string_app_assoc.
    + destruct (present (pattern request)); [|contradiction].
      cbn [In] in H. destruct H as [<- | [<- | []]]; auto.
Qed.

(** C1 as stated fails twice.  A name equal to the category phrase gives
    two terms, not three; and with a manufacturer the term
    [Fenton Hen on Nest] does not contain the category phrase. *)
Lemma generateSearchTerms_counterexample :
  let same := {| itemName := Some "jadite"; manufacturer := None; pattern := None;
                 category := Some "jadite"; description := None; photoUrl := None |} in
  let hen := {| itemName := Some "Hen on Nest"; manufacturer := Some "Fenton";
                pattern := None; category := Some "milk_glass";
                description := None; photoUrl := None |} in
  generateSearchTerms same = ["jadite jadite"; "vintage jadite jadite"]
  /\ ~ (3 <= List.length (generateSearchTerms same))%nat
  /\ In "Fenton Hen on Nest" (generateSearchTerms hen)
  /\ includes "Fenton Hen on Nest" (categoryName hen) = false.
Proof.
  cbv zeta. split; [reflexivity|]. split; [vm_compute; lia|].
  split; [vm_compute; tauto | reflexivity].
Qed.



(** The scenario of the Hen on Nest by Fenton: the terms, in order. *)
Example generateSearchTerms_hen_on_nest :
  generateSearchTerms
    {| itemName := Some "Hen on Nest"; manufacturer := Some "Fenton";
       pattern := None; category := Some "milk_glass";
       description := None; photoUrl := None |}
  = [ "Hen on Nest milk glass"; "milk glass Hen on Nest";
      "vintage milk glass Hen on Nest"; "Fenton milk glass";
      "Fenton Hen on Nest milk glass"; "milk glass Fenton";
      "Fenton Hen on Nest"; "Hen on Nest Fenton" ].
Proof. reflexivity. Qed.

End SearchTerms.

(** ** Numbers *)

Section FloatFacts.

Local Open Scope float_scope.



Lemma SFltb_finite_irrefl (s : bool) (m : positive) (e : Z) :
  SFltb (S754_finite s m e) (S754_finite s m e) = false.
Proof.
  unfold SFltb, SFcompare.
  destruct s; rewrite Z.compare_refl, Pcompare_refl; reflexivity.
Qed.

Section Positive.

Variable p : float.
Variables (m : positive) (e : Z).
Hypothesis Hp : Prim2SF p = S754_finite false m e.










End Positive.

End FloatFacts.

(** ** calculateMarketAnalysis *)

(** Rounding to two decimals, checked on every price in cents below
    83,886.08 and every price in thousandths below 4,194.304. *)
Section Rounding.

Import PrimInt63.






End Rounding.

Section Analysis.

Import MarketAnalysis.
Local Open Scope float_scope.

(** C8.  On the empty list the analysis is the fixed record; and only the
    empty list has an analysis without recent sales. *)
Theorem calculateMarketAnalysis_empty :
  calculateMarketAnalysis []
  = {| averagePrice := 0;
       recentSales := [];
       priceRange := {| min := 0; max := 0 |};
       confidence := low |}
  /\ forall sales, recentSales (calculateMarketAnalysis sales) = [] -> sales = [].
Proof.
  split; [reflexivity|].
  intros [|first rest] H; [reflexivity|]. discriminate H.
Qed.



(** The numerals 24.99 and 24.999: the first is kept, the second goes to
    25. *)
Example averagePrice_of_numerals :
  let sale p := {| title := "a"; price := p; soldDate := ""; condition := "";
                   url := ""; imageUrl := None |} in
  cents 2499 = 24.99 /\ mills 24999 = 24.999 /\ cents 2500 = 25
  /\ averagePrice (calculateMarketAnalysis [sale 24.99]) = 24.99
  /\ averagePrice (calculateMarketAnalysis [sale 24.999]) = 25.
Proof. cbv zeta. repeat split; vm_compute; reflexivity. Qed.

Lemma confidence_by_length (sales : list eBayItem) :
  confidence (calculateMarketAnalysis sales)
  = match sales with
    | [] => low
    | first :: _ =>
        if (5 <=? length sales)%nat then
          if (JsNumber.max (map price sales) - JsNumber.min (map price sales))
             / price first <? 0.3
          then high else medium
        else if (3 <=? length sales)%nat then medium
        else low
    end.
Proof. destruct sales; reflexivity. Qed.



End Analysis.

(** ** The monad *)

Section MonadFacts.

Lemma returns_ret {A : Type} (a : A) : returns (ret a).
Proof. intros w. now exists a, w. Qed.

Lemma returns_bind {A B : Type} (m : M A) (k : A -> M B) :
  returns m -> (forall a, returns (k a)) -> returns (bind m k).
Proof.
  intros Hm Hk w. destruct (Hm w) as [a [w1 E]].
  destruct (Hk a w1) as [b [w2 E2]]. exists b, w2. unfold bind. now rewrite E.
Qed.

(** A [try] whose [catch] always returns always returns. *)
Lemma returns_tryCatch {A : Type} (body : M A) (handler : exn -> M A) :
  (forall e, returns (handler e)) -> returns (tryCatch body handler).
Proof.
  intros Hh w. unfold tryCatch.
  destruct (body w) as [[a | e] w1].
  - now exists a, w1.
  - apply Hh.
Qed.

Lemma returns_random (env : Env) : returns (random env).
Proof. intros w. unfold random. eauto. Qed.

Lemma returns_now (env : Env) : returns (now env).
Proof. intros w. unfold now. eauto. Qed.

Lemma returns_sleep (ms : Z) : returns (sleep ms).
Proof. intros w. unfold sleep, emit. eauto. Qed.

(** Returning with a value that satisfies [Q]. *)
Lemma returns_with_bind {A B : Type} (m : M A) (k : A -> M B) (Q : B -> Prop) :
  returns m ->
  (forall a w, exists b w', k a w = (Returned b, w') /\ Q b) ->
  forall w, exists b w', bind m k w = (Returned b, w') /\ Q b.
Proof.
  intros Hm Hk w. destruct (Hm w) as [a [w1 E]].
  destruct (Hk a w1) as [b [w2 [E2 HQ]]]. exists b, w2. unfold bind. now rewrite E.
Qed.

End MonadFacts.

(** A relation between the world before and after that a computation
    maintains, whether it returns or throws. *)
Section Keeps.

Variable R : World -> World -> Prop.
Hypothesis R_refl : forall w, R w w.
Hypothesis R_trans : forall w1 w2 w3, R w1 w2 -> R w2 w3 -> R w1 w3.

Lemma keeps_ret {A : Type} (a : A) : keeps R (ret a).
Proof. intros w. apply R_refl. Qed.

Lemma keeps_throw {A : Type} (e : exn) : keeps R (@throw A e).
Proof. intros w. apply R_refl. Qed.

Lemma keeps_bind {A B : Type} (m : M A) (k : A -> M B) :
  keeps R m -> (forall a, keeps R (k a)) -> keeps R (bind m k).
Proof.
  intros Hm Hk w. unfold bind. specialize (Hm w).
  destruct (m w) as [[a | e] w1]; simpl in *; [|assumption].
  eapply R_trans; [eassumption | apply Hk].
Qed.

Lemma keeps_tryCatch {A : Type} (body : M A) (handler : exn -> M A) :
  keeps R body -> (forall e, keeps R (handler e)) -> keeps R (tryCatch body handler).
Proof.
  intros Hb Hh w. unfold tryCatch. specialize (Hb w).
  destruct (body w) as [[a | e] w1]; simpl in *; [assumption|].
  eapply R_trans; [eassumption | apply Hh].
Qed.

End Keeps.

Section Frames.

Variable env : Env.

Lemma sameStore_refl (w : World) : sameStore w w.
Proof. now unfold sameStore. Qed.

Lemma sameStore_trans (w1 w2 w3 : World) :
  sameStore w1 w2 -> sameStore w2 w3 -> sameStore w1 w3.
Proof. unfold sameStore. intuition congruence. Qed.

Lemma sameTrace_refl (w : World) : sameTrace w w.
Proof. reflexivity. Qed.

Lemma sameTrace_trans (w1 w2 w3 : World) :
  sameTrace w1 w2 -> sameTrace w2 w3 -> sameTrace w1 w3.
Proof. unfold sameTrace. congruence. Qed.

Lemma sameWishlist_refl (w : World) : sameWishlist w w.
Proof. reflexivity. Qed.

Lemma sameWishlist_trans (w1 w2 w3 : World) :
  sameWishlist w1 w2 -> sameWishlist w2 w3 -> sameWishlist w1 w3.
Proof. unfold sameWishlist. congruence. Qed.

Lemma laterClock_refl (w : World) : laterClock w w.
Proof. unfold laterClock. lia. Qed.

Lemma laterClock_trans (w1 w2 w3 : World) :
  laterClock w1 w2 -> laterClock w2 w3 -> laterClock w1 w3.
Proof. unfold laterClock. lia. Qed.

Lemma sameStore_sameWishlist {A : Type} (m : M A) :
  keeps sameStore m -> keeps sameWishlist m.
Proof. intros H w. apply (H w). Qed.

Lemma laterClock_random : keeps laterClock (random env).
Proof. intros w. unfold laterClock. simpl. lia. Qed.

Lemma laterClock_now : keeps laterClock (now env).
Proof. intros w. unfold laterClock. simpl. lia. Qed.

Lemma laterClock_sleep (ms : Z) : keeps laterClock (sleep ms).
Proof. intros w. unfold laterClock. simpl. lia. Qed.

Lemma laterClock_fetch (u : string) : keeps laterClock (fetch env u).
Proof.
  intros w. unfold fetch. simpl.
  destruct (respond env _ u); unfold laterClock; simpl; lia.
Qed.

Lemma laterClock_json (r : HttpResponse) : keeps laterClock (json r).
Proof. intros w. unfold json. destruct (http_json r); apply laterClock_refl. Qed.

Lemma sameStore_random : keeps sameStore (random env).
Proof. intros w. now unfold sameStore. Qed.

Lemma sameStore_now : keeps sameStore (now env).
Proof. intros w. now unfold sameStore. Qed.

Lemma sameStore_sleep (ms : Z) : keeps sameStore (sleep ms).
Proof. intros w. now unfold sameStore. Qed.

Lemma sameStore_fetch (u : string) : keeps sameStore (fetch env u).
Proof.
  intros w. unfold fetch. simpl.
  destruct (respond env _ u); now unfold sameStore.
Qed.

Lemma sameStore_json (r : HttpResponse) : keeps sameStore (json r).
Proof. intros w. unfold json. destruct (http_json r); now unfold sameStore. Qed.

Lemma sameTrace_random : keeps sameTrace (random env).
Proof. intros w. reflexivity. Qed.

Lemma sameTrace_now : keeps sameTrace (now env).
Proof. intros w. reflexivity. Qed.

End Frames.

Create HintDb frames.

#[local] Hint Resolve sameStore_refl sameStore_trans sameTrace_refl sameTrace_trans
  sameStore_random sameStore_now sameStore_sleep sameStore_fetch sameStore_json
  sameTrace_random sameTrace_now
  laterClock_random laterClock_now laterClock_sleep laterClock_fetch laterClock_json
  : frames.

Ltac frame_trans :=
  first [ exact sameStore_trans | exact sameTrace_trans
        | exact sameWishlist_trans | exact laterClock_trans
        | exact sameStore_refl | exact sameTrace_refl
        | exact sameWishlist_refl | exact laterClock_refl ].

(** One step through the syntax of a computation. *)
Ltac frame_step :=
  match goal with
  | |- keeps _ (ret _) => apply keeps_ret; frame_trans
  | |- keeps _ (throw _) => apply keeps_throw; frame_trans
  | |- keeps _ (bind _ _) => apply keeps_bind; [frame_trans | | intros]
  | |- keeps _ (tryCatch _ _) => apply keeps_tryCatch; [frame_trans | | intros]
  | |- keeps _ (if ?b then _ else _) => destruct b
  | |- keeps _ (match ?x with _ => _ end) => destruct x
  | |- keeps _ _ => solve [auto with frames]
  end.

(** ** searchEbayListings and getMockEbayData *)

Section ActiveSearch.

Import JsString EbayMonitor.
Local Open Scope float_scope.
Local Open Scope string_scope.

Variable host : Host.
Variable env : Env.

Lemma sameStore_mockEndTime (days : float) :
  keeps sameStore (mockEndTime host env days).
Proof. unfold mockEndTime. repeat frame_step. Qed.

Lemma sameStore_getMockEbayData (term : string) (maxPrice : option float) :
  keeps sameStore (getMockEbayData host env term maxPrice).
Proof.
  unfold getMockEbayData. pose proof sameStore_mockEndTime. repeat frame_step.
Qed.

Lemma sameStore_orNow (o : option string) : keeps sameStore (orNow host env o).
Proof. unfold orNow. repeat frame_step. Qed.

Lemma sameStore_pushListings (items : list (option ApiItem)) :
  forall listings, keeps sameStore (pushListings host env items listings).
Proof.
  pose proof sameStore_orNow.
  induction items as [|[item|] items IH]; intros listings; simpl; repeat frame_step.
Qed.

Lemma sameStore_searchEbayListings (term : string) (maxPrice : option float) :
  keeps sameStore (searchEbayListings host env term maxPrice).
Proof.
  pose proof sameStore_getMockEbayData. pose proof sameStore_pushListings.
  unfold searchEbayListings, keywordsResponse. repeat frame_step.
Qed.

Lemma laterClock_searchEbayListings (term : string) (maxPrice : option float) :
  keeps laterClock (searchEbayListings host env term maxPrice).
Proof.
  assert (H1 : forall o, keeps laterClock (orNow host env o)).
  { intros o. unfold orNow. repeat frame_step. }
  assert (H2 : forall items listings,
             keeps laterClock (pushListings host env items listings)).
  { induction items as [|[item|] items IH]; intros listings; simpl;
      repeat frame_step. }
  assert (H3 : keeps laterClock (getMockEbayData host env term maxPrice)).
  { unfold getMockEbayData, mockEndTime. repeat frame_step. }
  unfold searchEbayListings, keywordsResponse. repeat frame_step.
Qed.

(** The two listings [getMockEbayData] builds before it filters them. *)
Lemma getMockEbayData_run (term : string) (maxPrice : option float) (w : World) :
  exists a b w',
    getMockEbayData host env term maxPrice w
    = (Returned (filter (withinBudget maxPrice) [a; b]), w')
    /\ title a = term ++ " - Vintage Collectible"
    /\ title b = "Rare " ++ term ++ " Collection Item"
    /\ url a = "https://www.ebay.com/sch/i.html?_nkw=" ++ encodeURIComponent host term
    /\ url b = url a.
Proof. unfold getMockEbayData. do 3 eexists. repeat split. Qed.

Lemma withinBudget_no_ceiling (maxPrice : option float) (item : EbayListing) :
  JsNumber.present maxPrice = false -> withinBudget maxPrice item = true.
Proof.
  unfold withinBudget, JsNumber.present. destruct maxPrice as [m|]; [|reflexivity].
  now intros ->.
Qed.

Lemma includes_middle (before sub rest : string) :
  includes (before ++ sub ++ rest) sub = true.
Proof. apply includes_app. Qed.

(** What the synthetic generator gives: it returns, at most two listings,
    exactly two without a price ceiling; each is within the ceiling, is
    titled after the search term and links to the search for that term. *)
Lemma getMockEbayData_listings (term : string) (maxPrice : option float) (w : World) :
  exists listings w',
    getMockEbayData host env term maxPrice w = (Returned listings, w')
    /\ (List.length listings <= 2)%nat
    /\ (JsNumber.present maxPrice = false -> List.length listings = 2%nat)
    /\ Forall (fun l => withinBudget maxPrice l = true
                        /\ includes (title l) term = true
                        /\ url l = "https://www.ebay.com/sch/i.html?_nkw="
                                   ++ encodeURIComponent host term) listings.
Proof.
  destruct (getMockEbayData_run term maxPrice w) as [a [b [w' [E [Ta [Tb [Ua Ub]]]]]]].
  exists (filter (withinBudget maxPrice) [a; b]), w'.
  split; [exact E|]. split; [|split].
  - simpl. destruct (withinBudget maxPrice a), (withinBudget maxPrice b); simpl; lia.
  - intros H. simpl. now rewrite !withinBudget_no_ceiling.
  - apply Forall_forall. intros l Hl. apply filter_In in Hl as [Hl Hb].
    split; [exact Hb|].
    destruct Hl as [<- | [<- | []]].
    + rewrite Ta, Ua. split; [apply (includes_app "" term) | reflexivity].
    + rewrite Tb, Ub, Ua. split; [apply (includes_app "Rare " term) | reflexivity].
Qed.

Lemma returns_getMockEbayData (term : string) (maxPrice : option float) :
  returns (getMockEbayData host env term maxPrice).
Proof.
  intros w. destruct (getMockEbayData_listings term maxPrice w) as [l [w' [E _]]].
  now exists l, w'.
Qed.

Lemma returns_searchEbayListings (term : string) (maxPrice : option float) :
  returns (searchEbayListings host env term maxPrice).
Proof.
  unfold searchEbayListings. apply returns_tryCatch.
  intros _. apply returns_getMockEbayData.
Qed.

End ActiveSearch.

(** ** searcheBaySoldListings and getMockData *)

Section SoldSearch.

Import JsString MarketAnalysis.
Local Open Scope string_scope.
Local Open Scope float_scope.

Variable host : Host.
Variable env : Env.

Lemma sameTrace_mockPrice (spread base : float) :
  keeps sameTrace (mockPrice env spread base).
Proof. unfold mockPrice. repeat frame_step. Qed.

Lemma sameTrace_mockSoldDate (days : float) :
  keeps sameTrace (mockSoldDate host env days).
Proof. unfold mockSoldDate. repeat frame_step. Qed.

Lemma sameTrace_getMockData (terms : list string) :
  keeps sameTrace (getMockData host env terms).
Proof.
  pose proof sameTrace_mockPrice. pose proof sameTrace_mockSoldDate.
  unfold getMockData. repeat frame_step.
Qed.

Lemma returns_mockPrice (spread base : float) : returns (mockPrice env spread base).
Proof.
  unfold mockPrice. apply returns_bind; [apply returns_random | intros r].
  apply returns_ret.
Qed.

Lemma returns_mockSoldDate (days : float) : returns (mockSoldDate host env days).
Proof.
  unfold mockSoldDate. apply returns_bind; [apply returns_now | intros t].
  apply returns_bind; [apply returns_random | intros r]. apply returns_ret.
Qed.

Lemma returns_getMockData (terms : list string) :
  returns (getMockData host env terms).
Proof.
  unfold getMockData.
  repeat (apply returns_bind;
          [first [apply returns_mockPrice | apply returns_mockSoldDate] | intros ?]).
  apply returns_ret.
Qed.

Lemma firstn_In_list {A : Type} (n : nat) (l : list A) (x : A) :
  In x (firstn n l) -> In x l.
Proof.
  intros H. rewrite <- (firstn_skipn n l). apply in_or_app. now left.
Qed.

(** The synthetic generator of the sold search returns one to three
    sales: those of its three whose title contains a search term, or all
    three when none does. *)
Lemma getMockData_count (terms : list string) (w : World) :
  exists sold w',
    getMockData host env terms w = (Returned sold, w')
    /\ (1 <= List.length sold <= 3)%nat.
Proof.
  revert w. unfold getMockData.
  repeat (apply returns_with_bind;
          [first [apply returns_mockPrice | apply returns_mockSoldDate] | intros ?]).
  intros w. do 2 eexists. split; [reflexivity|].
  match goal with
  | |- context [filter ?f [?a; ?b; ?c]] =>
      cbn [filter]; destruct (f a), (f b), (f c); simpl; lia
  end.
Qed.

Lemma fetchedUrls_app (t1 t2 : list Event) :
  fetchedUrls (t1 ++ t2) = (fetchedUrls t1 ++ fetchedUrls t2)%list.
Proof. apply flat_map_app. Qed.

Lemma allPositive_push (results : list eBayItem) (s : eBayItem) :
  allPositive results ->
  allPositive (if 0 <? price s then (results ++ [s])%list else results).
Proof.
  intros H. destruct (0 <? price s) eqn:E; [|assumption].
  apply Forall_app. split; [assumption | now constructor].
Qed.

(** The loop over the items only pushes sales priced above zero, never
    throws (it hands the exception back), and fetches nothing. *)
Lemma pushSoldItems_spec (items : list (option ApiItem)) :
  forall results w,
  exists results' thrown w',
    pushSoldItems host env items results w = (Returned (results', thrown), w')
    /\ (allPositive results -> allPositive results')
    /\ trace w' = trace w.
Proof.
  induction items as [|[item|] items IH]; intros results w; simpl.
  - now exists results, None, w.
  - destruct (api_sellingState item) as [state|]; [|apply IH].
    destruct (state =? "EndedWithSales")%string; [|apply IH].
    unfold bind, MarketAnalysis.orNow.
    destruct (orUndefined (api_endTime item)) as [d|]; simpl.
    + match goal with
      | |- context [pushSoldItems _ _ _ ?r ?w0] =>
          destruct (IH r w0) as [r' [t [w' [E [Hp Ht]]]]]
      end.
      exists r', t, w'. split; [exact E|]. split; [|exact Ht].
      intros H. apply Hp.
      destruct (0 <? _) eqn:Epos; [|assumption].
      apply Forall_app. split; [assumption|].
      constructor; [exact Epos | constructor].
    + match goal with
      | |- context [pushSoldItems _ _ _ ?r ?w0] =>
          destruct (IH r w0) as [r' [t [w' [E [Hp Ht]]]]]
      end.
      exists r', t, w'. split; [exact E|]. split; [|exact Ht].
      intros H. apply Hp.
      destruct (0 <? _) eqn:Epos; [|assumption].
      apply Forall_app. split; [assumption|].
      constructor; [exact Epos | constructor].
  - now exists results, (Some (Error "Cannot read properties of null")), w.
Qed.

(** One turn of the loop over the terms: it returns, it fetches the URL of
    its term once, and it keeps every price above zero. *)
Lemma searchOneTerm_spec (appId term : string) (results : list eBayItem) (w : World) :
  exists results' w',
    searchOneTerm host env appId term results w = (Returned results', w')
    /\ (allPositive results -> allPositive results')
    /\ fetchedUrls (trace w') = (fetchedUrls (trace w) ++ [soldUrl host appId term])%list.
Proof.
  unfold searchOneTerm, tryCatch, bind, fetch, emit, json, completedResponse,
    sleep, emit, ret, throw. fold (soldUrl host appId term). simpl.
  assert (Hfetch : forall t, fetchedUrls (t ++ [Fetched (soldUrl host appId term)])
                             = (fetchedUrls t ++ [soldUrl host appId term])%list).
  { intros t. now rewrite fetchedUrls_app. }
  assert (Hsleep : forall t, fetchedUrls (t ++ [Slept 100]) = fetchedUrls t).
  { intros t. rewrite fetchedUrls_app. simpl. now rewrite app_nil_r. }
  destruct (respond env _ _) as [e | response]; simpl.
  { do 2 eexists. split; [reflexivity|]. simpl. auto. }
  destruct (http_ok response); simpl;
    [| do 2 eexists; split; [reflexivity|]; simpl; auto].
  destruct (http_json response) as [[| byKeywords [sr|]]|]; simpl;
    try (do 2 eexists; split; [reflexivity|]; simpl; rewrite ?Hsleep; now auto).
  destruct (api_ack sr) as [ack|], (api_items sr) as [| items |]; simpl;
    try (do 2 eexists; split; [reflexivity|]; simpl; rewrite ?Hsleep; now auto).
  - destruct (ack =? "Success")%string; simpl;
      [| do 2 eexists; split; [reflexivity|]; simpl; rewrite ?Hsleep; now auto].
    match goal with
    | |- context [pushSoldItems _ _ _ ?r ?w0] =>
        destruct (pushSoldItems_spec items r w0) as [r' [t [w' [E [Hp Ht]]]]]
    end.
    rewrite E. simpl in Ht.
    destruct t; simpl; do 2 eexists; (split; [reflexivity|]); simpl;
      rewrite ?Hsleep, Ht; auto.
  - destruct (ack =? "Success")%string; simpl;
      do 2 eexists; (split; [reflexivity|]); simpl; rewrite ?Hsleep; auto.
Qed.


Lemma returns_searcheBaySoldListings (terms : list string) :
  returns (searcheBaySoldListings host env terms).
Proof.
  unfold searcheBaySoldListings. apply returns_tryCatch.
  intros _. apply returns_getMockData.
Qed.

End SoldSearch.

(** ** The searches on a string that encodeURIComponent rejects *)

Section MalformedSearch.

Import JsString.
Local Open Scope string_scope.

Variable host : Host.
Variable env : Env.
Variable loneSurrogate : string -> bool.

Lemma bind_ret {A B : Type} (a : A) (k : A -> M B) : bind (ret a) k = k a.
Proof. reflexivity. Qed.

Lemma encodeURIComponent_accepted (s : string) :
  loneSurrogate s = false ->
  Malformed.encodeURIComponent host loneSurrogate s = ret (encodeURIComponent host s).
Proof. intros H. unfold Malformed.encodeURIComponent. now rewrite H. Qed.

Lemma encodeURIComponent_rejected (s : string) (w : World) :
  loneSurrogate s = true ->
  Malformed.encodeURIComponent host loneSurrogate s w = (Thrown (Error "URI malformed"), w).
Proof. intros H. unfold Malformed.encodeURIComponent. now rewrite H. Qed.

(** On a term that [encodeURIComponent] accepts, the synthetic generator
    of the active search and the active search are the functions of
    [EbayMonitor]. *)
Lemma getMockEbayData_accepted (term : string) (maxPrice : option float) :
  loneSurrogate term = false ->
  Malformed.getMockEbayData host env loneSurrogate term maxPrice
  = EbayMonitor.getMockEbayData host env term maxPrice.
Proof.
  intros H. unfold Malformed.getMockEbayData.
  rewrite (encodeURIComponent_accepted term H). reflexivity.
Qed.

Lemma searchEbayListings_accepted (term : string) (maxPrice : option float) :
  loneSurrogate term = false ->
  Malformed.searchEbayListings host env loneSurrogate term maxPrice
  = EbayMonitor.searchEbayListings host env term maxPrice.
Proof.
  intros H. unfold Malformed.searchEbayListings.
  rewrite (getMockEbayData_accepted term maxPrice H), (encodeURIComponent_accepted term H).
  reflexivity.
Qed.

(** When [encodeURIComponent] accepts its three queries, the synthetic
    generator of the sold search is the function of [MarketAnalysis]. *)
Lemma getMockData_accepted (terms : list string) :
  accepted loneSurrogate (mockQueries terms) ->
  Malformed.getMockData host env loneSurrogate terms
  = MarketAnalysis.getMockData host env terms.
Proof.
  unfold accepted, mockQueries. cbv zeta. cbn [map]. intros H.
  pose proof (Forall_inv H) as H1.
  pose proof (Forall_inv (Forall_inv_tail H)) as H2.
  pose proof (Forall_inv (Forall_inv_tail (Forall_inv_tail H))) as H3.
  cbv beta in H1, H2, H3.
  unfold Malformed.getMockData, Malformed.generateEbaySearchUrl. cbv zeta.
  rewrite (encodeURIComponent_accepted _ H1), (encodeURIComponent_accepted _ H2),
    (encodeURIComponent_accepted _ H3).
  unfold MarketAnalysis.getMockData, MarketAnalysis.generateEbaySearchUrl.
  cbv beta iota zeta delta [bind ret]. reflexivity.
Qed.

(** It throws when [encodeURIComponent] rejects one of them. *)
Lemma getMockData_rejected (terms : list string) (w : World) :
  existsb loneSurrogate (mockQueries terms) = true ->
  exists w', Malformed.getMockData host env loneSurrogate terms w
             = (Thrown (Error "URI malformed"), w').
Proof.
  unfold mockQueries. cbv zeta. cbn [map existsb]. intros H.
  unfold Malformed.getMockData, Malformed.generateEbaySearchUrl. cbv zeta.
  unfold bind at 1.
  destruct (returns_mockPrice env 50 50 w) as [p1 [w1 ->]]. unfold bind at 1.
  destruct (returns_mockSoldDate host env 30 w1) as [d1 [w2 ->]]. unfold bind at 1 2.
  match goal with
  | |- context [Malformed.encodeURIComponent host loneSurrogate ?q w2] =>
      destruct (loneSurrogate q) eqn:E1;
      [rewrite (encodeURIComponent_rejected q w2 E1); now exists w2
      | rewrite (encodeURIComponent_accepted q E1)]
  end.
  unfold ret at 1 2. unfold bind at 1.
  destruct (returns_mockPrice env 40 40 w2) as [p2 [w3 ->]]. unfold bind at 1.
  destruct (returns_mockSoldDate host env 20 w3) as [d2 [w4 ->]]. unfold bind at 1 2.
  match goal with
  | |- context [Malformed.encodeURIComponent host loneSurrogate ?q w4] =>
      destruct (loneSurrogate q) eqn:E2;
      [rewrite (encodeURIComponent_rejected q w4 E2); now exists w4
      | rewrite (encodeURIComponent_accepted q E2)]
  end.
  unfold ret at 1 2. unfold bind at 1.
  destruct (returns_mockPrice env 60 60 w4) as [p3 [w5 ->]]. unfold bind at 1.
  destruct (returns_mockSoldDate host env 15 w5) as [d3 [w6 ->]]. unfold bind at 1 2.
  match goal with
  | |- context [Malformed.encodeURIComponent host loneSurrogate ?q w6] =>
      destruct (loneSurrogate q) eqn:E3;
      [rewrite (encodeURIComponent_rejected q w6 E3); now exists w6 |]
  end.
  discriminate H.
Qed.

(** One turn of the loop of the sold search returns, whatever the term. *)
Lemma searchOneTerm_returns (appId term : string)
      (results : list MarketAnalysis.eBayItem) (w : World) :
  exists results' w',
    Malformed.searchOneTerm host env loneSurrogate appId term results w
    = (Returned results', w')
    /\ (allPositive results -> allPositive results').
Proof.
  destruct (loneSurrogate term) eqn:E.
  - exists results, w. split; [|auto].
    unfold Malformed.searchOneTerm, tryCatch. unfold bind at 1.
    now rewrite (encodeURIComponent_rejected term w E).
  - assert (Hsame : Malformed.searchOneTerm host env loneSurrogate appId term results
                    = MarketAnalysis.searchOneTerm host env appId term results).
    { unfold Malformed.searchOneTerm. rewrite (encodeURIComponent_accepted term E).
      reflexivity. }
    rewrite Hsame.
    destruct (searchOneTerm_spec host env appId term results w) as [r [w' [H1 [H2 _]]]].
    now exists r, w'.
Qed.

Lemma searchTermsLoop_returns (appId : string) (terms : list string) :
  forall results w,
  exists results' w',
    Malformed.searchTermsLoop host env loneSurrogate appId terms results w
    = (Returned results', w')
    /\ (allPositive results -> allPositive results').
Proof.
  induction terms as [|term terms IH]; intros results w; simpl.
  - exists results, w. now auto.
  - unfold bind.
    destruct (searchOneTerm_returns appId term results w) as [r1 [w1 [E1 P1]]].
    rewrite E1. destruct (IH r1 w1) as [r2 [w2 [E2 P2]]].
    exists r2, w2. split; [exact E2 | auto].
Qed.

(** What the sold search gives when [encodeURIComponent] accepts the
    queries of the synthetic generator: one to ten sales; more than three
    only with a credential, and then from the marketplace, each priced
    above zero. *)
Lemma searcheBaySoldListings_result (terms : list string) (w : World) :
  accepted loneSurrogate (mockQueries terms) ->
  exists sold w',
    Malformed.searcheBaySoldListings host env loneSurrogate terms w = (Returned sold, w')
    /\ (1 <= List.length sold <= 10)%nat
    /\ ((3 < List.length sold)%nat ->
        present (EBAY_APP_ID env) = true /\ allPositive sold).
Proof.
  intros Hq. unfold Malformed.searcheBaySoldListings.
  rewrite (getMockData_accepted terms Hq).
  assert (Hmock : forall w0,
            exists sold w',
              tryCatch (MarketAnalysis.getMockData host env terms)
                       (fun _ => MarketAnalysis.getMockData host env terms) w0
              = (Returned sold, w')
              /\ (1 <= List.length sold <= 10)%nat
              /\ ((3 < List.length sold)%nat ->
                  present (EBAY_APP_ID env) = true /\ allPositive sold)).
  { intros w0. destruct (getMockData_count host env terms w0) as [sold [w' [E Hlen]]].
    exists sold, w'. unfold tryCatch. rewrite E. split; [reflexivity|].
    split; [lia|]. intros H. lia. }
  destruct (present (EBAY_APP_ID env)) eqn:Hid; cbn [negb]; [|apply Hmock].
  unfold tryCatch, bind.
  destruct (searchTermsLoop_returns (show (EBAY_APP_ID env)) (firstn 3 terms) [] w)
    as [results [w1 [E Hpos]]].
  rewrite E. destruct results as [|r rs].
  - destruct (getMockData_count host env terms w1) as [sold [w' [E' Hlen]]].
    exists sold, w'. rewrite E'. split; [reflexivity|].
    split; [lia|]. intros H. lia.
  - exists (firstn 10 (r :: rs)), w1. unfold ret. split; [reflexivity|]. split.
    + split; [simpl; lia | apply firstn_le_length].
    + intros _. split; [reflexivity|].
      apply Forall_forall. intros s Hs.
      assert (Hall : allPositive (r :: rs)) by (apply Hpos; constructor).
      unfold allPositive in Hall. rewrite Forall_forall in Hall.
      apply Hall. apply (firstn_In_list 10). exact Hs.
Qed.

End MalformedSearch.

(** ** The two searches and the request handler *)

Section Searches.

Import JsString.
Local Open Scope string_scope.
Local Open Scope float_scope.

(** C4, as amended.  On a term that [encodeURIComponent] accepts (for the
    sold search: when it accepts the queries of the synthetic generator),
    whatever the marketplace answers, both searches return a sequence; the
    synthetic generator of the active search returns at most two listings,
    exactly two when no price ceiling is given, each within the ceiling,
    titled after the search term and linking to the search for it; the
    synthetic generator of the sold search returns one to three sales.
    Nothing is said of a term that [encodeURIComponent] rejects. *)
Theorem searches_always_return (host : Host) (env : Env)
        (loneSurrogate : string -> bool) :
  (forall term maxPrice w,
     loneSurrogate term = false ->
     exists listings w',
       Malformed.searchEbayListings host env loneSurrogate term maxPrice w
       = (Returned listings, w'))
  /\ (forall terms w,
        accepted loneSurrogate (mockQueries terms) ->
        exists sold w',
          Malformed.searcheBaySoldListings host env loneSurrogate terms w
          = (Returned sold, w'))
  /\ (forall term maxPrice w,
        loneSurrogate term = false ->
        exists listings w',
          Malformed.getMockEbayData host env loneSurrogate term maxPrice w
          = (Returned listings, w')
          /\ (List.length listings <= 2)%nat
          /\ (JsNumber.present maxPrice = false -> List.length listings = 2%nat)
          /\ Forall (fun l =>
                       EbayMonitor.withinBudget maxPrice l = true
                       /\ includes (EbayMonitor.title l) term = true
                       /\ EbayMonitor.url l
                          = ("https://www.ebay.com/sch/i.html?_nkw="
                             ++ encodeURIComponent host term)%string)
                    listings)
  /\ (forall terms w,
        accepted loneSurrogate (mockQueries terms) ->
        exists sold w',
          Malformed.getMockData host env loneSurrogate terms w = (Returned sold, w')
          /\ (1 <= List.length sold <= 3)%nat).
Proof.
  split; [|split; [|split]].
  - intros term maxPrice w H. rewrite (searchEbayListings_accepted host env _ term maxPrice H).
    apply returns_searchEbayListings.
  - intros terms w H.
    destruct (searcheBaySoldListings_result host env loneSurrogate terms w H)
      as [sold [w' [E _]]].
    now exists sold, w'.
  - intros term maxPrice w H. rewrite (getMockEbayData_accepted host env _ term maxPrice H).
    apply getMockEbayData_listings.
  - intros terms w H. rewrite (getMockData_accepted host env _ terms H).
    apply getMockData_count.
Qed.

(** C4 as stated fails: with a ceiling of 10 and draws of 0.99 the two
    synthetic listings are priced 11.92 and 10.32, both above the ceiling,
    and the generator returns no listing at all. *)
Lemma getMockEbayData_counterexample :
  let env := offlineEnv 0.99 allDone allDone allDone in
  fst (EbayMonitor.getMockEbayData sampleHost env "hen on nest" (Some 10) emptyWorld)
  = Returned []
  /\ fst (EbayMonitor.searchEbayListings sampleHost env "hen on nest" (Some 10) emptyWorld)
     = Returned []
  /\ map EbayMonitor.price
       match fst (EbayMonitor.getMockEbayData sampleHost env "hen on nest" None emptyWorld) with
       | Returned l => l
       | Thrown _ => []
       end
     = [74.5; 64.5].
Proof. cbv zeta. repeat split; vm_compute; reflexivity. Qed.


(** A live run over four terms: three fetches, one per term of the first
    three; the sale pushed before the null element is kept, the sale
    behind it is not reached; no pause is made, since the first turn ends
    in the catch, the second in [continue] and the third in the catch. *)
Example searcheBaySoldListings_live :
  let run := MarketAnalysis.searcheBaySoldListings sampleHost liveEnv
               ["hen"; "nest"; "fenton"; "glass"]%string emptyWorld in
  map MarketAnalysis.url (listingsOf (fst run)) = ["https://www.ebay.com/itm/24.99"]%string
  /\ fetchedUrls (trace (snd run))
     = map (soldUrl sampleHost "APP") ["hen"; "nest"; "fenton"]%string
  /\ List.length (trace (snd run)) = 3%nat.
Proof. cbv zeta. repeat split; vm_compute; reflexivity. Qed.

(** C9.  A POST whose body lacks [itemName] or [category], or gives either
    as the empty string, is answered with status 400 and the message; the
    world is untouched: nothing is fetched and nothing is drawn. *)
Theorem serve_requires_name_and_category (host : Host) (env : Env)
        (req : MarketAnalysis.Request)
        (requestData : MarketAnalysis.MarketAnalysisRequest) (w : World) :
  MarketAnalysis.method req = "POST"%string ->
  MarketAnalysis.requestBody req = MarketAnalysis.BodyObject requestData ->
  present (MarketAnalysis.itemName requestData) = false
  \/ present (MarketAnalysis.category requestData) = false ->
  MarketAnalysis.serve host env req w
  = (Returned {| MarketAnalysis.status := 400;
                 MarketAnalysis.headers := MarketAnalysis.jsonHeaders;
                 MarketAnalysis.body :=
                   MarketAnalysis.ErrorPayload "Item name and category are required" None |},
     w).
Proof.
  intros Hm Hb Hmiss.
  unfold MarketAnalysis.serve, MarketAnalysis.readRequest, tryCatch, bind, ret.
  rewrite Hm, Hb. simpl.
  destruct Hmiss as [-> | ->]; simpl; [reflexivity|].
  now rewrite orb_true_r.
Qed.

(** The scenario of the empty item name. *)
Lemma serve_requires_name_and_category_witness :
  MarketAnalysis.serve sampleHost (offlineEnv 0.5 allDone allDone allDone)
                       sampleRequest emptyWorld
  = (Returned {| MarketAnalysis.status := 400;
                 MarketAnalysis.headers := MarketAnalysis.jsonHeaders;
                 MarketAnalysis.body :=
                   MarketAnalysis.ErrorPayload "Item name and category are required" None |},
     emptyWorld).
Proof.
  apply (serve_requires_name_and_category sampleHost
           (offlineEnv 0.5 allDone allDone allDone) sampleRequest
           {| MarketAnalysis.itemName := Some ""%string;
              MarketAnalysis.manufacturer := None;
              MarketAnalysis.pattern := None;
              MarketAnalysis.category := Some "jadite"%string;
              MarketAnalysis.description := None;
              MarketAnalysis.photoUrl := None |}
           emptyWorld).
  - reflexivity.
  - reflexivity.
  - left. reflexivity.
Defined.

End Searches.

(** ** processWishlistItem *)

Section Monitor.

Import JsString EbayMonitor.
Local Open Scope string_scope.

Lemma sameKey_spec (itemId url : string) (row : FoundListing) :
  sameKey itemId url row = true
  <-> wishlist_item_id row = itemId /\ listing_url row = url.
Proof. unfold sameKey. now rewrite andb_true_iff, !String.eqb_eq. Qed.

Lemma uniqueListings_nil : uniqueListings [].
Proof. intros i u. simpl. lia. Qed.

Lemma uniqueListings_insert (rows : list FoundListing) (new : FoundListing) :
  uniqueListings rows ->
  filter (sameKey (wishlist_item_id new) (listing_url new)) rows = [] ->
  uniqueListings (rows ++ [new]).
Proof.
  intros Hu Hnone i u. rewrite filter_app, length_app. simpl.
  destruct (sameKey i u new) eqn:K; simpl.
  - apply sameKey_spec in K as [<- <-]. rewrite Hnone. simpl. lia.
  - specialize (Hu i u). lia.
Qed.

Lemma recorded_insert_new (rows : list FoundListing) (new : FoundListing) :
  filter (sameKey (wishlist_item_id new) (listing_url new)) rows = [] ->
  recorded (rows ++ [new]) (wishlist_item_id new) (listing_url new).
Proof.
  intros Hnone. unfold recorded. rewrite filter_app, length_app, Hnone. simpl.
  replace (sameKey (wishlist_item_id new) (listing_url new) new) with true;
    [reflexivity|].
  symmetry. now apply sameKey_spec.
Qed.

Lemma recorded_insert_other (rows : list FoundListing) (new : FoundListing)
      (itemId url : string) :
  filter (sameKey (wishlist_item_id new) (listing_url new)) rows = [] ->
  recorded rows itemId url -> recorded (rows ++ [new]) itemId url.
Proof.
  unfold recorded. intros Hnone Hrec. rewrite filter_app, length_app. simpl.
  destruct (sameKey itemId url new) eqn:K; simpl; [|lia].
  apply sameKey_spec in K as [<- <-]. rewrite Hnone in Hrec. discriminate.
Qed.

(** With at most one row per pair, [single()] misses only when no row
    matches. *)
Lemma single_miss (rows : list FoundListing) (itemId url : string) :
  uniqueListings rows ->
  match filter (sameKey itemId url) rows with [row] => Some row | _ => None end = None ->
  filter (sameKey itemId url) rows = [].
Proof.
  intros Hu. specialize (Hu itemId url).
  destruct (filter (sameKey itemId url) rows) as [|r [|r' l]]; simpl in *;
    [reflexivity | discriminate | lia].
Qed.

Lemma single_hit (rows : list FoundListing) (itemId url : string) :
  recorded rows itemId url ->
  exists row,
    match filter (sameKey itemId url) rows with [row] => Some row | _ => None end
    = Some row.
Proof.
  unfold recorded.
  destruct (filter (sameKey itemId url) rows) as [|r [|r' l]]; simpl;
    [discriminate | now exists r | discriminate].
Qed.

Lemma single_hit_recorded (rows : list FoundListing) (itemId url : string)
      (row : FoundListing) :
  match filter (sameKey itemId url) rows with [row] => Some row | _ => None end
  = Some row ->
  recorded rows itemId url.
Proof.
  unfold recorded.
  destruct (filter (sameKey itemId url) rows) as [|r [|r' l]]; simpl;
    [discriminate | reflexivity | discriminate].
Qed.

Variable host : Host.
Variable env : Env.
Variable item : WishlistItem.

(** One turn of the loop, by the outcome of its store calls. *)
Lemma recordListings_step (listing : EbayListing) (rest : list EbayListing)
      (n : nat) (w : World) :
  recordListings host env item (listing :: rest) n w
  = let w1 := afterStoreCall w (found_listings w) (wishlist_items w) in
    let miss :=
      match insertOutcome env (S (storeCalls w)) with
      | Done =>
          recordListings host env item rest (S n)
            (afterStoreCall (beforeInsert w)
               (found_listings w ++ [foundRow host env item listing (ticks w)]) (wishlist_items w))
      | Failed =>
          recordListings host env item rest n
            (afterStoreCall (beforeInsert w) (found_listings w) (wishlist_items w))
      | Raised e =>
          (Thrown e,
           afterStoreCall (beforeInsert w) (found_listings w) (wishlist_items w))
      end in
    match lookupOutcome env (storeCalls w) with
    | Done =>
        match filter (sameKey (id item) (url listing)) (found_listings w) with
        | [_] => recordListings host env item rest n w1
        | _ => miss
        end
    | Failed => miss
    | Raised e => (Thrown e, w1)
    end.
Proof.
  cbn [recordListings]. unfold bind at 1. unfold selectFoundListing.
  cbv zeta.
  destruct (lookupOutcome env (storeCalls w)) as [| |e]; [| |reflexivity].
  - destruct (filter (sameKey (id item) (url listing)) (found_listings w))
      as [|r [|r' l]]; try reflexivity;
      unfold bind, now, insertFoundListing; simpl;
      destruct (insertOutcome env (S (storeCalls w))); reflexivity.
  - unfold bind, now, insertFoundListing; simpl;
      destruct (insertOutcome env (S (storeCalls w))); reflexivity.
Qed.

(** The loop keeps the store unique as long as every lookup is answered. *)
Lemma recordListings_unique (listings : list EbayListing) :
  (forall k, lookupOutcome env k <> Failed) ->
  forall n w,
    uniqueListings (found_listings w) ->
    uniqueListings (found_listings (snd (recordListings host env item listings n w))).
Proof.
  intros HL. induction listings as [|listing rest IH]; intros n w Hu; [exact Hu|].
  rewrite recordListings_step. cbv zeta.
  assert (Hmiss : filter (sameKey (id item) (url listing)) (found_listings w) = [] ->
    uniqueListings (found_listings (snd
      match insertOutcome env (S (storeCalls w)) with
      | Done =>
          recordListings host env item rest (S n)
            (afterStoreCall (beforeInsert w)
               (found_listings w ++ [foundRow host env item listing (ticks w)]) (wishlist_items w))
      | Failed =>
          recordListings host env item rest n
            (afterStoreCall (beforeInsert w) (found_listings w) (wishlist_items w))
      | Raised e =>
          (Thrown e,
           afterStoreCall (beforeInsert w) (found_listings w) (wishlist_items w))
      end))).
  { intros Hnone. destruct (insertOutcome env (S (storeCalls w))).
    - apply IH. simpl. now apply uniqueListings_insert.
    - apply IH. exact Hu.
    - exact Hu. }
  destruct (lookupOutcome env (storeCalls w)) eqn:E.
  - pose proof (Hu (id item) (url listing)) as H1.
    destruct (filter (sameKey (id item) (url listing)) (found_listings w))
      as [|r [|r' l]]; simpl in H1.
    + now apply Hmiss.
    + apply IH. exact Hu.
    + lia.
  - now apply HL in E.
  - exact Hu.
Qed.

(** With a store that carries out every lookup and insert, the loop
    returns, keeps the store unique, and leaves every listing it was given
    recorded. *)
Lemma recordListings_first_run (listings : list EbayListing) :
  (forall k, lookupOutcome env k = Done) ->
  (forall k, insertOutcome env k = Done) ->
  forall n w,
    uniqueListings (found_listings w) ->
    exists n' w',
      recordListings host env item listings n w = (Returned n', w')
      /\ uniqueListings (found_listings w')
      /\ (forall x, In x listings -> recorded (found_listings w') (id item) (url x))
      /\ (forall i u, recorded (found_listings w) i u -> recorded (found_listings w') i u).
Proof.
  intros HL HI. induction listings as [|listing rest IH]; intros n w Hu.
  - exists n, w. simpl. repeat split; auto. intros x [].
  - rewrite recordListings_step. cbv zeta. rewrite HL, HI.
    destruct (match filter (sameKey (id item) (url listing)) (found_listings w) with
              | [row] => Some row | _ => None end) as [row|] eqn:Hsingle.
    + pose proof (single_hit_recorded _ _ _ _ Hsingle) as Hrec.
      destruct (filter (sameKey (id item) (url listing)) (found_listings w))
        as [|r [|r' l]]; try discriminate.
      destruct (IH n (afterStoreCall w (found_listings w) (wishlist_items w)) Hu)
        as [n' [w' [E [Hu' [Hin Hmono]]]]].
      exists n', w'. split; [exact E|]. split; [exact Hu'|]. split; [|exact Hmono].
      intros x [<- | Hx]; [now apply Hmono | now apply Hin].
    + pose proof (single_miss _ _ _ Hu Hsingle) as Hnone.
      rewrite Hnone.
      set (row := foundRow host env item listing (ticks w)).
      assert (Hnone' : filter (sameKey (wishlist_item_id row) (listing_url row))
                              (found_listings w) = []) by exact Hnone.
      destruct (IH (S n)
                  (afterStoreCall (beforeInsert w) (found_listings w ++ [row])
                                  (wishlist_items w))
                  (uniqueListings_insert _ _ Hu Hnone'))
        as [n' [w' [E [Hu' [Hin Hmono]]]]].
      exists n', w'. split; [exact E|]. split; [exact Hu'|]. split.
      * intros x [<- | Hx]; [|now apply Hin].
        apply Hmono. simpl. exact (recorded_insert_new _ row Hnone').
      * intros i u Hrec. apply Hmono. simpl.
        now apply (recorded_insert_other _ row).
Qed.

(** When every listing is already recorded and every lookup is answered,
    the loop inserts nothing and counts nothing. *)
Lemma recordListings_second_run (listings : list EbayListing) :
  (forall k, lookupOutcome env k = Done) ->
  forall n w,
    (forall x, In x listings -> recorded (found_listings w) (id item) (url x)) ->
    exists w',
      recordListings host env item listings n w = (Returned n, w')
      /\ found_listings w' = found_listings w.
Proof.
  intros HL. induction listings as [|listing rest IH]; intros n w Hrec.
  - now exists w.
  - rewrite recordListings_step. cbv zeta. rewrite HL.
    pose proof (Hrec listing (or_introl eq_refl)) as H1. unfold recorded in H1.
    destruct (filter (sameKey (id item) (url listing)) (found_listings w))
      as [|r [|r' l]]; try discriminate.
    destruct (IH n (afterStoreCall w (found_listings w) (wishlist_items w)))
      as [w' [E Hf]].
    + intros x Hx. apply Hrec. now right.
    + exists w'. split; [exact E | exact Hf].
Qed.

(** The loop returns when no lookup and no insert throws. *)
Lemma recordListings_returns (listings : list EbayListing) :
  (forall k, isRaised (lookupOutcome env k) = false) ->
  (forall k, isRaised (insertOutcome env k) = false) ->
  forall n w, exists n' w', recordListings host env item listings n w = (Returned n', w').
Proof.
  intros HL HI. induction listings as [|listing rest IH]; intros n w.
  - now exists n, w.
  - rewrite recordListings_step. cbv zeta.
    pose proof (HL (storeCalls w)) as H1. pose proof (HI (S (storeCalls w))) as H2.
    destruct (lookupOutcome env (storeCalls w)); try discriminate;
      destruct (insertOutcome env (S (storeCalls w))); try discriminate;
      try destruct (filter (sameKey (id item) (url listing)) (found_listings w))
        as [|r [|r' l]]; apply IH.
Qed.

(** The loop never writes to the wish list and never turns the clock
    back. *)
Lemma recordListings_frame (listings : list EbayListing) :
  forall n w,
    wishlist_items (snd (recordListings host env item listings n w)) = wishlist_items w
    /\ (ticks w <= ticks (snd (recordListings host env item listings n w)))%nat.
Proof.
  induction listings as [|listing rest IH]; intros n w; [simpl; split; [reflexivity | lia]|].
  rewrite recordListings_step. cbv zeta.
  destruct (lookupOutcome env (storeCalls w));
    destruct (insertOutcome env (S (storeCalls w)));
    try destruct (filter (sameKey (id item) (url listing)) (found_listings w))
      as [|r [|r' l]];
    try (simpl; split; [reflexivity | lia]);
    match goal with
    | |- context [recordListings _ _ _ _ ?m ?w0] =>
        destruct (IH m w0) as [H1 H2]; rewrite H1; simpl in *; split; [reflexivity | lia]
    end.
Qed.

(** A run of [processWishlistItem], by the outcome of the search, of the
    loop and of the update. *)
Lemma processWishlistItem_run (w wa wb : World) (listings : list EbayListing)
      (r : outcome nat) :
  noSearchTerm item = false ->
  searchFor host env item w = (Returned listings, wa) ->
  recordListings host env item listings 0 wa = (r, wb) ->
  processWishlistItem host env item w
  = match r with
    | Thrown _ => (Returned 0%nat, wb)
    | Returned n =>
        match updateOutcome env (storeCalls wb) with
        | Done =>
            (Returned n,
             afterStoreCall (beforeUpdate wb) (found_listings wb)
                            (map (stamped host env item wb) (wishlist_items wb)))
        | Failed =>
            (Returned n,
             afterStoreCall (beforeUpdate wb) (found_listings wb) (wishlist_items wb))
        | Raised _ =>
            (Returned 0%nat,
             afterStoreCall (beforeUpdate wb) (found_listings wb) (wishlist_items wb))
        end
    end.
Proof.
  intros Hterm Hs Hl. unfold processWishlistItem. rewrite Hterm.
  unfold tryCatch, bind at 1. fold (searchFor host env item). rewrite Hs.
  unfold bind at 1. rewrite Hl.
  destruct r as [n | e]; [|reflexivity].
  unfold bind, now, updateWishlistItem, ret. simpl.
  destruct (updateOutcome env (storeCalls wb)); reflexivity.
Qed.

Lemma searchFor_returns (w : World) :
  exists listings wa,
    searchFor host env item w = (Returned listings, wa)
    /\ sameStore w wa /\ (ticks w <= ticks wa)%nat.
Proof.
  unfold searchFor.
  destruct (returns_searchEbayListings host env (show (ebay_search_term item))
              (desired_price_max item) w) as [l [wa E]].
  exists l, wa. split; [exact E|].
  pose proof (sameStore_searchEbayListings host env (show (ebay_search_term item))
                (desired_price_max item) w) as H1.
  pose proof (laterClock_searchEbayListings host env (show (ebay_search_term item))
                (desired_price_max item) w) as H2.
  rewrite E in H1, H2. split; [exact H1 | exact H2].
Qed.

(** A run leaves in the store the found listings its loop left. *)
Lemma processWishlistItem_found (w wa wb : World) (listings : list EbayListing)
      (r : outcome nat) :
  noSearchTerm item = false ->
  searchFor host env item w = (Returned listings, wa) ->
  recordListings host env item listings 0 wa = (r, wb) ->
  found_listings (snd (processWishlistItem host env item w)) = found_listings wb.
Proof.
  intros Hterm Hs Hl. rewrite (processWishlistItem_run w wa wb listings r Hterm Hs Hl).
  destruct r; [|reflexivity].
  destruct (updateOutcome env (storeCalls wb)); reflexivity.
Qed.

Lemma processWishlistItem_skip (w : World) :
  noSearchTerm item = true ->
  processWishlistItem host env item w = (Returned 0%nat, w).
Proof. intros H. unfold processWishlistItem. now rewrite H. Qed.

(** A run keeps the store unique as long as every lookup is answered. *)
Lemma processWishlistItem_unique (w : World) :
  (forall k, lookupOutcome env k <> Failed) ->
  uniqueListings (found_listings w) ->
  uniqueListings (found_listings (snd (processWishlistItem host env item w))).
Proof.
  intros HL Hu. destruct (noSearchTerm item) eqn:Hterm.
  - now rewrite processWishlistItem_skip.
  - destruct (searchFor_returns w) as [l [wa [Hs [[_ [Hf _]] _]]]].
    destruct (recordListings host env item l 0 wa) as [r wb] eqn:Hl.
    rewrite (processWishlistItem_found w wa wb l r Hterm Hs Hl).
    replace wb with (snd (recordListings host env item l 0 wa)) by now rewrite Hl.
    apply recordListings_unique; [exact HL | now rewrite Hf].
Qed.

(** C6, as amended.  From a store with at most one found listing per pair:
    a run leaves at most one per pair, whatever the inserts do, as long as
    every lookup is answered; and when the store carries out every lookup
    and every insert, a second run that observes no URL the first did not
    observe records 0 new listings and leaves the found listings as they
    were. *)
Theorem processWishlistItem_dedup (w : World) :
  uniqueListings (found_listings w) ->
  let run := processWishlistItem host env item in
  let w1 := snd (run w) in
  ((forall k, lookupOutcome env k <> Failed) ->
     uniqueListings (found_listings w1))
  /\ ((forall k, lookupOutcome env k = Done) ->
      (forall k, insertOutcome env k = Done) ->
      incl (seenUrls host env item w1) (seenUrls host env item w) ->
      fst (run w1) = Returned 0%nat
      /\ found_listings (snd (run w1)) = found_listings w1).
Proof.
  intros Hu run w1. split.
  - intros HL. now apply processWishlistItem_unique.
  - intros HL HI Hseen. unfold w1, run in *.
    destruct (noSearchTerm item) eqn:Hterm.
    { rewrite !processWishlistItem_skip by assumption. simpl.
      rewrite ?processWishlistItem_skip by assumption. now split. }
    destruct (searchFor_returns w) as [l1 [wa [Hs [[_ [Hf _]] _]]]].
    assert (Hua : uniqueListings (found_listings wa)) by now rewrite Hf.
    destruct (recordListings_first_run l1 HL HI 0%nat wa Hua)
      as [n1 [wb [Hl [Hub [Hrec _]]]]].
    pose proof (processWishlistItem_found w wa wb l1 _ Hterm Hs Hl) as Hfound.
    set (w' := snd (processWishlistItem host env item w)) in *.
    destruct (searchFor_returns w') as [l2 [wa2 [Hs2 [[_ [Hf2 _]] _]]]].
    assert (Hrec2 : forall x, In x l2 -> recorded (found_listings wa2) (id item) (url x)).
    { intros x Hx. rewrite Hf2, Hfound.
      assert (Hin : In (url x) (seenUrls host env item w')).
      { unfold seenUrls. rewrite Hs2. simpl. now apply in_map. }
      apply Hseen in Hin. unfold seenUrls in Hin. rewrite Hs in Hin. simpl in Hin.
      apply in_map_iff in Hin as [y [Hy Hyin]]. rewrite <- Hy. now apply Hrec. }
    destruct (recordListings_second_run l2 HL 0%nat wa2 Hrec2) as [wb2 [Hl2 Hfb2]].
    rewrite (processWishlistItem_run w' wa2 wb2 l2 _ Hterm Hs2 Hl2).
    destruct (updateOutcome env (storeCalls wb2)); simpl;
      (split; [reflexivity | congruence]).
Qed.

Lemma touch_stamped (lastChecked updated : string) (rows : list WishlistItem)
      (row : WishlistItem) :
  In row (map (touch (id item) lastChecked updated) rows) ->
  id row = id item ->
  last_checked_at row = Some lastChecked /\ updated_at row = Some updated.
Proof.
  intros Hin Hid. apply in_map_iff in Hin as [r0 [<- _]].
  unfold touch in *. destruct (String.eqb_spec (id r0) (id item)); simpl in *.
  - now split.
  - contradiction.
Qed.

(** C7, as amended.  For an item with a search term the run always returns
    a count.  When no lookup and no insert throws (they may fail) and the
    store carries out the update, the item's [last_checked_at] and
    [updated_at] hold the last two clock readings of the run.  When the
    search or the loop throws, the run returns 0 and the wish list is as it
    was. *)
Theorem processWishlistItem_timestamps (w : World) :
  noSearchTerm item = false ->
  let run := processWishlistItem host env item w in
  let attempt :=
    bind (searchFor host env item) (fun listings => recordListings host env item listings 0) in
  (exists n, fst run = Returned n)
  /\ ((forall k, isRaised (lookupOutcome env k) = false) ->
      (forall k, isRaised (insertOutcome env k) = false) ->
      (forall k, updateOutcome env k = Done) ->
      exists t,
        (ticks w <= t)%nat
        /\ ticks (snd run) = S (S t)
        /\ wishlist_items (snd run)
           = map (touch (id item)
                        (toISOString host (Date_now env t))
                        (toISOString host (Date_now env (S t))))
                 (wishlist_items w)
        /\ (forall row,
              In row (wishlist_items (snd run)) -> id row = id item ->
              last_checked_at row = Some (toISOString host (Date_now env t))
              /\ updated_at row = Some (toISOString host (Date_now env (S t)))))
  /\ (forall e w1,
        attempt w = (Thrown e, w1) ->
        fst run = Returned 0%nat /\ wishlist_items (snd run) = wishlist_items w).
Proof.
  intros Hterm run attempt.
  destruct (searchFor_returns w) as [l [wa [Hs [[_ [_ Hwl]] Hclock]]]].
  destruct (recordListings host env item l 0 wa) as [r wb] eqn:Hl.
  pose proof (recordListings_frame l 0%nat wa) as [Hwl2 Hclock2]. rewrite Hl in Hwl2, Hclock2.
  simpl in Hwl2, Hclock2.
  pose proof (processWishlistItem_run w wa wb l r Hterm Hs Hl) as Hrun.
  fold run in Hrun.
  split; [|split].
  - rewrite Hrun. destruct r; [|now exists 0%nat].
    destruct (updateOutcome env (storeCalls wb)); simpl; eauto.
  - intros HL HI HU.
    destruct (recordListings_returns l HL HI 0%nat wa) as [n [wb' Hret]].
    rewrite Hl in Hret. injection Hret as -> ->.
    rewrite Hrun, HU. simpl. exists (ticks wb').
    split; [lia|]. split; [reflexivity|].
    assert (Hmap : map (stamped host env item wb') (wishlist_items wb')
                   = map (touch (id item)
                                (toISOString host (Date_now env (ticks wb')))
                                (toISOString host (Date_now env (S (ticks wb')))))
                         (wishlist_items w)).
    { unfold stamped. now rewrite Hwl2, Hwl. }
    split; [exact Hmap|].
    intros row Hin. rewrite Hmap in Hin. now apply (touch_stamped _ _ _ _ Hin).
  - intros e w1 Hthrow. unfold attempt, bind in Hthrow. rewrite Hs, Hl in Hthrow.
    injection Hthrow as -> ->. rewrite Hrun. simpl. split; [reflexivity|].
    now rewrite Hwl2, Hwl.
Qed.

End Monitor.

(** ** Worked runs of processWishlistItem *)

Section MonitorRuns.

Import EbayMonitor.
Local Open Scope string_scope.
Local Open Scope float_scope.

(** Two runs on the synthetic listings with a store that carries out every
    call: the first records one listing (the two synthetic listings share
    their URL), the second none. *)
Lemma processWishlistItem_dedup_witness :
  let env := offlineEnv 0.5 allDone allDone allDone in
  let run := processWishlistItem sampleHost env sampleWish in
  uniqueListings (found_listings wishWorld)
  /\ fst (run wishWorld) = Returned 1%nat
  /\ fst (run (snd (run wishWorld))) = Returned 0%nat.
Proof.
  cbv zeta. split; [apply uniqueListings_nil|]. split; [vm_compute; reflexivity|].
  apply (processWishlistItem_dedup sampleHost (offlineEnv 0.5 allDone allDone allDone)
           sampleWish wishWorld uniqueListings_nil).
  - reflexivity.
  - reflexivity.
  - vm_compute. intros u [<- | [<- | []]]; simpl; auto.
Defined.

(** C6 as stated fails when the store rejects the inserts of the first
    run: both runs observe the same listings, and the second run records
    one.  And when the store leaves the lookups unanswered, a single run
    stores the same pair twice; on the store it leaves, which holds that
    pair twice, two runs in succession whose lookups and inserts are all
    carried out, and which observe the same listings, record two listings
    each. *)
Lemma processWishlistItem_dedup_counterexample :
  let env := offlineEnv 0.5 allDone rejectFirstInserts allDone in
  let run := processWishlistItem sampleHost env sampleWish in
  let w1 := snd (run wishWorld) in
  let unanswered := offlineEnv 0.5 (fun _ => Failed) allDone allDone in
  let w2 := snd (processWishlistItem sampleHost unanswered sampleWish wishWorld) in
  let carriedOut := offlineEnv 0.5 allDone allDone allDone in
  let again := processWishlistItem sampleHost carriedOut sampleWish in
  (fst (run wishWorld) = Returned 0%nat
   /\ listingsOf (fst (searchFor sampleHost env sampleWish w1))
      = listingsOf (fst (searchFor sampleHost env sampleWish wishWorld))
   /\ fst (run w1) = Returned 1%nat)
  /\ List.length
       (filter (sameKey "w1" "https://www.ebay.com/sch/i.html?_nkw=hen on nest")
               (found_listings w2)) = 2%nat
  /\ (fst (again w2) = Returned 2%nat
      /\ listingsOf (fst (searchFor sampleHost carriedOut sampleWish (snd (again w2))))
         = listingsOf (fst (searchFor sampleHost carriedOut sampleWish w2))
      /\ fst (again (snd (again w2))) = Returned 2%nat
      /\ List.length (found_listings (snd (again (snd (again w2))))) = 6%nat).
Proof. cbv zeta. repeat split; vm_compute; reflexivity. Qed.

(** A run whose inserts are all rejected still writes the time stamps. *)
Lemma processWishlistItem_timestamps_witness :
  let env := offlineEnv 0.5 allDone rejectFirstInserts allDone in
  let run := processWishlistItem sampleHost env sampleWish wishWorld in
  noSearchTerm sampleWish = false
  /\ fst run = Returned 0%nat
  /\ exists t,
       forall row, In row (wishlist_items (snd run)) -> id row = id sampleWish ->
         last_checked_at row = Some (toISOString sampleHost (Date_now env t))
         /\ updated_at row = Some (toISOString sampleHost (Date_now env (S t))).
Proof.
  cbv zeta. split; [reflexivity|]. split; [vm_compute; reflexivity|].
  destruct (processWishlistItem_timestamps sampleHost
              (offlineEnv 0.5 allDone rejectFirstInserts allDone)
              sampleWish wishWorld eq_refl) as [_ [H _]].
  destruct H as [t [_ [_ [_ Hrows]]]].
  - reflexivity.
  - intros k. unfold offlineEnv, rejectFirstInserts. simpl.
    destruct (k <? 5)%nat; reflexivity.
  - reflexivity.
  - exists t. exact Hrows.
Defined.

(** C7 as stated fails when a store call throws: the run returns 0 and the
    item's time stamps are not written.  Nor are they written when the
    store rejects the update, whose result the code does not read. *)
Lemma processWishlistItem_timestamps_counterexample :
  let env := offlineEnv 0.5 lookupsThrow allDone allDone in
  let run := processWishlistItem sampleHost env sampleWish wishWorld in
  let rejected := offlineEnv 0.5 allDone allDone (fun _ => Failed) in
  let run' := processWishlistItem sampleHost rejected sampleWish wishWorld in
  noSearchTerm sampleWish = false
  /\ (fst run = Returned 0%nat /\ wishlist_items (snd run) = [sampleWish])
  /\ (fst run' = Returned 1%nat /\ wishlist_items (snd run') = [sampleWish])
  /\ last_checked_at sampleWish = None
  /\ updated_at sampleWish = None.
Proof. cbv zeta. repeat split; vm_compute; reflexivity. Qed.

End MonitorRuns.

(* ================================================================== *)
(** * Further properties *)
(* ================================================================== *)

(** ** What a run of processWishlistItem does to the store *)

Section MonitorStore.

Import JsString EbayMonitor.
Local Open Scope string_scope.

Lemma Forall2_same {A : Type} (R : A -> A -> Prop) (l : list A) :
  (forall x, R x x) -> Forall2 R l l.
Proof. intros H. induction l; constructor; auto. Qed.

Lemma Forall2_map_right {A : Type} (R : A -> A -> Prop) (f : A -> A) (l : list A) :
  (forall x, R x (f x)) -> Forall2 R l (map f l).
Proof. intros H. induction l; simpl; constructor; auto. Qed.

Lemma Forall2_compose {A : Type} (R : A -> A -> Prop) :
  (forall x y z, R x y -> R y z -> R x z) ->
  forall l1 l2 l3, Forall2 R l1 l2 -> Forall2 R l2 l3 -> Forall2 R l1 l3.
Proof.
  intros HR l1 l2 l3 H12. revert l3.
  induction H12 as [|x y l1 l2 Hxy _ IH]; intros l3 H23; inversion H23; subst;
    constructor; eauto.
Qed.

Lemma sameButStamps_refl (row : WishlistItem) : sameButStamps row row.
Proof. now unfold sameButStamps. Qed.

Lemma sameButStamps_trans (a b c : WishlistItem) :
  sameButStamps a b -> sameButStamps b c -> sameButStamps a c.
Proof. unfold sameButStamps. intuition congruence. Qed.

Lemma sameButStamps_touch (itemId lastChecked updated : string) (row : WishlistItem) :
  sameButStamps row (touch itemId lastChecked updated row)
  /\ (id row <> itemId -> touch itemId lastChecked updated row = row).
Proof.
  unfold touch. destruct (id row =? itemId) eqn:E.
  - split; [now unfold sameButStamps|]. apply String.eqb_eq in E. tauto.
  - split; [apply sameButStamps_refl | reflexivity].
Qed.

Lemma rowOf_cons (itemId : string) (listing : EbayListing) (rest : list EbayListing)
      (row : FoundListing) :
  rowOf itemId rest row -> rowOf itemId (listing :: rest) row.
Proof.
  intros [H1 [H2 [H3 [l [Hl H4]]]]]. repeat split; auto.
  exists l. split; [now right | exact H4].
Qed.

Variable host : Host.
Variable env : Env.
Variable item : WishlistItem.

Lemma rowOf_foundRow (listing : EbayListing) (rest : list EbayListing) (t : nat) :
  rowOf (id item) (listing :: rest) (foundRow host env item listing t).
Proof.
  repeat split. exists listing. repeat split. now left.
Qed.

(** The loop only appends to the found listings: one row for every insert
    the store carried out, each for this item and one of the listings; the
    count it returns is the count it was given plus the rows appended. *)
Lemma recordListings_appends (listings : list EbayListing) :
  forall n w,
    exists news,
      found_listings (snd (recordListings host env item listings n w))
      = (found_listings w ++ news)%list
      /\ Forall (rowOf (id item) listings) news
      /\ match fst (recordListings host env item listings n w) with
         | Returned n' => n' = (n + List.length news)%nat
         | Thrown _ => True
         end.
Proof.
  induction listings as [|listing rest IH]; intros n w.
  - exists []. simpl. rewrite app_nil_r. repeat split; [constructor | lia].
  - assert (Hkeep : forall w1, found_listings w1 = found_listings w ->
              exists news,
                found_listings (snd (recordListings host env item rest n w1))
                = (found_listings w ++ news)%list
                /\ Forall (rowOf (id item) (listing :: rest)) news
                /\ match fst (recordListings host env item rest n w1) with
                   | Returned n' => n' = (n + List.length news)%nat
                   | Thrown _ => True
                   end).
    { intros w1 Hw1. destruct (IH n w1) as [news [Hf [Hrows Hn]]].
      exists news. rewrite Hf, Hw1. split; [reflexivity|]. split; [|exact Hn].
      eapply Forall_impl; [|exact Hrows]. intros row. apply rowOf_cons. }
    assert (Hstop : forall (e : exn) w1, found_listings w1 = found_listings w ->
              exists news,
                found_listings (snd (@Thrown nat e, w1)) = (found_listings w ++ news)%list
                /\ Forall (rowOf (id item) (listing :: rest)) news
                /\ match fst (@Thrown nat e, w1) with
                   | Returned n' => n' = (n + List.length news)%nat
                   | Thrown _ => True
                   end).
    { intros e w1 Hw1. exists []. simpl. rewrite app_nil_r.
      repeat split; [exact Hw1 | constructor]. }
    assert (Hmiss : exists news,
              found_listings (snd
                match insertOutcome env (S (storeCalls w)) with
                | Done =>
                    recordListings host env item rest (S n)
                      (afterStoreCall (beforeInsert w)
                         (found_listings w ++ [foundRow host env item listing (ticks w)])%list
                         (wishlist_items w))
                | Failed =>
                    recordListings host env item rest n
                      (afterStoreCall (beforeInsert w) (found_listings w) (wishlist_items w))
                | Raised e =>
                    (Thrown e,
                     afterStoreCall (beforeInsert w) (found_listings w) (wishlist_items w))
                end)
              = (found_listings w ++ news)%list
              /\ Forall (rowOf (id item) (listing :: rest)) news
              /\ match fst
                   match insertOutcome env (S (storeCalls w)) with
                   | Done =>
                       recordListings host env item rest (S n)
                         (afterStoreCall (beforeInsert w)
                            (found_listings w ++ [foundRow host env item listing (ticks w)])%list
                            (wishlist_items w))
                   | Failed =>
                       recordListings host env item rest n
                         (afterStoreCall (beforeInsert w) (found_listings w) (wishlist_items w))
                   | Raised e =>
                       (Thrown e,
                        afterStoreCall (beforeInsert w) (found_listings w) (wishlist_items w))
                   end
                 with
                 | Returned n' => n' = (n + List.length news)%nat
                 | Thrown _ => True
                 end).
    { destruct (insertOutcome env (S (storeCalls w))) as [| |e].
      - destruct (IH (S n)
                    (afterStoreCall (beforeInsert w)
                       (found_listings w ++ [foundRow host env item listing (ticks w)])%list
                       (wishlist_items w))) as [news [Hf [Hrows Hn]]].
        exists (foundRow host env item listing (ticks w) :: news).
        rewrite Hf. simpl. rewrite <- app_assoc. split; [reflexivity|]. split.
        + constructor; [apply rowOf_foundRow|].
          eapply Forall_impl; [|exact Hrows]. intros row. apply rowOf_cons.
        + destruct (fst (recordListings host env item rest (S n) _)); [|exact I].
          simpl. lia.
      - now apply Hkeep.
      - now apply Hstop. }
    rewrite recordListings_step. cbv zeta.
    destruct (lookupOutcome env (storeCalls w)) as [| |e].
    + destruct (filter (sameKey (id item) (url listing)) (found_listings w))
        as [|r [|r' l]]; [exact Hmiss | now apply Hkeep | exact Hmiss].
    + exact Hmiss.
    + now apply Hstop.
Qed.

(** What a run does, in one statement: it returns a count; the found
    listings grow by rows of this item for listings the search returned;
    the count is at most the number of these rows, and is that number when
    no store call throws; the wish list is as it was, or has the time
    stamps of the rows with the item's id written. *)
Lemma processWishlistItem_effect (w : World) :
  exists n news,
    fst (processWishlistItem host env item w) = Returned n
    /\ found_listings (snd (processWishlistItem host env item w))
       = (found_listings w ++ news)%list
    /\ Forall (rowOf (id item) (listingsOf (fst (searchFor host env item w)))) news
    /\ (n <= List.length news)%nat
    /\ ((forall k, isRaised (lookupOutcome env k) = false) ->
        (forall k, isRaised (insertOutcome env k) = false) ->
        (forall k, isRaised (updateOutcome env k) = false) ->
        n = List.length news)
    /\ (wishlist_items (snd (processWishlistItem host env item w)) = wishlist_items w
        \/ exists lastChecked updated,
             wishlist_items (snd (processWishlistItem host env item w))
             = map (touch (id item) lastChecked updated) (wishlist_items w)).
Proof.
  destruct (noSearchTerm item) eqn:Hterm.
  - rewrite (processWishlistItem_skip host env item w Hterm).
    exists 0%nat, []. simpl. rewrite app_nil_r.
    repeat split; auto.
  - destruct (searchFor_returns host env item w) as [listings [wa [Hs [[_ [Hfa Hwa]] _]]]].
    destruct (recordListings host env item listings 0 wa) as [r wb] eqn:Hl.
    rewrite (processWishlistItem_run host env item w wa wb listings r Hterm Hs Hl).
    destruct (recordListings_appends listings 0 wa) as [news [Hf [Hrows Hn]]].
    destruct (recordListings_frame host env item listings 0 wa) as [Hwb _].
    rewrite Hl in Hf, Hn, Hwb. simpl in Hf, Hn, Hwb.
    rewrite Hfa in Hf. rewrite Hwa in Hwb. rewrite Hs. simpl listingsOf.
    destruct r as [n | e].
    + subst n. simpl in *.
      destruct (updateOutcome env (storeCalls wb)) eqn:Hu.
      * exists (List.length news), news. simpl. rewrite Hwb.
        repeat split; auto. right. now do 2 eexists.
      * exists (List.length news), news. simpl.
        repeat split; auto.
      * exists 0%nat, news. simpl.
        repeat split; auto; [lia|].
        intros _ _ HU. specialize (HU (storeCalls wb)). rewrite Hu in HU. discriminate.
    + exists 0%nat, news. simpl.
      repeat split; auto; [lia|].
      intros HL HI _.
      destruct (recordListings_returns host env item listings HL HI 0%nat wa)
        as [n' [w' E]].
      rewrite Hl in E. discriminate.
Qed.

(** X1: processWishlistItem always returns a count and only appends to the
    found listings: the rows it adds are for this item, on the platform
    ebay, not yet notified, and carry the URL, title, price and image of a
    listing its search returned; the count is at most the number of rows
    added. *)
Theorem processWishlistItem_appends (w : World) :
  exists n news,
    fst (processWishlistItem host env item w) = Returned n
    /\ found_listings (snd (processWishlistItem host env item w))
       = (found_listings w ++ news)%list
    /\ Forall (rowOf (id item) (listingsOf (fst (searchFor host env item w)))) news
    /\ (n <= List.length news)%nat.
Proof.
  destruct (processWishlistItem_effect w) as [n [news [H1 [H2 [H3 [H4 _]]]]]].
  now exists n, news.
Qed.

(** X2: when no store call throws, the count processWishlistItem returns is
    the number of rows it added to the found listings. *)
Theorem processWishlistItem_counts_rows (w : World) :
  (forall k, isRaised (lookupOutcome env k) = false) ->
  (forall k, isRaised (insertOutcome env k) = false) ->
  (forall k, isRaised (updateOutcome env k) = false) ->
  fst (processWishlistItem host env item w)
  = Returned (List.length (found_listings (snd (processWishlistItem host env item w)))
              - List.length (found_listings w))%nat.
Proof.
  intros HL HI HU.
  destruct (processWishlistItem_effect w) as [n [news [H1 [H2 [_ [_ [H5 _]]]]]]].
  rewrite H1, H2, length_app, (H5 HL HI HU). f_equal. lia.
Qed.

(** X3: processWishlistItem keeps the wish list row for row: the number and
    order of the rows, and the id, name, search term, price ceiling and
    status of each; a row whose id is not the item's is left as it was. *)
Theorem processWishlistItem_stamps_only (w : World) :
  Forall2 (fun row row' => sameButStamps row row' /\ (id row <> id item -> row' = row))
          (wishlist_items w)
          (wishlist_items (snd (processWishlistItem host env item w))).
Proof.
  destruct (processWishlistItem_effect w) as [n [news [_ [_ [_ [_ [_ H]]]]]]].
  destruct H as [-> | [t1 [t2 ->]]].
  - apply Forall2_same. intros row. split; [apply sameButStamps_refl | reflexivity].
  - apply Forall2_map_right. intros row. apply sameButStamps_touch.
Qed.

End MonitorStore.

Section MonitorStoreRuns.

Import EbayMonitor.
Local Open Scope string_scope.
Local Open Scope float_scope.

Lemma processWishlistItem_counts_rows_witness :
  fst (processWishlistItem sampleHost (offlineEnv 0.5 allDone allDone allDone)
         sampleWish wishWorld)
  = Returned (List.length (found_listings (snd
                (processWishlistItem sampleHost (offlineEnv 0.5 allDone allDone allDone)
                   sampleWish wishWorld)))
              - List.length (found_listings wishWorld))%nat.
Proof.
  apply (processWishlistItem_counts_rows sampleHost
           (offlineEnv 0.5 allDone allDone allDone) sampleWish wishWorld);
    intros k; reflexivity.
Defined.

End MonitorStoreRuns.

(** ** The request handler of the monitor *)

Section MonitorHandler.

Import JsString EbayMonitor EbayMonitorServe.
Local Open Scope string_scope.

Lemma monitored_refl (ids : list string) (w : World) : monitored ids w w.
Proof.
  split.
  - exists []. rewrite app_nil_r. split; [reflexivity | constructor].
  - apply Forall2_same. intros row. split; [apply sameButStamps_refl | reflexivity].
Qed.

Lemma monitored_trans (ids : list string) (w1 w2 w3 : World) :
  monitored ids w1 w2 -> monitored ids w2 w3 -> monitored ids w1 w3.
Proof.
  intros [[n1 [F1 R1]] W1] [[n2 [F2 R2]] W2]. split.
  - exists (n1 ++ n2)%list. rewrite F2, F1, app_assoc. split; [reflexivity|].
    apply Forall_app. now split.
  - eapply Forall2_compose; [|exact W1|exact W2].
    intros x y z [Sxy Kxy] [Syz Kyz]. split.
    + eapply sameButStamps_trans; eassumption.
    + intros Hx. rewrite <- (Kxy Hx). apply Kyz.
      destruct Sxy as [E _]. now rewrite E.
Qed.

(** A step that leaves both tables alone. *)
Lemma monitored_same (ids : list string) (w w' : World) :
  found_listings w' = found_listings w ->
  wishlist_items w' = wishlist_items w ->
  monitored ids w w'.
Proof.
  intros F W. split.
  - exists []. rewrite app_nil_r. split; [exact F | constructor].
  - rewrite W. apply Forall2_same. intros row.
    split; [apply sameButStamps_refl | reflexivity].
Qed.

Variable host : Host.
Variable env : Env.
Variable config : Config.

Lemma processWishlistItem_monitored (ids : list string) (item : WishlistItem) :
  In (id item) ids -> keeps (monitored ids) (processWishlistItem host env item).
Proof.
  intros Hin w.
  destruct (processWishlistItem_effect host env item w)
    as [n [news [_ [Hf [Hrows [_ [_ Hw]]]]]]].
  split.
  - exists news. split; [exact Hf|].
    eapply Forall_impl; [|exact Hrows].
    intros row [H1 [H2 [H3 _]]]. rewrite H1. auto.
  - assert (Hrow : forall t1 t2 row,
               sameButStamps row (touch (id item) t1 t2 row)
               /\ (~ In (id row) ids -> touch (id item) t1 t2 row = row)).
    { intros t1 t2 row. destruct (sameButStamps_touch (id item) t1 t2 row) as [S K].
      split; [exact S|]. intros Hn. apply K. intros E. apply Hn. now rewrite E. }
    destruct Hw as [-> | [t1 [t2 ->]]].
    + apply Forall2_same. intros row. split; [apply sameButStamps_refl | reflexivity].
    + apply Forall2_map_right. intros row. apply Hrow.
Qed.

Lemma returns_processWishlistItem (item : WishlistItem) :
  returns (processWishlistItem host env item).
Proof.
  intros w. destruct (processWishlistItem_effect host env item w) as [n [_ [H _]]].
  exists n, (snd (processWishlistItem host env item w)).
  destruct (processWishlistItem host env item w) as [r w']. simpl in *. now subst r.
Qed.

(** The loop over the items returns; it adds one result for every item, in
    order, and adds their counts to the total. *)
Lemma processItems_run (ids : list string) (items : list WishlistItem) :
  forall total results w,
    (forall item, In item items -> In (id item) ids) ->
    exists added w',
      processItems host env items total results w
      = (Returned ((total + list_sum (map newListingsFound added))%nat,
                   (results ++ added)%list), w')
      /\ map itemId added = map id items
      /\ map itemName added = map item_name items
      /\ monitored ids w w'.
Proof.
  induction items as [|item rest IH]; intros total results w Hids.
  - exists [], w. simpl. rewrite app_nil_r, Nat.add_0_r. unfold ret.
    split; [reflexivity|]. split; [reflexivity|]. split; [reflexivity|].
    apply monitored_refl.
  - cbn [processItems]. unfold bind at 1.
    destruct (returns_processWishlistItem item w) as [n [w1 E]].
    pose proof (processWishlistItem_monitored ids item (Hids item (or_introl eq_refl)) w)
      as Hm.
    rewrite E in *. simpl in Hm.
    destruct (IH (total + n)%nat
                 (results ++ [ {| itemId := id item; itemName := item_name item;
                                  newListingsFound := n |} ])%list w1)
      as [added [w' [E' [H1 [H2 H3]]]]].
    { intros x Hx. apply Hids. now right. }
    exists ({| itemId := id item; itemName := item_name item;
               newListingsFound := n |} :: added), w'.
    rewrite E'. simpl. rewrite <- app_assoc, H1, H2. simpl.
    split; [|split; [reflexivity|split; [reflexivity|]]].
    + now rewrite Nat.add_assoc.
    + eapply monitored_trans; eassumption.
Qed.

(** The select of the handler, by the outcome of the store call. *)
Lemma selectItems_run (requestData : EbaySearchRequest) (w : World) :
  selectItems env requestData w
  = (match lookupOutcome env (storeCalls w) with
     | Done =>
         if present (wishlistItemId requestData) then
           match filter (fun row => id row =? show (wishlistItemId requestData))
                        (wishlist_items w) with
           | [row] => Returned (inr [row])
           | _ => Returned (inl {| status := 404; headers := jsonHeaders;
                                   body := ErrorPayload "Wishlist item not found" None |})
           end
         else Returned (inr (filter activeWithTerm (wishlist_items w)))
     | Failed =>
         if present (wishlistItemId requestData) then
           Returned (inl {| status := 404; headers := jsonHeaders;
                            body := ErrorPayload "Wishlist item not found" None |})
         else
           Returned (inl {| status := 500; headers := jsonHeaders;
                            body := ErrorPayload "Failed to fetch wishlist items" None |})
     | Raised e => Thrown e
     end,
     afterStoreCall w (found_listings w) (wishlist_items w)).
Proof.
  unfold selectItems. destruct (present (wishlistItemId requestData)).
  - unfold bind, selectWishlistItem. cbv zeta.
    destruct (lookupOutcome env (storeCalls w)); try reflexivity.
    destruct (filter _ (wishlist_items w)) as [|r [|r' l]]; reflexivity.
  - unfold bind, selectActiveItems. cbv zeta.
    destruct (lookupOutcome env (storeCalls w)); reflexivity.
Qed.

(** A POST with the store configured and a body that is not null: the
    handler selects, processes and answers. *)
Lemma serve_post (req : Request) (w : World) :
  method req = "POST" ->
  clientError config (SUPABASE_URL config) (SUPABASE_SERVICE_ROLE_KEY config) = None ->
  requestBody req <> BodyNull ->
  serve host env config req w
  = match selectItems env
            match requestBody req with
            | BodyObject requestData => requestData
            | _ => {| wishlistItemId := None |}
            end w with
    | (Returned (inl response), w1) => (Returned response, w1)
    | (Returned (inr itemsToProcess), w1) =>
        match processItems host env itemsToProcess 0 [] w1 with
        | (Returned processed, w2) =>
            (Returned {| status := 200; headers := jsonHeaders;
                         body := SummaryPayload
                                   {| success := true;
                                      itemsProcessed := List.length itemsToProcess;
                                      totalNewListings := fst processed;
                                      results := snd processed;
                                      processedAt :=
                                        toISOString host (Date_now env (ticks w2)) |} |},
             snd (now env w2))
        | (Thrown error, w2) =>
            (Returned {| status := 500; headers := jsonHeaders;
                         body := ErrorPayload "Failed to process eBay monitoring"
                                              (Some (message error)) |}, w2)
        end
    | (Thrown error, w1) =>
        (Returned {| status := 500; headers := jsonHeaders;
                     body := ErrorPayload "Failed to process eBay monitoring"
                                          (Some (message error)) |}, w1)
    end.
Proof.
  intros Hm Hc Hb. unfold serve, tryCatch. rewrite Hm. cbn [String.eqb Ascii.eqb Bool.eqb negb].
  unfold bind at 1. unfold createClient. rewrite Hc. unfold ret at 1.
  unfold bind at 1. unfold readRequest.
  destruct (requestBody req) as [| |requestData]; [|congruence|]; unfold ret at 1;
    unfold bind at 1;
    match goal with
    | |- context [selectItems env ?rd w] =>
        destruct (selectItems env rd w) as [[[response | itemsToProcess] | e] w1]
    end; try reflexivity;
    unfold bind at 1;
    destruct (processItems host env itemsToProcess 0 [] w1) as [[processed | e] w2];
    reflexivity.
Qed.

(** X4: the handler of the monitor answers every request: no exception
    escapes, and the status is 200, 404, 405 or 500.  A request whose method
    is not POST is answered without any effect, with 200 for OPTIONS and 405
    for every other method. *)
Theorem monitor_always_answers (req : Request) (w : World) :
  exists response,
    fst (serve host env config req w) = Returned response
    /\ In (status response) [200; 404; 405; 500]%Z
    /\ ((method req =? "POST") = false ->
        snd (serve host env config req w) = w
        /\ status response = if method req =? "OPTIONS" then 200%Z else 405%Z).
Proof.
  destruct (method req =? "POST") eqn:Hpost.
  - apply String.eqb_eq in Hpost.
    assert (Hcatch : forall body,
              (forall a w1, body w = (Returned a, w1) ->
                            In (status a) [200; 404; 405; 500]%Z) ->
              exists response,
                fst (tryCatch body
                       (fun error =>
                          ret {| status := 500; headers := jsonHeaders;
                                 body := ErrorPayload "Failed to process eBay monitoring"
                                                      (Some (message error)) |}) w)
                = Returned response
                /\ In (status response) [200; 404; 405; 500]%Z
                /\ (true = false -> snd (serve host env config req w) = w
                                    /\ status response
                                       = if method req =? "OPTIONS" then 200%Z else 405%Z)).
    { intros body Hbody. unfold tryCatch.
      destruct (body w) as [[a | e] w1] eqn:E.
      - exists a. split; [reflexivity|]. split; [eapply Hbody; reflexivity | discriminate].
      - eexists. split; [reflexivity|]. split; [simpl; tauto | discriminate]. }
    unfold serve. apply Hcatch. intros a w1.
    rewrite Hpost. cbn [String.eqb Ascii.eqb Bool.eqb negb].
    unfold bind at 1. unfold createClient.
    destruct (clientError config _ _); [discriminate|].
    unfold ret at 1. unfold bind at 1.
    destruct (readRequest req w) as [[requestData | e] w0]; [|discriminate].
    unfold bind at 1. rewrite selectItems_run.
    destruct (lookupOutcome env (storeCalls w0)); [| |discriminate].
    + destruct (present (wishlistItemId requestData)).
      * destruct (filter _ (wishlist_items w0)) as [|r [|r' l]].
        -- intros E. injection E as <- _. simpl. tauto.
        -- unfold bind at 1.
           destruct (processItems host env [r] 0 [] _) as [[processed | e] w2];
             [|discriminate].
           intros E. injection E as <- _. simpl. tauto.
        -- intros E. injection E as <- _. simpl. tauto.
      * unfold bind at 1.
        destruct (processItems host env _ 0 [] _) as [[processed | e] w2];
          [|discriminate].
        intros E. injection E as <- _. simpl. tauto.
    + destruct (present (wishlistItemId requestData));
        intros E; injection E as <- _; simpl; tauto.
  - unfold serve, tryCatch. rewrite Hpost.
    destruct (method req =? "OPTIONS"); eexists; simpl;
      (split; [reflexivity|]); (split; [tauto|]); intros _; split; reflexivity.
Qed.

(** X5: a scheduled run (a POST without an item id, a body that is not JSON
    included) whose select the store carries out is answered 200 with a
    summary: the items processed are the rows with status active and a
    non-empty search term, there is one result for each of them, in the
    order of the wish list, with the id and the name of the row, and the
    total is the sum of the counts of the results. *)
Theorem monitor_scheduled_summary (req : Request) (w : World) :
  method req = "POST" ->
  clientError config (SUPABASE_URL config) (SUPABASE_SERVICE_ROLE_KEY config) = None ->
  (requestBody req = BodyInvalid
   \/ exists requestData,
        requestBody req = BodyObject requestData
        /\ present (wishlistItemId requestData) = false) ->
  lookupOutcome env (storeCalls w) = Done ->
  exists summary,
    fst (serve host env config req w)
    = Returned {| status := 200; headers := jsonHeaders; body := SummaryPayload summary |}
    /\ success summary = true
    /\ itemsProcessed summary = List.length (filter activeWithTerm (wishlist_items w))
    /\ map itemId (results summary) = map id (filter activeWithTerm (wishlist_items w))
    /\ map itemName (results summary)
       = map item_name (filter activeWithTerm (wishlist_items w))
    /\ totalNewListings summary = list_sum (map newListingsFound (results summary)).
Proof.
  intros Hm Hc Hbody Hdone.
  assert (Hselect : selectItems env
                      match requestBody req with
                      | BodyObject requestData => requestData
                      | _ => {| wishlistItemId := None |}
                      end w
                    = (Returned (inr (filter activeWithTerm (wishlist_items w))),
                       afterStoreCall w (found_listings w) (wishlist_items w))).
  { rewrite selectItems_run, Hdone.
    destruct Hbody as [-> | [requestData [-> Hid]]]; [reflexivity | now rewrite Hid]. }
  rewrite serve_post; auto.
  2:{ destruct Hbody as [-> | [requestData [-> _]]]; discriminate. }
  rewrite Hselect.
  destruct (processItems_run (map id (filter activeWithTerm (wishlist_items w)))
              (filter activeWithTerm (wishlist_items w)) 0 []
              (afterStoreCall w (found_listings w) (wishlist_items w)))
    as [added [w2 [E [H1 [H2 _]]]]].
  { intros item Hin. now apply in_map. }
  rewrite E. eexists. split; [reflexivity|]. simpl. auto.
Qed.

(** X6: a manual run for an item id that the store does not hold exactly
    once, or whose select the store rejects, is answered 404 with the
    message Wishlist item not found; nothing is searched, drawn or written:
    the only effect is the one store request. *)
Theorem monitor_item_not_found (req : Request) (requestData : EbaySearchRequest)
        (w : World) :
  method req = "POST" ->
  clientError config (SUPABASE_URL config) (SUPABASE_SERVICE_ROLE_KEY config) = None ->
  requestBody req = BodyObject requestData ->
  present (wishlistItemId requestData) = true ->
  (lookupOutcome env (storeCalls w) = Failed
   \/ (lookupOutcome env (storeCalls w) = Done
       /\ List.length (filter (fun row => id row =? show (wishlistItemId requestData))
                              (wishlist_items w)) <> 1%nat)) ->
  serve host env config req w
  = (Returned {| status := 404; headers := jsonHeaders;
                 body := ErrorPayload "Wishlist item not found" None |},
     afterStoreCall w (found_listings w) (wishlist_items w)).
Proof.
  intros Hm Hc Hbody Hid Hstore.
  rewrite serve_post; auto; [|rewrite Hbody; discriminate].
  rewrite Hbody, selectItems_run, Hid.
  destruct Hstore as [-> | [-> Hlen]]; [reflexivity|].
  destruct (filter _ (wishlist_items w)) as [|r [|r' l]]; try reflexivity.
  now elim Hlen.
Qed.

(** X7: a manual run for an item the store holds is answered 200 with one
    result, the count processWishlistItem returns for that row, whatever
    the status of the row: a manual run does not ask for an active item. *)
Theorem monitor_manual_run (req : Request) (requestData : EbaySearchRequest)
        (item : WishlistItem) (w : World) :
  method req = "POST" ->
  clientError config (SUPABASE_URL config) (SUPABASE_SERVICE_ROLE_KEY config) = None ->
  requestBody req = BodyObject requestData ->
  present (wishlistItemId requestData) = true ->
  lookupOutcome env (storeCalls w) = Done ->
  filter (fun row => id row =? show (wishlistItemId requestData)) (wishlist_items w)
  = [item] ->
  exists n stamp,
    fst (processWishlistItem host env item
           (afterStoreCall w (found_listings w) (wishlist_items w))) = Returned n
    /\ fst (serve host env config req w)
       = Returned {| status := 200; headers := jsonHeaders;
                     body := SummaryPayload
                               {| success := true;
                                  itemsProcessed := 1;
                                  totalNewListings := n;
                                  results := [ {| itemId := show (wishlistItemId requestData);
                                                  itemName := item_name item;
                                                  newListingsFound := n |} ];
                                  processedAt := stamp |} |}.
Proof.
  intros Hm Hc Hbody Hid Hdone Hrow.
  assert (Hitem : id item = show (wishlistItemId requestData)).
  { assert (Hin : In item (filter (fun row => id row =? show (wishlistItemId requestData))
                                  (wishlist_items w))) by (rewrite Hrow; now left).
    apply filter_In in Hin as [_ Hin]. now apply String.eqb_eq in Hin. }
  rewrite serve_post; auto; [|rewrite Hbody; discriminate].
  rewrite Hbody, selectItems_run, Hid, Hdone, Hrow.
  cbn [processItems]. unfold bind at 1.
  destruct (returns_processWishlistItem item
              (afterStoreCall w (found_listings w) (wishlist_items w))) as [n [w1 E]].
  rewrite E. unfold ret. simpl. rewrite Hitem.
  exists n. eexists. split; reflexivity.
Qed.

(** X8: whatever the request and the outcome, the handler only appends found
    listings of the items the request targets (the item named in the body,
    or the active rows with a search term), and in the wish list it changes
    nothing but the time stamps of rows with the id of a targeted item: no
    row is added, removed, reordered or renamed, and a paused row is not
    touched by a scheduled run. *)
Theorem monitor_touches_only_targets (req : Request) (w : World) :
  monitored (targetIds req w) w (snd (serve host env config req w)).
Proof.
  destruct (method req =? "POST") eqn:Hpost.
  2:{ unfold serve, tryCatch. rewrite Hpost.
      destruct (method req =? "OPTIONS"); apply monitored_refl. }
  apply String.eqb_eq in Hpost.
  destruct (clientError config (SUPABASE_URL config) (SUPABASE_SERVICE_ROLE_KEY config))
    as [error|] eqn:Hc.
  1:{ unfold serve, tryCatch. rewrite Hpost. cbn [String.eqb Ascii.eqb Bool.eqb negb].
      unfold bind at 1. unfold createClient. rewrite Hc. apply monitored_refl. }
  destruct (requestBody req) as [| |requestData] eqn:Hbody.
  2:{ unfold serve, tryCatch. rewrite Hpost. cbn [String.eqb Ascii.eqb Bool.eqb negb].
      unfold bind at 1. unfold createClient. rewrite Hc.
      unfold ret at 1. unfold bind at 1. unfold readRequest. rewrite Hbody.
      apply monitored_refl. }
  all: rewrite serve_post; auto; try (rewrite Hbody; discriminate).
  all: rewrite Hbody, selectItems_run; unfold targetIds; rewrite Hbody.
  all: assert (Hcall : forall ids,
                 monitored ids w (afterStoreCall w (found_listings w) (wishlist_items w)))
         by (intros ids; now apply monitored_same).
  all: assert (Hrun : forall ids items,
                 (forall item, In item items -> In (id item) ids) ->
                 monitored ids w
                   (snd match processItems host env items 0 []
                                (afterStoreCall w (found_listings w) (wishlist_items w)) with
                        | (Returned processed, w2) =>
                            (Returned {| status := 200; headers := jsonHeaders;
                                         body := SummaryPayload
                                                   {| success := true;
                                                      itemsProcessed := List.length items;
                                                      totalNewListings := fst processed;
                                                      results := snd processed;
                                                      processedAt :=
                                                        toISOString host
                                                          (Date_now env (ticks w2)) |} |},
                             snd (now env w2))
                        | (Thrown error, w2) =>
                            (Returned {| status := 500; headers := jsonHeaders;
                                         body := ErrorPayload
                                                   "Failed to process eBay monitoring"
                                                   (Some (message error)) |}, w2)
                        end)).
  1,3: intros ids items Hids;
       destruct (processItems_run ids items 0 []
                   (afterStoreCall w (found_listings w) (wishlist_items w)) Hids)
         as [added [w2 [E [_ [_ Hmon]]]]];
       rewrite E; simpl;
       apply (monitored_trans ids w _ _ (Hcall ids));
       apply (monitored_trans ids _ w2 _ Hmon);
       now apply monitored_same.
  - simpl present.
    destruct (lookupOutcome env (storeCalls w)); try apply Hcall.
    apply Hrun. intros item Hin. now apply in_map.
  - destruct (lookupOutcome env (storeCalls w)).
    + destruct (present (wishlistItemId requestData)).
      * destruct (filter (fun row => id row =? show (wishlistItemId requestData))
                         (wishlist_items w)) as [|r [|r' l]] eqn:Hrow; try apply Hcall.
        apply Hrun. intros item [<- | []].
        assert (Hin : In r (filter (fun row => id row =? show (wishlistItemId requestData))
                                   (wishlist_items w))) by (rewrite Hrow; now left).
        apply filter_In in Hin as [_ Hin]. apply String.eqb_eq in Hin. now left.
      * apply Hrun. intros item Hin. now apply in_map.
    + destruct (present (wishlistItemId requestData)); apply Hcall.
    + apply Hcall.
Qed.

End MonitorHandler.

Section MonitorHandlerRuns.

Import JsString EbayMonitor EbayMonitorServe.
Local Open Scope string_scope.
Local Open Scope float_scope.

Lemma monitor_scheduled_summary_witness :
  exists summary,
    fst (serve sampleHost (offlineEnv 0.5 allDone allDone allDone) sampleConfig
           scheduledRequest listWorld)
    = Returned {| status := 200; headers := jsonHeaders; body := SummaryPayload summary |}
    /\ success summary = true
    /\ itemsProcessed summary = List.length (filter activeWithTerm (wishlist_items listWorld))
    /\ map itemId (results summary)
       = map id (filter activeWithTerm (wishlist_items listWorld))
    /\ map itemName (results summary)
       = map item_name (filter activeWithTerm (wishlist_items listWorld))
    /\ totalNewListings summary = list_sum (map newListingsFound (results summary)).
Proof.
  apply (monitor_scheduled_summary sampleHost (offlineEnv 0.5 allDone allDone allDone)
           sampleConfig scheduledRequest listWorld);
    [reflexivity | reflexivity | left; reflexivity | reflexivity].
Defined.

Lemma monitor_item_not_found_witness :
  serve sampleHost (offlineEnv 0.5 allDone allDone allDone) sampleConfig
    (manualRequest "w9") listWorld
  = (Returned {| status := 404; headers := jsonHeaders;
                 body := ErrorPayload "Wishlist item not found" None |},
     afterStoreCall listWorld (found_listings listWorld) (wishlist_items listWorld)).
Proof.
  apply (monitor_item_not_found sampleHost (offlineEnv 0.5 allDone allDone allDone)
           sampleConfig (manualRequest "w9") {| wishlistItemId := Some "w9" |} listWorld);
    [reflexivity | reflexivity | reflexivity | reflexivity |].
  right. split; [reflexivity | simpl; lia].
Defined.

Lemma monitor_manual_run_witness :
  exists n stamp,
    fst (processWishlistItem sampleHost (offlineEnv 0.5 allDone allDone allDone) pausedWish
           (afterStoreCall listWorld (found_listings listWorld) (wishlist_items listWorld)))
    = Returned n
    /\ fst (serve sampleHost (offlineEnv 0.5 allDone allDone allDone) sampleConfig
              (manualRequest "w2") listWorld)
       = Returned {| status := 200; headers := jsonHeaders;
                     body := SummaryPayload
                               {| success := true;
                                  itemsProcessed := 1;
                                  totalNewListings := n;
                                  results := [ {| itemId := "w2";
                                                  itemName := "Jadite Bowl";
                                                  newListingsFound := n |} ];
                                  processedAt := stamp |} |}.
Proof.
  apply (monitor_manual_run sampleHost (offlineEnv 0.5 allDone allDone allDone)
           sampleConfig (manualRequest "w2") {| wishlistItemId := Some "w2" |}
           pausedWish listWorld); reflexivity.
Defined.

End MonitorHandlerRuns.

(** ** The request handler of the market analysis *)

Section AnalysisHandler.

Import JsString MarketAnalysis.
Local Open Scope string_scope.

Variable host : Host.
Variable env : Env.
Variable loneSurrogate : string -> bool.

(** A POST with a name and a category: the handler answers 200 with the
    analysis of what the sold search returns, and 500 when it throws. *)
Lemma serve_valid (req : Request) (requestData : MarketAnalysisRequest) (w : World) :
  method req = "POST" ->
  requestBody req = BodyObject requestData ->
  present (itemName requestData) = true ->
  present (category requestData) = true ->
  Malformed.serve host env loneSurrogate req w
  = match Malformed.searcheBaySoldListings host env loneSurrogate
            (generateSearchTerms requestData) w with
    | (Returned sold, w') =>
        (Returned {| status := 200; headers := jsonHeaders;
                     body := AnalysisPayload
                               {| analysis := calculateMarketAnalysis sold;
                                  searchTermsUsed := generateSearchTerms requestData |} |},
         w')
    | (Thrown error, w') =>
        (Returned {| status := 500; headers := jsonHeaders;
                     body := ErrorPayload "Failed to analyze market data"
                                          (Some (message error)) |}, w')
    end.
Proof.
  intros Hm Hb Hname Hcat.
  unfold Malformed.serve, tryCatch. rewrite Hm. cbn [String.eqb Ascii.eqb Bool.eqb negb].
  unfold bind at 1. unfold readRequest. rewrite Hb. unfold ret at 1.
  rewrite Hname, Hcat. cbn [negb orb]. unfold bind.
  destruct (Malformed.searcheBaySoldListings host env loneSurrogate
              (generateSearchTerms requestData) w) as [[sold | error] w'];
    reflexivity.
Qed.

(** X9: the handler of the market analysis answers every request: 200 for
    OPTIONS, 405 for any other method than POST, 500 for a POST whose body
    cannot be read, 400 for a body without a name or a category, and
    otherwise 200 or 500, and 200 whenever [encodeURIComponent] accepts the
    queries of the synthetic generator.  Then no answer of the marketplace,
    and no failure to reach it, turns a well-formed request into an
    error. *)
Theorem analysis_status (req : Request) (w : World) :
  let answer := analysisStatus (fst (Malformed.serve host env loneSurrogate req w)) in
  if method req =? "OPTIONS" then answer = 200%Z
  else if negb (method req =? "POST") then answer = 405%Z
  else match requestBody req with
       | BodyObject requestData =>
           if negb (present (itemName requestData))
              || negb (present (category requestData))
           then answer = 400%Z
           else (answer = 200%Z \/ answer = 500%Z)
                /\ (accepted loneSurrogate (mockQueries (generateSearchTerms requestData)) ->
                    answer = 200%Z)
       | _ => answer = 500%Z
       end.
Proof.
  cbv zeta.
  destruct (method req =? "OPTIONS") eqn:Ho.
  { unfold Malformed.serve, tryCatch. now rewrite Ho. }
  destruct (method req =? "POST") eqn:Hp; cbn [negb].
  2:{ unfold Malformed.serve, tryCatch. now rewrite Ho, Hp. }
  apply String.eqb_eq in Hp.
  destruct (requestBody req) as [| |requestData] eqn:Hb.
  1,2: unfold Malformed.serve, tryCatch; rewrite Hp;
       cbn [String.eqb Ascii.eqb Bool.eqb negb];
       unfold bind at 1; unfold readRequest; rewrite Hb; reflexivity.
  destruct (present (itemName requestData)) eqn:Hname; cbn [negb orb].
  2:{ unfold Malformed.serve, tryCatch. rewrite Hp.
      cbn [String.eqb Ascii.eqb Bool.eqb negb].
      unfold bind at 1. unfold readRequest. rewrite Hb. unfold ret at 1.
      rewrite Hname. reflexivity. }
  destruct (present (category requestData)) eqn:Hcat; cbn [negb].
  2:{ unfold Malformed.serve, tryCatch. rewrite Hp.
      cbn [String.eqb Ascii.eqb Bool.eqb negb].
      unfold bind at 1. unfold readRequest. rewrite Hb. unfold ret at 1.
      rewrite Hname, Hcat. reflexivity. }
  rewrite (serve_valid req requestData w Hp Hb Hname Hcat). split.
  - destruct (Malformed.searcheBaySoldListings host env loneSurrogate
                (generateSearchTerms requestData) w) as [[sold | error] w'];
      [now left | now right].
  - intros Hq.
    destruct (searcheBaySoldListings_result host env loneSurrogate
                (generateSearchTerms requestData) w Hq) as [sold [w' [E _]]].
    now rewrite E.
Qed.

(** X10: a POST with a name and a category, when [encodeURIComponent]
    accepts the queries of the synthetic generator, is answered with an
    analysis of what the sold search returned for the generated terms: the
    terms used are those of generateSearchTerms, the recent sales are one
    to ten (the empty analysis is never served), and the confidence is high
    only with a credential and at least five sales of the marketplace,
    never on synthetic data. *)
Theorem analysis_of_request (req : Request) (requestData : MarketAnalysisRequest)
        (w : World) :
  method req = "POST" ->
  requestBody req = BodyObject requestData ->
  present (itemName requestData) = true ->
  present (category requestData) = true ->
  accepted loneSurrogate (mockQueries (generateSearchTerms requestData)) ->
  exists sold response,
    fst (Malformed.searcheBaySoldListings host env loneSurrogate
           (generateSearchTerms requestData) w)
    = Returned sold
    /\ analysisOf (fst (Malformed.serve host env loneSurrogate req w)) = Some response
    /\ analysis response = calculateMarketAnalysis sold
    /\ searchTermsUsed response = generateSearchTerms requestData
    /\ recentSales (analysis response) = sold
    /\ (1 <= List.length sold <= 10)%nat
    /\ (confidence (analysis response) = high ->
        present (EBAY_APP_ID env) = true
        /\ (5 <= List.length sold)%nat
        /\ allPositive sold).
Proof.
  intros Hm Hb Hname Hcat Hq.
  destruct (searcheBaySoldListings_result host env loneSurrogate
              (generateSearchTerms requestData) w Hq)
    as [sold [w' [E [Hlen Hlive]]]].
  exists sold, {| analysis := calculateMarketAnalysis sold;
                  searchTermsUsed := generateSearchTerms requestData |}.
  rewrite (serve_valid req requestData w Hm Hb Hname Hcat), E.
  split; [reflexivity|]. split; [reflexivity|].
  split; [reflexivity|]. split; [reflexivity|]. split.
  { cbn [analysis]. destruct sold as [|first rest]; [reflexivity|].
    cbn [calculateMarketAnalysis recentSales]. apply firstn_all2. lia. }
  split; [exact Hlen|].
  cbn [analysis]. rewrite confidence_by_length. intros Hhigh.
  assert (H5 : (5 <= List.length sold)%nat).
  { destruct sold as [|first rest]; [discriminate|].
    destruct (5 <=? List.length (first :: rest))%nat eqn:E5.
    - now apply Nat.leb_le.
    - destruct (3 <=? List.length (first :: rest))%nat; discriminate. }
  destruct Hlive as [Hid Hpos]; [lia|]. auto.
Qed.

(** X25: without a credential, a POST with a name and a category for which
    [encodeURIComponent] rejects a query of the synthetic generator is
    answered 500 with the message of the URIError: the generator throws in
    the [try] of the search and again in its [catch]. *)
Theorem analysis_lone_surrogate (req : Request) (requestData : MarketAnalysisRequest)
        (w : World) :
  method req = "POST" ->
  requestBody req = BodyObject requestData ->
  present (itemName requestData) = true ->
  present (category requestData) = true ->
  present (EBAY_APP_ID env) = false ->
  existsb loneSurrogate (mockQueries (generateSearchTerms requestData)) = true ->
  fst (Malformed.serve host env loneSurrogate req w)
  = Returned {| status := 500; headers := jsonHeaders;
                body := ErrorPayload "Failed to analyze market data"
                                     (Some "URI malformed") |}.
Proof.
  intros Hm Hb Hname Hcat Hid Hq.
  rewrite (serve_valid req requestData w Hm Hb Hname Hcat).
  unfold Malformed.searcheBaySoldListings, tryCatch. rewrite Hid. cbn [negb].
  destruct (getMockData_rejected host env loneSurrogate
              (generateSearchTerms requestData) w Hq) as [w1 ->].
  destruct (getMockData_rejected host env loneSurrogate
              (generateSearchTerms requestData) w1 Hq) as [w2 ->].
  reflexivity.
Qed.

End AnalysisHandler.

Section AnalysisHandlerRuns.

Import JsString MarketAnalysis.
Local Open Scope string_scope.
Local Open Scope float_scope.

Lemma analysis_of_request_witness :
  exists sold response,
    fst (Malformed.searcheBaySoldListings sampleHost
           (offlineEnv 0.5 allDone allDone allDone) sampleLoneSurrogate
           (generateSearchTerms
              {| itemName := Some "Hen on Nest"; manufacturer := Some "Fenton";
                 pattern := None; category := Some "milk_glass";
                 description := None; photoUrl := None |}) emptyWorld)
    = Returned sold
    /\ analysisOf (fst (Malformed.serve sampleHost
                          (offlineEnv 0.5 allDone allDone allDone) sampleLoneSurrogate
                          henRequest emptyWorld)) = Some response
    /\ analysis response = calculateMarketAnalysis sold
    /\ searchTermsUsed response
       = generateSearchTerms
           {| itemName := Some "Hen on Nest"; manufacturer := Some "Fenton";
              pattern := None; category := Some "milk_glass";
              description := None; photoUrl := None |}
    /\ recentSales (analysis response) = sold
    /\ (1 <= List.length sold <= 10)%nat
    /\ (confidence (analysis response) = high ->
        present (EBAY_APP_ID (offlineEnv 0.5 allDone allDone allDone)) = true
        /\ (5 <= List.length sold)%nat
        /\ allPositive sold).
Proof.
  apply (analysis_of_request sampleHost (offlineEnv 0.5 allDone allDone allDone)
           sampleLoneSurrogate henRequest
           {| itemName := Some "Hen on Nest"; manufacturer := Some "Fenton";
              pattern := None; category := Some "milk_glass";
              description := None; photoUrl := None |} emptyWorld);
    try reflexivity.
  repeat constructor.
Defined.

Lemma analysis_lone_surrogate_witness :
  fst (Malformed.serve sampleHost (offlineEnv 0.5 allDone allDone allDone)
         sampleLoneSurrogate surrogateRequest emptyWorld)
  = Returned {| status := 500; headers := jsonHeaders;
                body := ErrorPayload "Failed to analyze market data"
                                     (Some "URI malformed") |}.
Proof.
  apply (analysis_lone_surrogate sampleHost (offlineEnv 0.5 allDone allDone allDone)
           sampleLoneSurrogate surrogateRequest
           {| itemName := Some "Hen <D800>"; manufacturer := None;
              pattern := None; category := Some "jadite";
              description := None; photoUrl := None |} emptyWorld); reflexivity.
Defined.

End AnalysisHandlerRuns.

(** ** The active search, fetch by fetch *)

Section ActiveSearchRuns.

Import JsString EbayMonitor.
Local Open Scope string_scope.

Variable host : Host.
Variable env : Env.

Lemma sameTrace_mockEndTime (days : float) :
  keeps sameTrace (mockEndTime host env days).
Proof. unfold mockEndTime. repeat frame_step. Qed.

Lemma sameTrace_getMockEbayData (term : string) (maxPrice : option float) :
  keeps sameTrace (getMockEbayData host env term maxPrice).
Proof.
  unfold getMockEbayData. pose proof sameTrace_mockEndTime. repeat frame_step.
Qed.

Lemma sameTrace_orNow (o : option string) : keeps sameTrace (orNow host env o).
Proof. unfold orNow. repeat frame_step. Qed.

Lemma sameTrace_pushListings (items : list (option ApiItem)) :
  forall listings, keeps sameTrace (pushListings host env items listings).
Proof.
  pose proof sameTrace_orNow.
  induction items as [|[item|] items IH]; intros listings; simpl; repeat frame_step.
Qed.

Lemma sameTrace_json (r : HttpResponse) : keeps sameTrace (json r).
Proof. intros w. unfold json. destruct (http_json r); reflexivity. Qed.

(** X11: the active search makes no request without a credential and exactly
    one with it, for the URL of its term and price ceiling, whatever the
    answer: a failed request is not repeated, and the synthetic generator
    fetches nothing. *)
Theorem searchEbayListings_fetches (term : string) (maxPrice : option float)
        (w : World) :
  fetchedUrls (trace (snd (searchEbayListings host env term maxPrice w)))
  = (fetchedUrls (trace w)
     ++ if present (EBAY_APP_ID env) then [activeUrl host env term maxPrice] else [])%list.
Proof.
  assert (Hmock : keeps sameTrace (getMockEbayData host env term maxPrice))
    by apply sameTrace_getMockEbayData.
  unfold searchEbayListings.
  destruct (present (EBAY_APP_ID env)); cbn [negb].
  - fold (activeUrl host env term maxPrice).
    assert (Hrest : forall (k : HttpResponse -> M (list EbayListing)),
              (forall r, keeps sameTrace (k r)) ->
              trace (snd (tryCatch
                            (bind (fetch env (activeUrl host env term maxPrice)) k)
                            (fun _ => getMockEbayData host env term maxPrice) w))
              = (trace w ++ [Fetched (activeUrl host env term maxPrice)])%list).
    { intros k Hk. unfold tryCatch, bind, fetch, emit. simpl.
      destruct (respond env _ _) as [e | r]; simpl.
      - reflexivity.
      - match goal with
        | |- context [k r ?w0] =>
            pose proof (Hk r w0) as H1; destruct (k r w0) as [[a | e] w1]
        end.
        + exact H1.
        + pose proof (Hmock w1) as H2. unfold sameTrace in *. simpl in *. congruence. }
    rewrite Hrest.
    + rewrite fetchedUrls_app. reflexivity.
    + intros r. pose proof sameTrace_pushListings. pose proof sameTrace_json.
      unfold keywordsResponse. repeat frame_step.
  - rewrite app_nil_r.
    assert (H : keeps sameTrace
                  (tryCatch (getMockEbayData host env term maxPrice)
                            (fun _ => getMockEbayData host env term maxPrice))).
    { repeat frame_step. }
    now rewrite (H w).
Qed.

(** The listing the loop builds from an element, but for its end time. *)
Lemma pushListings_run (items : list ApiItem) :
  forall listings w,
    exists built w',
      pushListings host env (map Some items) listings w
      = (Returned (listings ++ built)%list, w')
      /\ map (fun l => (title l, price l, url l)) built
         = map (fun item => (orElse (api_title item) "Unknown Item",
                             parseFloat host (orElse (api_currentPrice item) "0"),
                             orElse (api_viewItemURL item) "#"))
               (filter (fun item =>
                          (0 <? parseFloat host (orElse (api_currentPrice item) "0"))%float)
                       items)
      /\ draws w' = draws w.
Proof.
  induction items as [|item items IH]; intros listings w.
  - exists [], w. simpl. now rewrite app_nil_r.
  - cbn [map pushListings filter]. unfold bind at 1.
    assert (Hnow : exists endTime w1,
               orNow host env (api_endTime item) w = (Returned endTime, w1)
               /\ draws w1 = draws w).
    { unfold orNow. destruct (orUndefined (api_endTime item)); do 2 eexists;
        split; reflexivity. }
    destruct Hnow as [endTime [w1 [E Hd]]]. rewrite E. cbn [price].
    destruct (0 <? parseFloat host (orElse (api_currentPrice item) "0"))%float.
    + match goal with
      | |- context [pushListings _ _ _ (listings ++ [?l])%list w1] =>
          destruct (IH (listings ++ [l])%list w1) as [built [w' [E' [Hb Hd']]]];
          exists (l :: built), w'
      end.
      rewrite E', <- app_assoc. split; [reflexivity|]. split.
      * cbn [map title price url]. now rewrite Hb.
      * congruence.
    + destruct (IH listings w1) as [built [w' [E' [Hb Hd']]]].
      exists built, w'. split; [exact E'|]. split; [exact Hb | congruence].
Qed.

(** X12: when the marketplace answers the request of the active search with
    a success and a list of items, the search returns those items whose
    price parses to a number above zero, in the order of the answer, with
    the defaults Unknown Item and # for a missing title and URL.  Nothing
    synthetic is drawn, also when no item is left: unlike the sold search,
    the active search does not fall back on an empty success. *)
Theorem searchEbayListings_live (term : string) (maxPrice : option float)
        (response : HttpResponse) (searchResult : ApiResult) (other : option ApiResult)
        (items : list ApiItem) (w : World) :
  present (EBAY_APP_ID env) = true ->
  respond env (List.length (fetchedUrls (trace w))) (activeUrl host env term maxPrice)
  = FetchResolved response ->
  http_ok response = true ->
  http_json response = Some (JsonObject (Some searchResult) other) ->
  api_ack searchResult = Some "Success" ->
  api_items searchResult = ItemsArray (map Some items) ->
  exists listings w',
    searchEbayListings host env term maxPrice w = (Returned listings, w')
    /\ map (fun l => (title l, price l, url l)) listings
       = map (fun item => (orElse (api_title item) "Unknown Item",
                           parseFloat host (orElse (api_currentPrice item) "0"),
                           orElse (api_viewItemURL item) "#"))
             (filter (fun item =>
                        (0 <? parseFloat host (orElse (api_currentPrice item) "0"))%float)
                     items)
    /\ draws w' = draws w.
Proof.
  intros Hid Hfetch Hok Hjson Hack Hitems.
  unfold searchEbayListings, tryCatch. rewrite Hid. cbn [negb].
  fold (activeUrl host env term maxPrice).
  unfold bind at 1. unfold fetch, emit. cbv zeta. rewrite Hfetch.
  rewrite Hok. cbn [negb]. unfold bind at 1. unfold json. rewrite Hjson.
  unfold ret at 1. unfold bind at 1. unfold keywordsResponse, ret at 1.
  rewrite Hack, Hitems. cbn [String.eqb Ascii.eqb Bool.eqb].
  match goal with
  | |- context [pushListings _ _ _ [] ?w0] =>
      destruct (pushListings_run items [] w0) as [built [w' [E [Hb Hd]]]]
  end.
  rewrite E. exists built, w'. split; [reflexivity|]. split; [exact Hb | exact Hd].
Qed.

End ActiveSearchRuns.

Section ActiveSearchSamples.

Import JsString EbayMonitor.
Local Open Scope string_scope.
Local Open Scope float_scope.

Lemma searchEbayListings_live_witness :
  exists listings w',
    searchEbayListings sampleHost activeEnv "hen on nest" None emptyWorld
    = (Returned listings, w')
    /\ map (fun l => (title l, price l, url l)) listings
       = [("Fenton Hen on Nest", 24.99, "https://www.ebay.com/itm/24.99")]
    /\ draws w' = draws emptyWorld.
Proof.
  apply (searchEbayListings_live sampleHost activeEnv "hen on nest" None
           sampleActivePage
           {| api_ack := Some "Success";
              api_items := ItemsArray [ sampleApiItem "24.99" "Active";
                                        sampleApiItem "oops" "Active" ] |}
           None
           [ {| api_title := Some "Fenton Hen on Nest";
                api_sellingState := Some "Active";
                api_currentPrice := Some "24.99";
                api_endTime := Some "2024-02-01T10:00:00.000Z";
                api_conditionDisplayName := None;
                api_viewItemURL := Some "https://www.ebay.com/itm/24.99";
                api_galleryURL := None |};
             {| api_title := Some "Fenton Hen on Nest";
                api_sellingState := Some "Active";
                api_currentPrice := Some "oops";
                api_endTime := Some "2024-02-01T10:00:00.000Z";
                api_conditionDisplayName := None;
                api_viewItemURL := Some "https://www.ebay.com/itm/oops";
                api_galleryURL := None |} ]
           emptyWorld); reflexivity.
Defined.

End ActiveSearchSamples.

(** ** The order and the number of the search terms *)

Section SearchTermsOrder.

Import JsString MarketAnalysis.
Local Open Scope string_scope.

Lemma setAdd_length (seen : list string) (x : string) :
  (List.length (setAdd seen x) <= S (List.length seen))%nat.
Proof.
  unfold setAdd. destruct (existsb (String.eqb x) seen); [lia|].
  rewrite length_app. simpl. lia.
Qed.

Lemma fold_setAdd_length (l seen : list string) :
  (List.length (fold_left setAdd l seen) <= List.length seen + List.length l)%nat.
Proof.
  revert seen. induction l as [|x l IH]; intros seen; simpl; [lia|].
  specialize (IH (setAdd seen x)). pose proof (setAdd_length seen x). lia.
Qed.

Lemma fold_setAdd_head (l seen : list string) (x : string) :
  hd_error (fold_left setAdd l (x :: seen)) = Some x.
Proof.
  revert seen. induction l as [|y l IH]; intros seen; [reflexivity|].
  simpl fold_left. unfold setAdd at 2.
  destruct (existsb (String.eqb y) (x :: seen)); [apply IH|].
  change ((x :: seen) ++ [y])%list with (x :: (seen ++ [y]))%list. apply IH.
Qed.

Lemma first_term_truthy (request : MarketAnalysisRequest) :
  truthy (trim (show (itemName request) ++ " " ++ categoryName request)) = true.
Proof.
  destruct (categoryName_solid request) as [Hh Ht].
  destruct (trim_suffix_solid (show (itemName request) ++ " ") (categoryName request) Hh Ht)
    as [u Hu].
  rewrite string_app_assoc in Hu. rewrite Hu.
  destruct (categoryName_cases request) as [-> | ->]; destruct u; reflexivity.
Qed.

(** X13: the first search term is always the item name followed by the
    category phrase, so that is the term the sold search fetches first and
    the synthetic generator titles its sales after; the terms are at most 3,
    plus 5 with a manufacturer, plus 2 with a pattern: never more than
    10. *)
Theorem generateSearchTerms_first_and_size (request : MarketAnalysisRequest) :
  hd_error (generateSearchTerms request)
  = Some (trim (show (itemName request) ++ " " ++ categoryName request))
  /\ (List.length (generateSearchTerms request)
      <= 3 + (if present (manufacturer request) then 5 else 0)
           + (if present (pattern request) then 2 else 0))%nat
  /\ (List.length (generateSearchTerms request) <= 10)%nat.
Proof.
  assert (Hlen : (List.length (generateSearchTerms request)
                  <= 3 + (if present (manufacturer request) then 5 else 0)
                       + (if present (pattern request) then 2 else 0))%nat).
  { unfold generateSearchTerms, newSet.
    pose proof (fold_setAdd_length (filter truthy (combinedTerms request)) []) as H1.
    pose proof (filter_length_le truthy (combinedTerms request)) as H2.
    assert (H3 : List.length (combinedTerms request)
                 = (3 + (if present (manufacturer request) then 5 else 0)
                      + (if present (pattern request) then 2 else 0))%nat).
    { unfold combinedTerms. cbv zeta. rewrite !length_app.
      destruct (present (manufacturer request)), (present (pattern request));
        reflexivity. }
    change (List.length (@nil string)) with 0%nat in H1. lia. }
  split; [|split; [exact Hlen|]].
  - unfold generateSearchTerms, combinedTerms. cbv zeta.
    cbn [app filter]. rewrite first_term_truthy.
    unfold newSet. cbn [fold_left]. unfold setAdd at 2. cbn [existsb app].
    apply fold_setAdd_head.
  - destruct (present (manufacturer request)), (present (pattern request)); lia.
Qed.

End SearchTermsOrder.

(** ** src/utils/customFields.ts *)

Section CategoryIds.

Import JsString CustomFields.
Local Open Scope string_scope.

Lemma lowerChar_idempotent (c : ascii) : lowerChar (lowerChar c) = lowerChar c.
Proof. destruct c as [[] [] [] [] [] [] [] []]; reflexivity. Qed.

Lemma isWhiteSpace_lowerChar (c : ascii) : isWhiteSpace (lowerChar c) = isWhiteSpace c.
Proof. destruct c as [[] [] [] [] [] [] [] []]; reflexivity. Qed.

Lemma toLowerCase_idempotent (s : string) : toLowerCase (toLowerCase s) = toLowerCase s.
Proof. induction s as [|c s IH]; simpl; [reflexivity|]. now rewrite lowerChar_idempotent, IH. Qed.

Lemma noWhiteSpace_replaceRuns (inRun : bool) (s : string) :
  noWhiteSpace (replaceRunsFrom "_" inRun s) = true.
Proof.
  revert inRun. induction s as [|c s IH]; intros inRun; [reflexivity|].
  cbn [replaceRunsFrom]. destruct (isWhiteSpace c) eqn:E.
  - destruct inRun; [apply IH|]. cbn [append noWhiteSpace]. now rewrite IH.
  - cbn [noWhiteSpace]. now rewrite E, IH.
Qed.

Lemma replaceRuns_noWhiteSpace (replacement : string) (inRun : bool) (s : string) :
  noWhiteSpace s = true -> replaceRunsFrom replacement inRun s = s.
Proof.
  revert inRun. induction s as [|c s IH]; intros inRun H; [reflexivity|].
  cbn [noWhiteSpace] in H. apply andb_true_iff in H as [Hc Hs].
  cbn [replaceRunsFrom]. apply negb_true_iff in Hc. rewrite Hc. now rewrite IH.
Qed.

Lemma toLowerCase_replaceRuns (inRun : bool) (s : string) :
  toLowerCase (replaceRunsFrom "_" inRun (toLowerCase s))
  = replaceRunsFrom "_" inRun (toLowerCase s).
Proof.
  revert inRun. induction s as [|c s IH]; intros inRun; [reflexivity|].
  cbn [toLowerCase replaceRunsFrom].
  destruct (isWhiteSpace (lowerChar c)).
  - destruct inRun; [apply IH|]. cbn [append toLowerCase]. now rewrite IH.
  - cbn [toLowerCase]. now rewrite lowerChar_idempotent, IH.
Qed.

(** X14: the id categoryNameToId gives contains no white space and no
    capital letter, and is its own id: converting an id again changes
    nothing.  conditionNameToId is the same function. *)
Theorem categoryNameToId_normal (name : string) :
  noWhiteSpace (categoryNameToId name) = true
  /\ toLowerCase (categoryNameToId name) = categoryNameToId name
  /\ categoryNameToId (categoryNameToId name) = categoryNameToId name
  /\ conditionNameToId name = categoryNameToId name.
Proof.
  unfold conditionNameToId, categoryNameToId, replaceRuns.
  split; [apply noWhiteSpace_replaceRuns|].
  split; [apply toLowerCase_replaceRuns|].
  split; [|reflexivity].
  rewrite toLowerCase_replaceRuns.
  apply replaceRuns_noWhiteSpace, noWhiteSpace_replaceRuns.
Qed.

Variable JSON_parse : string -> option (list string).
Variable JSON_stringify : list string -> string.
Variable toUpperCase : string -> string.

Lemma In_getAllCategories (userId : option string) (storage : LocalStorage)
      (cat : CustomField) :
  In cat (getAllCategories JSON_parse userId storage) ->
  id cat = categoryNameToId (name cat).
Proof.
  unfold getAllCategories. cbv zeta. rewrite in_app_iff, filter_In, in_map_iff.
  intros [[Hin _] | [x [<- _]]]; [|reflexivity].
  destruct Hin as [<- | [<- | [<- | []]]]; reflexivity.
Qed.

Lemma In_getAllConditions (userId : option string) (storage : LocalStorage)
      (cond : CustomField) :
  In cond (getAllConditions JSON_parse userId storage) ->
  id cond = conditionNameToId (name cond).
Proof.
  unfold getAllConditions. cbv zeta. rewrite in_app_iff, filter_In, in_map_iff.
  intros [[Hin _] | [x [<- _]]]; [|reflexivity].
  destruct Hin as [<- | [<- | [<- | [<- | [<- | []]]]]]; reflexivity.
Qed.

Lemma find_id (l : list CustomField) (id0 : string) (cat : CustomField) :
  In cat l -> id cat = id0 ->
  exists found, find (fun c => id c =? id0) l = Some found
                /\ In found l /\ id found = id0.
Proof.
  intros Hin Hid. destruct (find (fun c => id c =? id0) l) as [found|] eqn:E.
  - exists found. apply find_some in E as [H1 H2]. apply String.eqb_eq in H2. auto.
  - apply (find_none _ _ E) in Hin. rewrite Hid, String.eqb_refl in Hin. discriminate.
Qed.

(** X15: every category and every condition the lists offer, default or
    custom, has the id its name converts to; and the name shown for that
    id converts back to the id.  An item opened with categoryIdToName and
    saved with categoryNameToId keeps the category id it had, as long as
    the category is listed. *)
Theorem listed_ids_round_trip (userId : option string) (storage : LocalStorage) :
  (forall cat,
     In cat (getAllCategories JSON_parse userId storage) ->
     id cat = categoryNameToId (name cat)
     /\ categoryNameToId (categoryIdToName JSON_parse toUpperCase (id cat) userId storage)
        = id cat)
  /\ (forall cond,
        In cond (getAllConditions JSON_parse userId storage) ->
        id cond = conditionNameToId (name cond)
        /\ conditionNameToId (conditionIdToName JSON_parse (id cond) userId storage)
           = id cond).
Proof.
  split.
  - intros cat Hin. split; [now apply In_getAllCategories with userId storage|].
    unfold categoryIdToName. cbv zeta.
    destruct (find_id _ (id cat) cat Hin eq_refl) as [found [-> [Hf Hid]]].
    rewrite <- Hid. symmetry. now apply In_getAllCategories with userId storage.
  - intros cond Hin. split; [now apply In_getAllConditions with userId storage|].
    unfold conditionIdToName. cbv zeta.
    destruct (find_id _ (id cond) cond Hin eq_refl) as [found [-> [Hf Hid]]].
    rewrite <- Hid. symmetry. now apply In_getAllConditions with userId storage.
Qed.

(** X16: a default category that the user has not deleted is shown under
    its own name, whatever custom categories are stored: a custom category
    whose name converts to the same id does not replace it. *)
Theorem default_category_name (userId : option string) (storage : LocalStorage)
        (cat : CustomField) :
  In cat DEFAULT_CATEGORIES ->
  listIncludes (getDeletedDefaultCategories JSON_parse userId storage) (name cat) = false ->
  categoryIdToName JSON_parse toUpperCase (id cat) userId storage = name cat.
Proof.
  intros Hin Hkept. unfold categoryIdToName, getAllCategories. cbv zeta.
  set (deleted := getDeletedDefaultCategories JSON_parse userId storage) in *.
  set (customs := map customField (getCustomCategories JSON_parse userId storage)).
  unfold DEFAULT_CATEGORIES in *. cbn [filter name].
  destruct Hin as [<- | [<- | [<- | []]]]; cbn [name id] in *; rewrite ?Hkept;
    destruct (listIncludes deleted "Milk Glass"), (listIncludes deleted "Jadite"),
             (listIncludes deleted "Blue Glass");
    try discriminate; reflexivity.
Qed.

End CategoryIds.

Section CategoryIdsRuns.

Import JsString CustomFields.
Local Open Scope string_scope.

Lemma default_category_name_witness :
  categoryIdToName sampleParse sampleUpper "milk_glass" (Some "u1") sampleStorage
  = "Milk Glass".
Proof.
  apply (default_category_name sampleParse sampleUpper (Some "u1") sampleStorage
           {| id := "milk_glass"; name := "Milk Glass"; isDefault := true |});
    [now left | reflexivity].
Defined.

End CategoryIdsRuns.

(** ** The lists kept in the browser *)

Section StoredLists.

Import JsString CustomFields.
Local Open Scope string_scope.

Variable JSON_parse : string -> option (list string).
Variable JSON_stringify : list string -> string.

Lemma append_inj_left (p a b : string) : p ++ a = p ++ b -> a = b.
Proof. induction p as [|c p IH]; simpl; [auto|]. intros H. injection H as H. auto. Qed.

Lemma getItem_setItem (storage storage' : LocalStorage) (key value k : string) :
  setItem storage key value = Some storage' ->
  getItem storage' k = if k =? key then Some value else getItem storage k.
Proof.
  unfold setItem, getItem. destruct (fits storage key value); [|discriminate].
  intros H. injection H as <-. reflexivity.
Qed.

(** Reading back the list just saved. *)
Lemma getList_saveList_same (prefix : string) (list : list string)
      (userId : option string) (storage : LocalStorage) :
  present userId = true ->
  fits storage (prefix ++ show userId) (JSON_stringify list) = true ->
  truthy (JSON_stringify list) = true ->
  JSON_parse (JSON_stringify list) = Some list ->
  getList JSON_parse prefix userId (saveList JSON_stringify prefix list userId storage)
  = list.
Proof.
  intros Hu Hfits Htruthy Hparse. unfold getList, saveList, setItem, getItem.
  rewrite Hu, Hfits. cbn [negb items]. rewrite String.eqb_refl, Htruthy, Hparse.
  reflexivity.
Qed.

(** Reading a list stored under another key. *)
Lemma getList_saveList_other (p q : string) (list : list string)
      (userId u : option string) (storage : LocalStorage) :
  p ++ show u <> q ++ show userId ->
  getList JSON_parse p u (saveList JSON_stringify q list userId storage)
  = getList JSON_parse p u storage.
Proof.
  intros Hkey. unfold getList, saveList.
  destruct (present u); cbn [negb]; [|reflexivity].
  destruct (present userId); cbn [negb]; [|reflexivity].
  destruct (setItem storage (q ++ show userId) (JSON_stringify list)) as [storage'|] eqn:E;
    [|reflexivity].
  rewrite (getItem_setItem _ _ _ _ _ E).
  apply String.eqb_neq in Hkey. now rewrite Hkey.
Qed.

Lemma getList_saveList_other_user (p : string) (list : list string)
      (userId u : option string) (storage : LocalStorage) :
  u <> userId ->
  getList JSON_parse p u (saveList JSON_stringify p list userId storage)
  = getList JSON_parse p u storage.
Proof.
  intros Hu. destruct (present u) eqn:Pu.
  - destruct (present userId) eqn:Pid.
    + apply getList_saveList_other. intros H. apply append_inj_left in H.
      destruct u as [a|], userId as [b|]; try discriminate.
      simpl in H. congruence.
    + unfold saveList. now rewrite Pid.
  - unfold getList. now rewrite Pu.
Qed.

(** X17: a list saved for a user is the list read back for that user, for
    each of the four lists, when the browser stores the item and
    JSON.parse reads what JSON.stringify wrote. *)
Theorem saved_list_is_read_back (list : list string) (userId : option string)
        (storage : LocalStorage) :
  present userId = true ->
  (forall key, fits storage key (JSON_stringify list) = true) ->
  truthy (JSON_stringify list) = true ->
  JSON_parse (JSON_stringify list) = Some list ->
  getCustomCategories JSON_parse userId
    (saveCustomCategories JSON_stringify list userId storage) = list
  /\ getDeletedDefaultCategories JSON_parse userId
       (saveDeletedDefaultCategories JSON_stringify list userId storage) = list
  /\ getCustomConditions JSON_parse userId
       (saveCustomConditions JSON_stringify list userId storage) = list
  /\ getDeletedDefaultConditions JSON_parse userId
       (saveDeletedDefaultConditions JSON_stringify list userId storage) = list.
Proof.
  intros Hu Hfits Htruthy Hparse.
  repeat split; apply getList_saveList_same; auto.
Qed.

(** X18: the four lists do not share a key, whatever the user ids: saving
    one of them leaves the three others of every user as they were, and
    leaves the same list of every other user as it was.  Without a user id
    nothing is saved and every list reads as empty. *)
Theorem saved_lists_are_separate (list : list string) (userId u : option string)
        (storage : LocalStorage) :
  let saved :=
    [ saveCustomCategories JSON_stringify list userId storage;
      saveDeletedDefaultCategories JSON_stringify list userId storage;
      saveCustomConditions JSON_stringify list userId storage;
      saveDeletedDefaultConditions JSON_stringify list userId storage ] in
  let read storage' :=
    [ getCustomCategories JSON_parse u storage';
      getDeletedDefaultCategories JSON_parse u storage';
      getCustomConditions JSON_parse u storage';
      getDeletedDefaultConditions JSON_parse u storage' ] in
  (forall i j storage',
     i <> j -> nth_error saved i = Some storage' ->
     nth_error (read storage') j = nth_error (read storage) j)
  /\ (u <> userId -> forall storage', In storage' saved -> read storage' = read storage)
  /\ (present userId = false -> forall storage', In storage' saved -> storage' = storage)
  /\ (present u = false -> forall storage', read storage' = [[]; []; []; []]).
Proof.
  cbv zeta.
  assert (Hother : forall p q,
            In p ["custom_categories_"; "deleted_default_categories_";
                  "custom_conditions_"; "deleted_default_conditions_"] ->
            In q ["custom_categories_"; "deleted_default_categories_";
                  "custom_conditions_"; "deleted_default_conditions_"] ->
            p <> q ->
            getList JSON_parse p u (saveList JSON_stringify q list userId storage)
            = getList JSON_parse p u storage).
  { intros p q Hp Hq Hpq. apply getList_saveList_other.
    cbn [In] in Hp, Hq.
    destruct Hp as [<- | [<- | [<- | [<- | []]]]];
      destruct Hq as [<- | [<- | [<- | [<- | []]]]];
      try (now elim Hpq); cbn [append]; discriminate. }
  assert (Huser : u <> userId -> forall p,
            getList JSON_parse p u (saveList JSON_stringify p list userId storage)
            = getList JSON_parse p u storage).
  { intros Hu p. now apply getList_saveList_other_user. }
  unfold getCustomCategories, getDeletedDefaultCategories, getCustomConditions,
    getDeletedDefaultConditions, saveCustomCategories, saveDeletedDefaultCategories,
    saveCustomConditions, saveDeletedDefaultConditions.
  split; [|split; [|split]].
  - intros i j storage' Hij Hi.
    destruct i as [|[|[|[|i]]]]; cbn [nth_error] in Hi;
      try (destruct i; discriminate); injection Hi as <-;
      destruct j as [|[|[|[|j]]]]; try (now elim Hij); cbn [nth_error];
      try reflexivity; f_equal; apply Hother; cbn [In]; auto 6; discriminate.
  - intros Hu storage' Hin. cbn [In] in Hin.
    destruct Hin as [<- | [<- | [<- | [<- | []]]]];
      repeat match goal with
             | |- context [getList JSON_parse ?p u
                             (saveList JSON_stringify ?q list userId storage)] =>
                 first [ rewrite (Huser Hu p)
                       | rewrite (Hother p q)
                           by first [ discriminate | cbn [In]; auto 6 ] ]
             end; reflexivity.
  - intros Hno storage' Hin. cbn [In] in Hin. unfold saveList in Hin.
    rewrite Hno in Hin. cbn [negb] in Hin.
    destruct Hin as [<- | [<- | [<- | [<- | []]]]]; reflexivity.
  - intros Hno storage'. unfold getList. rewrite Hno. reflexivity.
Qed.

End StoredLists.

Section StoredListsRuns.

Import JsString CustomFields.
Local Open Scope string_scope.

Lemma saved_list_is_read_back_witness :
  let list := ["Carnival Glass"; "Depression Glass"] in
  getCustomCategories sampleParse (Some "u1")
    (saveCustomCategories sampleStringify list (Some "u1") sampleStorage) = list
  /\ getDeletedDefaultCategories sampleParse (Some "u1")
       (saveDeletedDefaultCategories sampleStringify list (Some "u1") sampleStorage) = list
  /\ getCustomConditions sampleParse (Some "u1")
       (saveCustomConditions sampleStringify list (Some "u1") sampleStorage) = list
  /\ getDeletedDefaultConditions sampleParse (Some "u1")
       (saveDeletedDefaultConditions sampleStringify list (Some "u1") sampleStorage) = list.
Proof.
  apply (saved_list_is_read_back sampleParse sampleStringify
           ["Carnival Glass"; "Depression Glass"] (Some "u1") sampleStorage);
    [reflexivity | intros key; reflexivity | reflexivity | reflexivity].
Defined.

End StoredListsRuns.

(** ** The handler of the monitor and the found listings *)

Section MonitorTotals.

Import JsString EbayMonitor EbayMonitorServe.
Local Open Scope string_scope.

Variable host : Host.
Variable env : Env.
Variable config : Config.

Lemma processItems_unique (items : list WishlistItem) :
  (forall k, lookupOutcome env k <> Failed) ->
  forall total results,
    keeps (fun w w' => uniqueListings (found_listings w) ->
                       uniqueListings (found_listings w'))
          (processItems host env items total results).
Proof.
  intros HL. induction items as [|item rest IH]; intros total results.
  - intros w H. exact H.
  - cbn [processItems]. apply keeps_bind.
    + intros w1 w2 w3 H12 H23 H. auto.
    + intros w Hu. now apply processWishlistItem_unique.
    + intros n. apply IH.
Qed.

(** X19: as long as every lookup is answered, a request to the monitor
    leaves at most one found listing for every pair of a wish-list item and
    a listing URL, if that was so before: one scheduled run over many items
    adds no duplicate, whatever the inserts and the updates do. *)
Theorem monitor_keeps_unique (req : Request) (w : World) :
  (forall k, lookupOutcome env k <> Failed) ->
  uniqueListings (found_listings w) ->
  uniqueListings (found_listings (snd (serve host env config req w))).
Proof.
  intros HL. revert w.
  change (keeps (fun w w' => uniqueListings (found_listings w) ->
                             uniqueListings (found_listings w'))
                (serve host env config req)).
  assert (Rr : forall w : World,
             uniqueListings (found_listings w) -> uniqueListings (found_listings w))
    by auto.
  assert (Rt : forall w1 w2 w3 : World,
             (uniqueListings (found_listings w1) -> uniqueListings (found_listings w2)) ->
             (uniqueListings (found_listings w2) -> uniqueListings (found_listings w3)) ->
             uniqueListings (found_listings w1) -> uniqueListings (found_listings w3))
    by auto.
  unfold serve. apply keeps_tryCatch; [exact Rt | | intros e; now apply keeps_ret].
  destruct (method req =? "OPTIONS"); [now apply keeps_ret|].
  destruct (negb (method req =? "POST")); [now apply keeps_ret|].
  apply keeps_bind; [exact Rt | | intros _].
  { unfold createClient.
    destruct (clientError config _ _); [now apply keeps_throw | now apply keeps_ret]. }
  apply keeps_bind; [exact Rt | | intros requestData].
  { unfold readRequest.
    destruct (requestBody req);
      [now apply keeps_ret | now apply keeps_throw | now apply keeps_ret]. }
  apply keeps_bind; [exact Rt | | intros selected].
  { intros w0. rewrite selectItems_run. simpl. auto. }
  destruct selected as [response | itemsToProcess]; [now apply keeps_ret|].
  apply keeps_bind; [exact Rt | now apply processItems_unique | intros processed].
  apply keeps_bind; [exact Rt | | intros t; now apply keeps_ret].
  intros w0. simpl. auto.
Qed.

(** When no store call throws, the loop over the items returns a total that
    has grown by the number of found listings added. *)
Lemma processItems_counts (items : list WishlistItem) :
  (forall k, isRaised (lookupOutcome env k) = false) ->
  (forall k, isRaised (insertOutcome env k) = false) ->
  (forall k, isRaised (updateOutcome env k) = false) ->
  forall total results w,
    exists processed w',
      processItems host env items total results w = (Returned processed, w')
      /\ (fst processed + List.length (found_listings w)
          = total + List.length (found_listings w'))%nat.
Proof.
  intros HL HI HU. induction items as [|item rest IH]; intros total results w.
  - exists (total, results), w. split; [reflexivity | simpl; lia].
  - cbn [processItems]. unfold bind at 1.
    destruct (processWishlistItem_effect host env item w)
      as [n [news [H1 [H2 [_ [_ [H5 _]]]]]]].
    specialize (H5 HL HI HU).
    destruct (processWishlistItem host env item w) as [r w1]. simpl in H1, H2. subst r.
    match goal with
    | |- context [processItems _ _ _ ?t ?r w1] =>
        destruct (IH t r w1) as [processed [w' [E Hc]]]
    end.
    exists processed, w'. split; [exact E|].
    rewrite H2, length_app in Hc. lia.
Qed.

(** X20: when no store call throws, the total a summary reports is the
    number of found listings the request added; and a request that is not
    answered with a summary has added none. *)
Theorem monitor_total_counts_rows (req : Request) (w : World) :
  (forall k, isRaised (lookupOutcome env k) = false) ->
  (forall k, isRaised (insertOutcome env k) = false) ->
  (forall k, isRaised (updateOutcome env k) = false) ->
  match summaryOf (fst (serve host env config req w)) with
  | Some summary =>
      totalNewListings summary
      = (List.length (found_listings (snd (serve host env config req w)))
         - List.length (found_listings w))%nat
  | None =>
      found_listings (snd (serve host env config req w)) = found_listings w
  end.
Proof.
  intros HL HI HU.
  destruct (method req =? "POST") eqn:Hpost.
  2:{ unfold serve, tryCatch. rewrite Hpost.
      destruct (method req =? "OPTIONS"); reflexivity. }
  apply String.eqb_eq in Hpost.
  destruct (clientError config (SUPABASE_URL config) (SUPABASE_SERVICE_ROLE_KEY config))
    as [error|] eqn:Hc.
  1:{ unfold serve, tryCatch. rewrite Hpost. cbn [String.eqb Ascii.eqb Bool.eqb negb].
      unfold bind at 1. unfold createClient. rewrite Hc. reflexivity. }
  destruct (requestBody req) as [| |requestData] eqn:Hbody.
  2:{ unfold serve, tryCatch. rewrite Hpost. cbn [String.eqb Ascii.eqb Bool.eqb negb].
      unfold bind at 1. unfold createClient. rewrite Hc.
      unfold ret at 1. unfold bind at 1. unfold readRequest. rewrite Hbody.
      reflexivity. }
  all: rewrite serve_post; auto; try (rewrite Hbody; discriminate).
  all: rewrite Hbody, selectItems_run.
  all: assert (Hrun : forall items,
                 match summaryOf (fst
                   match processItems host env items 0 []
                           (afterStoreCall w (found_listings w) (wishlist_items w)) with
                   | (Returned processed, w2) =>
                       (Returned {| status := 200; headers := jsonHeaders;
                                    body := SummaryPayload
                                              {| success := true;
                                                 itemsProcessed := List.length items;
                                                 totalNewListings := fst processed;
                                                 results := snd processed;
                                                 processedAt :=
                                                   toISOString host
                                                     (Date_now env (ticks w2)) |} |},
                        snd (now env w2))
                   | (Thrown error, w2) =>
                       (Returned {| status := 500; headers := jsonHeaders;
                                    body := ErrorPayload
                                              "Failed to process eBay monitoring"
                                              (Some (message error)) |}, w2)
                   end) with
                 | Some summary =>
                     totalNewListings summary
                     = (List.length (found_listings (snd
                          match processItems host env items 0 []
                                  (afterStoreCall w (found_listings w) (wishlist_items w)) with
                          | (Returned processed, w2) =>
                              (Returned {| status := 200; headers := jsonHeaders;
                                           body := SummaryPayload
                                                     {| success := true;
                                                        itemsProcessed := List.length items;
                                                        totalNewListings := fst processed;
                                                        results := snd processed;
                                                        processedAt :=
                                                          toISOString host
                                                            (Date_now env (ticks w2)) |} |},
                               snd (now env w2))
                          | (Thrown error, w2) =>
                              (Returned {| status := 500; headers := jsonHeaders;
                                           body := ErrorPayload
                                                     "Failed to process eBay monitoring"
                                                     (Some (message error)) |}, w2)
                          end))
                        - List.length (found_listings w))%nat
                 | None =>
                     found_listings (snd
                       match processItems host env items 0 []
                               (afterStoreCall w (found_listings w) (wishlist_items w)) with
                       | (Returned processed, w2) =>
                           (Returned {| status := 200; headers := jsonHeaders;
                                        body := SummaryPayload
                                                  {| success := true;
                                                     itemsProcessed := List.length items;
                                                     totalNewListings := fst processed;
                                                     results := snd processed;
                                                     processedAt :=
                                                       toISOString host
                                                         (Date_now env (ticks w2)) |} |},
                            snd (now env w2))
                       | (Thrown error, w2) =>
                           (Returned {| status := 500; headers := jsonHeaders;
                                        body := ErrorPayload
                                                  "Failed to process eBay monitoring"
                                                  (Some (message error)) |}, w2)
                       end)
                     = found_listings w
                 end).
  1,3: intros items;
       destruct (processItems_counts items HL HI HU 0%nat []
                   (afterStoreCall w (found_listings w) (wishlist_items w)))
         as [processed [w2 [E Hcount]]];
       rewrite E; simpl in *; lia.
  - simpl present.
    destruct (lookupOutcome env (storeCalls w)); try reflexivity. apply Hrun.
  - destruct (lookupOutcome env (storeCalls w)).
    + destruct (present (wishlistItemId requestData)); [|apply Hrun].
      destruct (filter (fun row => id row =? show (wishlistItemId requestData))
                       (wishlist_items w)) as [|r [|r' l]]; try reflexivity.
      apply Hrun.
    + destruct (present (wishlistItemId requestData)); reflexivity.
    + reflexivity.
Qed.

End MonitorTotals.

Section MonitorTotalsRuns.

Import JsString EbayMonitor EbayMonitorServe.
Local Open Scope string_scope.
Local Open Scope float_scope.

Lemma monitor_keeps_unique_witness :
  uniqueListings
    (found_listings (snd (serve sampleHost (offlineEnv 0.5 allDone allDone allDone)
                            sampleConfig scheduledRequest listWorld))).
Proof.
  apply (monitor_keeps_unique sampleHost (offlineEnv 0.5 allDone allDone allDone)
           sampleConfig scheduledRequest listWorld).
  - intros k. discriminate.
  - intros itemId url. simpl. lia.
Defined.

Lemma monitor_total_counts_rows_witness :
  match summaryOf (fst (serve sampleHost (offlineEnv 0.5 allDone allDone allDone)
                          sampleConfig scheduledRequest listWorld)) with
  | Some summary =>
      totalNewListings summary
      = (List.length (found_listings
                        (snd (serve sampleHost (offlineEnv 0.5 allDone allDone allDone)
                                sampleConfig scheduledRequest listWorld)))
         - List.length (found_listings listWorld))%nat
  | None =>
      found_listings (snd (serve sampleHost (offlineEnv 0.5 allDone allDone allDone)
                             sampleConfig scheduledRequest listWorld))
      = found_listings listWorld
  end.
Proof.
  apply (monitor_total_counts_rows sampleHost (offlineEnv 0.5 allDone allDone allDone)
           sampleConfig scheduledRequest listWorld); intros k; reflexivity.
Defined.

End MonitorTotalsRuns.

(** ** A run on synthetic listings *)

Section OfflineRuns.

Import JsString EbayMonitor.
Local Open Scope string_scope.

Variable host : Host.
Variable env : Env.
Variable item : WishlistItem.

(** Listings that share one URL add at most one row, and none when the
    URL is already recorded. *)
Lemma recordListings_same_url (u : string) (listings : list EbayListing) :
  (forall k, lookupOutcome env k = Done) ->
  Forall (fun l => url l = u) listings ->
  forall n w,
    (List.length (filter (sameKey (id item) u) (found_listings w)) <= 1)%nat ->
    (List.length (found_listings (snd (recordListings host env item listings n w)))
     + List.length (filter (sameKey (id item) u) (found_listings w))
     <= List.length (found_listings w) + 1)%nat.
Proof.
  intros HL Hurl. induction Hurl as [|listing rest Hu _ IH]; intros n w Hc.
  - simpl. lia.
  - rewrite recordListings_step. cbv zeta. rewrite HL, Hu.
    destruct (filter (sameKey (id item) u) (found_listings w)) as [|r [|r' l]] eqn:Hf.
    + destruct (insertOutcome env (S (storeCalls w))).
      * match goal with
        | |- context [recordListings _ _ _ rest ?m ?w0] =>
            specialize (IH m w0); cbn [found_listings afterStoreCall] in IH
        end.
        rewrite filter_app, Hf, !length_app in IH. cbn [filter app] in IH.
        replace (sameKey (id item) u (foundRow host env item listing (ticks w)))
          with true in IH by (symmetry; apply sameKey_spec; now split).
        cbn [List.length] in *. specialize (IH ltac:(lia)). lia.
      * match goal with
        | |- context [recordListings _ _ _ rest ?m ?w0] =>
            specialize (IH m w0); cbn [found_listings afterStoreCall] in IH
        end.
        rewrite Hf in IH. cbn [List.length] in *. specialize (IH ltac:(lia)). lia.
      * simpl. lia.
    + specialize (IH n (afterStoreCall w (found_listings w) (wishlist_items w))).
      cbn [found_listings afterStoreCall] in IH. rewrite Hf in IH.
      cbn [List.length] in *. specialize (IH ltac:(lia)). lia.
    + simpl in Hc. lia.
Qed.

(** X21: without a credential, a run of processWishlistItem on a store
    without duplicates, whose lookups the store carries out, adds at most
    one found listing and returns at most 1: the two synthetic listings
    link to the same search URL, so the second is taken for the first. *)
Theorem processWishlistItem_offline (w : World) :
  present (EBAY_APP_ID env) = false ->
  (forall k, lookupOutcome env k = Done) ->
  uniqueListings (found_listings w) ->
  exists n,
    fst (processWishlistItem host env item w) = Returned n
    /\ (n <= 1)%nat
    /\ (List.length (found_listings (snd (processWishlistItem host env item w)))
        <= List.length (found_listings w) + 1)%nat.
Proof.
  intros Hid HL Hu.
  destruct (processWishlistItem_effect host env item w)
    as [n [news [H1 [H2 [_ [H4 _]]]]]].
  exists n. split; [exact H1|].
  assert (Hnews : (List.length news <= 1)%nat); [|rewrite H2, length_app; lia].
  destruct (noSearchTerm item) eqn:Hterm.
  { rewrite (processWishlistItem_skip host env item w Hterm) in H2. simpl in H2.
    assert (Hl : List.length (found_listings w)
                 = List.length (found_listings w ++ news)%list) by now rewrite <- H2.
    rewrite length_app in Hl. lia. }
  destruct (getMockEbayData_run host env (show (ebay_search_term item))
              (desired_price_max item) w) as [a [b [wa [E [_ [_ [_ Ub]]]]]]].
  assert (Hs : searchFor host env item w
               = (Returned (filter (withinBudget (desired_price_max item)) [a; b]), wa)).
  { unfold searchFor, searchEbayListings, tryCatch. rewrite Hid. cbn [negb].
    now rewrite E. }
  pose proof (sameStore_getMockEbayData host env (show (ebay_search_term item))
                (desired_price_max item) w) as [_ [Hfa _]].
  rewrite E in Hfa. simpl in Hfa.
  destruct (recordListings host env item
              (filter (withinBudget (desired_price_max item)) [a; b]) 0 wa)
    as [r wb] eqn:Hl.
  rewrite (processWishlistItem_found host env item w wa wb _ r Hterm Hs Hl) in H2.
  pose proof (recordListings_same_url (url a)
                (filter (withinBudget (desired_price_max item)) [a; b]) HL) as Hsame.
  specialize (Hsame ltac:(apply Forall_forall; intros l Hin;
                          apply filter_In in Hin as [[<- | [<- | []]] _]; auto) 0%nat wa).
  rewrite Hl, Hfa in Hsame. simpl snd in Hsame.
  specialize (Hsame (Hu (id item) (url a))).
  rewrite H2, length_app in Hsame. lia.
Qed.

End OfflineRuns.

Section OfflineRunsSamples.

Import JsString EbayMonitor.
Local Open Scope string_scope.
Local Open Scope float_scope.

Lemma processWishlistItem_offline_witness :
  exists n,
    fst (processWishlistItem sampleHost (offlineEnv 0.5 allDone allDone allDone)
           sampleWish wishWorld) = Returned n
    /\ (n <= 1)%nat
    /\ (List.length (found_listings (snd
          (processWishlistItem sampleHost (offlineEnv 0.5 allDone allDone allDone)
             sampleWish wishWorld)))
        <= List.length (found_listings wishWorld) + 1)%nat.
Proof.
  apply (processWishlistItem_offline sampleHost (offlineEnv 0.5 allDone allDone allDone)
           sampleWish wishWorld).
  - reflexivity.
  - intros k. reflexivity.
  - intros itemId url. simpl. lia.
Defined.

End OfflineRunsSamples.

(** ** The lists shown after a save *)

Section ListsAfterSave.

Import JsString CustomFields.
Local Open Scope string_scope.

Variable JSON_parse : string -> option (list string).
Variable JSON_stringify : list string -> string.

(** X22: what the settings show after a save that the browser stores.
    After the custom categories are saved, the categories are the default
    ones not deleted before, followed by one category for each saved name,
    in the saved order; after the deleted default categories are saved, the
    categories are the default ones whose name is not in the saved list,
    followed by the custom categories as they were.  Neither save changes
    the conditions of any user. *)
Theorem categories_after_save (list : list string) (userId u : option string)
        (storage : LocalStorage) :
  present userId = true ->
  (forall key, fits storage key (JSON_stringify list) = true) ->
  truthy (JSON_stringify list) = true ->
  JSON_parse (JSON_stringify list) = Some list ->
  getAllCategories JSON_parse userId
    (saveCustomCategories JSON_stringify list userId storage)
  = (filter (fun cat =>
               negb (listIncludes (getDeletedDefaultCategories JSON_parse userId storage)
                                  (name cat)))
            DEFAULT_CATEGORIES
     ++ map customField list)%list
  /\ getAllCategories JSON_parse userId
       (saveDeletedDefaultCategories JSON_stringify list userId storage)
     = (filter (fun cat => negb (listIncludes list (name cat))) DEFAULT_CATEGORIES
        ++ map customField (getCustomCategories JSON_parse userId storage))%list
  /\ getAllConditions JSON_parse u
       (saveCustomCategories JSON_stringify list userId storage)
     = getAllConditions JSON_parse u storage
  /\ getAllConditions JSON_parse u
       (saveDeletedDefaultCategories JSON_stringify list userId storage)
     = getAllConditions JSON_parse u storage.
Proof.
  intros Hu Hfits Htruthy Hparse.
  unfold getAllCategories, getAllConditions. cbv zeta.
  unfold getCustomCategories, getDeletedDefaultCategories, getCustomConditions,
    getDeletedDefaultConditions, saveCustomCategories, saveDeletedDefaultCategories.
  rewrite !(getList_saveList_same JSON_parse JSON_stringify) by auto.
  rewrite !(getList_saveList_other JSON_parse JSON_stringify)
    by (cbn [append]; discriminate).
  repeat split.
Qed.

End ListsAfterSave.

Section ListsAfterSaveRuns.

Import JsString CustomFields.
Local Open Scope string_scope.

Lemma categories_after_save_witness :
  let list := ["Carnival Glass"; "Depression Glass"] in
  getAllCategories sampleParse (Some "u1")
    (saveCustomCategories sampleStringify list (Some "u1") sampleStorage)
  = (filter (fun cat =>
               negb (listIncludes
                       (getDeletedDefaultCategories sampleParse (Some "u1") sampleStorage)
                       (name cat)))
            DEFAULT_CATEGORIES
     ++ map customField list)%list
  /\ getAllCategories sampleParse (Some "u1")
       (saveDeletedDefaultCategories sampleStringify list (Some "u1") sampleStorage)
     = (filter (fun cat => negb (listIncludes list (name cat))) DEFAULT_CATEGORIES
        ++ map customField (getCustomCategories sampleParse (Some "u1") sampleStorage))%list
  /\ getAllConditions sampleParse (Some "u2")
       (saveCustomCategories sampleStringify list (Some "u1") sampleStorage)
     = getAllConditions sampleParse (Some "u2") sampleStorage
  /\ getAllConditions sampleParse (Some "u2")
       (saveDeletedDefaultCategories sampleStringify list (Some "u1") sampleStorage)
     = getAllConditions sampleParse (Some "u2") sampleStorage.
Proof.
  apply (categories_after_save sampleParse sampleStringify
           ["Carnival Glass"; "Depression Glass"] (Some "u1") (Some "u2") sampleStorage);
    [reflexivity | intros key; reflexivity | reflexivity | reflexivity].
Defined.

End ListsAfterSaveRuns.

(** ** The analysis of synthetic sales *)

Section SyntheticAnalysis.

Import JsString MarketAnalysis.
Local Open Scope string_scope.

Lemma toLowerCase_app (a b : string) :
  toLowerCase (a ++ b) = toLowerCase a ++ toLowerCase b.
Proof. induction a as [|c a IH]; simpl; [reflexivity | now rewrite IH]. Qed.

Lemma includes_lower (before sub rest : string) :
  includes (toLowerCase (before ++ sub ++ rest)) (toLowerCase sub) = true.
Proof. rewrite !toLowerCase_app. apply includes_app. Qed.

Lemma trimEnd_idempotent (s : string) : trimEnd (trimEnd s) = trimEnd s.
Proof.
  induction s as [|c s IH]; [reflexivity|].
  cbn [trimEnd]. destruct (trimEnd s) as [|d t] eqn:E.
  - destruct (isWhiteSpace c) eqn:Ec; [reflexivity|]. cbn [trimEnd]. now rewrite Ec.
  - cbn [trimEnd] in *. now rewrite IH.
Qed.

Lemma trimStart_head (s : string) : trimStart s = "" \/ headSolid (trimStart s) = true.
Proof.
  induction s as [|c s IH]; [now left|].
  cbn [trimStart]. destruct (isWhiteSpace c) eqn:E; [exact IH|].
  right. cbn [headSolid]. now rewrite E.
Qed.

Lemma trimEnd_head (s : string) : headSolid s = true -> headSolid (trimEnd s) = true.
Proof.
  destruct s as [|c s]; [discriminate|]. cbn [headSolid trimEnd]. intros H.
  destruct (trimEnd s); [|exact H].
  apply negb_true_iff in H. rewrite H. cbn [headSolid]. now rewrite H.
Qed.

(** A term that [trim] leaves non-empty starts and ends with a character
    that is not white space. *)
Lemma trim_solid (s : string) :
  truthy (trim s) = true -> headSolid (trim s) = true /\ tailSolid (trim s) = true.
Proof.
  unfold trim, tailSolid. intros H. split.
  - destruct (trimStart_head s) as [E | E].
    + rewrite E in H. discriminate.
    + now apply trimEnd_head.
  - rewrite H, trimEnd_idempotent, String.eqb_refl. reflexivity.
Qed.

Lemma generateSearchTerms_cons (request : MarketAnalysisRequest) :
  exists rest,
    generateSearchTerms request
    = trim (show (itemName request) ++ " " ++ categoryName request) :: rest.
Proof.
  assert (H : hd_error (generateSearchTerms request)
              = Some (trim (show (itemName request) ++ " " ++ categoryName request))).
  { unfold generateSearchTerms, combinedTerms. cbv zeta.
    cbn [app filter]. rewrite first_term_truthy.
    unfold newSet. cbn [fold_left]. unfold setAdd at 2. cbn [existsb app].
    apply fold_setAdd_head. }
  destruct (generateSearchTerms request) as [|t rest]; [discriminate|].
  injection H as ->. now exists rest.
Qed.

Variable host : Host.
Variable env : Env.
Variable loneSurrogate : string -> bool.

(** When the first term starts and ends with a character that is not white
    space, every synthetic sale is titled after it, so none is filtered
    out. *)
Lemma getMockData_three (p : string) (rest : list string) (w : World) :
  headSolid p = true -> tailSolid p = true ->
  exists sold w',
    getMockData host env (p :: rest) w = (Returned sold, w')
    /\ List.length sold = 3%nat.
Proof.
  intros Hh Ht.
  assert (Hp : truthy p = true) by (destruct p; [discriminate | reflexivity]).
  assert (H1 : forall m r, includes (toLowerCase (m ++ " " ++ p ++ r)) (toLowerCase p) = true).
  { intros m r. rewrite <- string_app_assoc. apply includes_lower. }
  assert (H2 : forall sfx,
             includes (toLowerCase (trim ("Vintage " ++ p ++ " " ++ sfx))) (toLowerCase p)
             = true).
  { intros sfx. rewrite (trim_prepend "Vintage " p (" " ++ sfx)) by auto.
    destruct (trim_prefix_solid p (" " ++ sfx) Hh Ht) as [v ->]. apply includes_lower. }
  assert (H3 : forall sfx,
             includes (toLowerCase (trim (p ++ " Collectible Glass " ++ sfx)))
                      (toLowerCase p) = true).
  { intros sfx. destruct (trim_prefix_solid p (" Collectible Glass " ++ sfx) Hh Ht)
      as [v ->]. apply (includes_lower "" p v). }
  revert w. unfold getMockData. cbn [hd_error orElse]. rewrite Hp.
  repeat (apply returns_with_bind;
          [first [apply returns_mockPrice | apply returns_mockSoldDate] | intros ?]).
  intros w. do 2 eexists. split; [reflexivity|].
  cbn [filter title existsb]. rewrite H1, H2, H3. reflexivity.
Qed.

(** X23: without a credential, a POST with a name and a category, when
    [encodeURIComponent] accepts the queries of the synthetic generator, is
    always answered with exactly three recent sales and the confidence
    medium, and nothing is fetched: the synthetic sales are titled after
    the first search term, so the filter on the titles keeps all three. *)
Theorem analysis_without_credential (req : Request)
        (requestData : MarketAnalysisRequest) (w : World) :
  method req = "POST" ->
  requestBody req = BodyObject requestData ->
  present (itemName requestData) = true ->
  present (category requestData) = true ->
  present (EBAY_APP_ID env) = false ->
  accepted loneSurrogate (mockQueries (generateSearchTerms requestData)) ->
  exists response,
    analysisOf (fst (Malformed.serve host env loneSurrogate req w)) = Some response
    /\ List.length (recentSales (analysis response)) = 3%nat
    /\ confidence (analysis response) = medium
    /\ searchTermsUsed response = generateSearchTerms requestData
    /\ trace (snd (Malformed.serve host env loneSurrogate req w)) = trace w.
Proof.
  intros Hm Hb Hname Hcat Hid Hq.
  destruct (generateSearchTerms_cons requestData) as [rest Hterms].
  destruct (trim_solid _ (first_term_truthy requestData)) as [Hh Ht].
  destruct (getMockData_three _ rest w Hh Ht) as [sold [w' [E Hlen]]].
  rewrite <- Hterms in E.
  pose proof (sameTrace_getMockData host env (generateSearchTerms requestData) w) as Htr.
  rewrite E in Htr. simpl in Htr.
  assert (Hserve : Malformed.serve host env loneSurrogate req w
                   = (Returned {| status := 200; headers := jsonHeaders;
                                  body := AnalysisPayload
                                            {| analysis := calculateMarketAnalysis sold;
                                               searchTermsUsed :=
                                                 generateSearchTerms requestData |} |},
                      w')).
  { rewrite (serve_valid host env loneSurrogate req requestData w Hm Hb Hname Hcat).
    unfold Malformed.searcheBaySoldListings, tryCatch. rewrite Hid. cbn [negb].
    rewrite (getMockData_accepted host env loneSurrogate _ Hq), E. reflexivity. }
  rewrite Hserve. eexists. split; [reflexivity|].
  cbn [analysis searchTermsUsed snd].
  destruct sold as [|s1 [|s2 [|s3 [|s4 more]]]]; try discriminate.
  repeat split. exact Htr.
Qed.

End SyntheticAnalysis.

Section SyntheticAnalysisRuns.

Import JsString MarketAnalysis.
Local Open Scope string_scope.
Local Open Scope float_scope.

Lemma analysis_without_credential_witness :
  exists response,
    analysisOf (fst (Malformed.serve sampleHost (offlineEnv 0.5 allDone allDone allDone)
                          sampleLoneSurrogate henRequest emptyWorld)) = Some response
    /\ List.length (recentSales (analysis response)) = 3%nat
    /\ confidence (analysis response) = medium
    /\ searchTermsUsed response
       = generateSearchTerms
           {| itemName := Some "Hen on Nest"; manufacturer := Some "Fenton";
              pattern := None; category := Some "milk_glass";
              description := None; photoUrl := None |}
    /\ trace (snd (Malformed.serve sampleHost (offlineEnv 0.5 allDone allDone allDone)
                         sampleLoneSurrogate henRequest emptyWorld)) = trace emptyWorld.
Proof.
  apply (analysis_without_credential sampleHost (offlineEnv 0.5 allDone allDone allDone)
           sampleLoneSurrogate henRequest
           {| itemName := Some "Hen on Nest"; manufacturer := Some "Fenton";
              pattern := None; category := Some "milk_glass";
              description := None; photoUrl := None |} emptyWorld);
    try reflexivity.
  repeat constructor.
Defined.

End SyntheticAnalysisRuns.

(** ** The active search when the request fails *)

Section ActiveSearchFallback.

Import JsString EbayMonitor.
Local Open Scope string_scope.

Variable host : Host.
Variable env : Env.

(** X24: with a credential, when the request of the active search is
    rejected, is answered with a status that is not a success, or is
    answered with a body that is not JSON, the search returns what the
    synthetic generator gives for the same term and price ceiling, run
    after the one request. *)
Theorem searchEbayListings_fallback (term : string) (maxPrice : option float)
        (w : World) :
  present (EBAY_APP_ID env) = true ->
  ((exists e,
      respond env (List.length (fetchedUrls (trace w))) (activeUrl host env term maxPrice)
      = FetchRejected e)
   \/ (exists response,
         respond env (List.length (fetchedUrls (trace w)))
                 (activeUrl host env term maxPrice)
         = FetchResolved response
         /\ (http_ok response = false \/ http_json response = None))) ->
  searchEbayListings host env term maxPrice w
  = getMockEbayData host env term maxPrice
      (snd (fetch env (activeUrl host env term maxPrice) w)).
Proof.
  intros Hid Hfail.
  unfold searchEbayListings. rewrite Hid. cbn [negb].
  fold (activeUrl host env term maxPrice).
  remember (snd (fetch env (activeUrl host env term maxPrice) w)) as w1 eqn:Hw1.
  assert (Hf : fetch env (activeUrl host env term maxPrice) w
               = (match respond env (List.length (fetchedUrls (trace w)))
                                (activeUrl host env term maxPrice) with
                  | FetchRejected e => Thrown e
                  | FetchResolved r => Returned r
                  end, w1)).
  { rewrite Hw1. unfold fetch, emit. cbv zeta.
    destruct (respond env _ _); reflexivity. }
  destruct (returns_getMockEbayData host env term maxPrice w1) as [l [w' E]].
  unfold tryCatch at 1. unfold bind at 1. rewrite Hf.
  destruct Hfail as [[e ->] | [response [-> [Hok | Hjson]]]].
  - reflexivity.
  - rewrite Hok. cbn [negb]. now rewrite E.
  - destruct (http_ok response); cbn [negb]; [|now rewrite E].
    unfold bind at 1. unfold json. rewrite Hjson. reflexivity.
Qed.

End ActiveSearchFallback.

Section ActiveSearchFallbackRuns.

Import JsString EbayMonitor.
Local Open Scope string_scope.
Local Open Scope float_scope.

Lemma searchEbayListings_fallback_witness :
  searchEbayListings sampleHost liveEnv "hen on nest" (Some 30)
    (snd (fetch liveEnv "first" emptyWorld))
  = getMockEbayData sampleHost liveEnv "hen on nest" (Some 30)
      (snd (fetch liveEnv (activeUrl sampleHost liveEnv "hen on nest" (Some 30))
              (snd (fetch liveEnv "first" emptyWorld)))).
Proof.
  apply (searchEbayListings_fallback sampleHost liveEnv "hen on nest" (Some 30)
           (snd (fetch liveEnv "first" emptyWorld))).
  - reflexivity.
  - right. exists {| http_status := 500; http_json := None |}.
    split; [reflexivity | left; reflexivity].
Defined.

End ActiveSearchFallbackRuns.
